(** * Order, payment and chat workflow of the supplement store

    A shallow embedding of the route handlers and client callbacks that
    carry the order / payment / chat workflow:

    - the checkout endpoint   ([Checkout.POST]),
    - the Stripe webhook      ([StripeWebhook.POST]),
    - the admin order screen  ([AdminOrders.updateOrderStatus]),
    - the message endpoints   ([MessagesApi.POST], [ChatApi.POST]),
    - the chat screens        ([AdminMessages.loadThreads],
                               [subscribeRealtime] insert handlers,
                               [sendMessage]).

    Conventions of the model.

    - A number that arrives in a request is a JavaScript number.  The model
      takes it as the rational it denotes ([Q]) and adds and multiplies
      exactly; the rounding error of double arithmetic is left out.
    - An amount on record sits in a [DECIMAL(10,2)] column and is a whole
      number of cents ([Z]).  A number written to such a column is rounded
      to two decimals, ties away from zero, and refused when the result
      has more than eight digits before the point.  Quantities are numbers
      holding integers.
    - A value that may be [undefined] / [null] is an [option].
    - The hosted database is a record of tables (lists of rows, in insertion
      order).  A statement is refused when it violates a constraint of the
      schema (CHECK, NOT NULL, UNIQUE, FOREIGN KEY, column range); a refused
      statement leaves the store as it was.  Timestamps are not tracked.
    - A string is a sequence of code units below 256. *)

From Stdlib Require Import List ZArith QArith Qround String Ascii Bool Lia Lqa
  DecimalString Permutation.
Import ListNotations.

Close Scope Q_scope.
Local Open Scope string_scope.
Local Open Scope list_scope.
Local Open Scope Z_scope.

(** ** JavaScript truthiness *)

Module Js.

(** [v || d] for a number that may be absent: [undefined] and [0] are falsy. *)
Definition num_or (v : option Z) (d : Z) : Z :=
  match v with
  | Some n => if n =? 0 then d else n
  | None => d
  end.

(** [v || d] for a number that need not be an integer: [undefined] and [0]
    are falsy. *)
Definition number_or (v : option Q) (d : Q) : Q :=
  match v with
  | Some n => if Qeq_bool n 0 then d else n
  | None => d
  end.

(** [Math.round(x)]: the nearest integer, a tie going up. *)
Definition Math_round (x : Q) : Z := Qfloor (x + (1 # 2))%Q.

(** [!!s] for a string that may be absent: [undefined] and [''] are falsy. *)
Definition truthy (s : option string) : bool :=
  match s with
  | Some x => negb (x =? "")%string
  | None => false
  end.

(** [s || d] for a string that may be absent. *)
Definition str_or (s : option string) (d : string) : string :=
  match s with
  | Some x => if (x =? "")%string then d else x
  | None => d
  end.

(** White space and line terminators recognised by [String.prototype.trim],
    among the code units below 256: TAB, LF, VT, FF, CR, SPACE, NBSP. *)
Definition is_white_space (c : ascii) : bool :=
  let n := nat_of_ascii c in
  (Nat.eqb n 9 || Nat.eqb n 10 || Nat.eqb n 11 || Nat.eqb n 12
   || Nat.eqb n 13 || Nat.eqb n 32 || Nat.eqb n 160)%bool.

Fixpoint trimStart (s : string) : string :=
  match s with
  | EmptyString => EmptyString
  | String c rest => if is_white_space c then trimStart rest else s
  end.

(** [trimEnd]: drop the trailing white space; a character is kept when it
    is not white space or when something is kept after it. *)
Fixpoint trimEnd (s : string) : string :=
  match s with
  | EmptyString => EmptyString
  | String c rest =>
      match trimEnd rest with
      | EmptyString => if is_white_space c then EmptyString else String c EmptyString
      | kept => String c kept
      end
  end.

Definition trim (s : string) : string := trimEnd (trimStart s).

End Js.

(** ** The persistent store (schema of the database setup script) *)

Inductive order_status : Type :=
| pending | processing | shipped | delivered | cancelled.

Definition order_status_eqb (a b : order_status) : bool :=
  match a, b with
  | pending, pending | processing, processing | shipped, shipped
  | delivered, delivered | cancelled, cancelled => true
  | _, _ => false
  end.

Module Products.
Record row : Type := mk
  { id : string; price : Z; stock_quantity : Z; is_active : bool }.
End Products.

Module Orders.
Record row : Type := mk
  { id : string;
    customer_id : string;
    total_amount : Z;
    status : order_status;
    shipping_address : string }.

(** The columns an [insert] supplies; [id] is generated. *)
Record insert : Type := mkInsert
  { i_customer_id : string;
    i_status : order_status;
    i_total_amount : Q;                (* the number sent, in dollars *)
    i_shipping_address : string }.

Definition with_status (s : order_status) (o : row) : row :=
  mk (id o) (customer_id o) (total_amount o) s (shipping_address o).
End Orders.

Module OrderItems.
Record row : Type := mk
  { id : string;
    order_id : string;
    product_id : string;
    quantity : Z;
    unit_price : Z }.

Record insert : Type := mkInsert
  { i_order_id : string;
    i_product_id : option string;
    i_quantity : Z;
    i_unit_price : Q }.                (* the number sent, in dollars *)
End OrderItems.

Module Payments.
Record row : Type := mk
  { id : string;
    order_id : string;
    amount : Z;
    payment_method : string;
    transaction_id : option string;
    status : string }.

Record insert : Type := mkInsert
  { i_order_id : string;
    i_amount : Z;
    i_status : string;
    i_payment_method : string;
    i_transaction_id : option string }.
End Payments.

Module Db.

Record Store : Type := mkStore
  { users : list string;               (* ids of the rows of [users] *)
    products : list Products.row;
    orders : list Orders.row;
    order_items : list OrderItems.row;
    payments : list Payments.row;
    next_uuid : nat }.                 (* source of generated primary keys *)

(** Primary keys come from [uuid_generate_v4()]; the model draws them from a
    counter, so that successive keys are distinct. *)
Definition uuid_generate_v4 (n : nat) : string :=
  ("uuid-" ++ NilZero.string_of_uint (Nat.to_uint n))%string.

(** A number of dollars rounded to two decimals the way [NUMERIC] does it,
    ties away from zero; the result is in cents. *)
Definition round_cents (x : Q) : Z :=
  let y := (x * (100 # 1))%Q in
  if Qle_bool 0 y then Qfloor (y + (1 # 2))%Q
  else - Qfloor (- y + (1 # 2))%Q.

(** The range of [DECIMAL(10,2)]: at most eight digits before the point
    (value in cents). *)
Definition fits_10_2 (cents : Z) : bool := Z.abs cents <? 10 ^ 10.

(** Writing a number to a [DECIMAL(10,2)] column: the amount that is
    stored, in cents, or [None] for a numeric overflow. *)
Definition decimal_10_2 (x : Q) : option Z :=
  let cents := round_cents x in
  if fits_10_2 cents then Some cents else None.

(** A [DECIMAL(10,2)] column with [CHECK (column > 0)] takes the number:
    the check sees the rounded amount. *)
Definition positive_10_2 (x : Q) : bool :=
  match decimal_10_2 x with
  | Some cents => 0 <? cents
  | None => false
  end.

(** A stored amount as the number the client library hands out. *)
Definition to_number (cents : Z) : Q := cents # 100.

(** [INTEGER]: a 32-bit signed integer. *)
Definition int4 (n : Z) : bool := (- 2 ^ 31 <=? n) && (n <? 2 ^ 31).

Definition mem (x : string) (l : list string) : bool :=
  existsb (String.eqb x) l.

(** *** orders *)

(** [customer_id REFERENCES users(id)], [CHECK (total_amount > 0)]. *)
Definition orders_accepts (st : Store) (r : Orders.insert) : bool :=
  mem (Orders.i_customer_id r) (users st)
  && positive_10_2 (Orders.i_total_amount r).

(** [from('orders').insert(r).select('*').single()]: the new row, or an
    error ([None]). *)
Definition insert_order (st : Store) (r : Orders.insert)
  : Store * option Orders.row :=
  if orders_accepts st r then
    let o := Orders.mk (uuid_generate_v4 (next_uuid st))
                       (Orders.i_customer_id r)
                       (round_cents (Orders.i_total_amount r))
                       (Orders.i_status r) (Orders.i_shipping_address r) in
    (mkStore (users st) (products st) (orders st ++ [o]) (order_items st)
             (payments st) (S (next_uuid st)),
     Some o)
  else (st, None).

(** [from('orders').update({ status }).eq('id', orderId)]: every row whose
    id matches gets the status; matching no row is not an error. *)
Definition update_order_status (st : Store) (orderId : string)
  (s : order_status) : Store :=
  mkStore (users st) (products st)
          (map (fun o => if (Orders.id o =? orderId)%string
                         then Orders.with_status s o else o) (orders st))
          (order_items st) (payments st) (next_uuid st).

(** *** order_items *)

(** One row of a batch: [order_id REFERENCES orders(id)],
    [product_id NOT NULL REFERENCES products(id)], [CHECK (quantity > 0)],
    [CHECK (unit_price > 0)]; the price is stored rounded to cents.  [None]
    when the row is refused. *)
Definition order_item_row (st : Store) (n : nat) (r : OrderItems.insert)
  : option OrderItems.row :=
  match OrderItems.i_product_id r with
  | None => None
  | Some pid =>
      if mem (OrderItems.i_order_id r) (map Orders.id (orders st))
         && mem pid (map Products.id (products st))
         && (0 <? OrderItems.i_quantity r) && int4 (OrderItems.i_quantity r)
         && positive_10_2 (OrderItems.i_unit_price r)
      then Some (OrderItems.mk (uuid_generate_v4 n) (OrderItems.i_order_id r)
                               pid (OrderItems.i_quantity r)
                               (round_cents (OrderItems.i_unit_price r)))
      else None
  end.

Fixpoint order_item_rows (st : Store) (n : nat) (rs : list OrderItems.insert)
  : option (list OrderItems.row) :=
  match rs with
  | [] => Some []
  | r :: rest =>
      match order_item_row st n r, order_item_rows st (S n) rest with
      | Some x, Some xs => Some (x :: xs)
      | _, _ => None
      end
  end.

(** [from('order_items').insert(rows)]: one statement, so either every row
    of the batch is stored or none is.  [true] when the statement succeeds. *)
Definition insert_order_items (st : Store) (rs : list OrderItems.insert)
  : Store * bool :=
  match order_item_rows st (next_uuid st) rs with
  | Some rows =>
      (mkStore (users st) (products st) (orders st) (order_items st ++ rows)
               (payments st) (next_uuid st + List.length rows)%nat,
       true)
  | None => (st, false)
  end.

(** *** payments *)

(** [transaction_id VARCHAR(255) UNIQUE]: a non-null id may occur once. *)
Definition transaction_id_free (st : Store) (t : option string) : bool :=
  match t with
  | None => true
  | Some x =>
      negb (existsb (fun p => match Payments.transaction_id p with
                              | Some y => (y =? x)%string
                              | None => false
                              end) (payments st))
  end.

Definition varchar (n : nat) (s : string) : bool :=
  Nat.leb (String.length s) n.

(** [order_id REFERENCES orders(id)], [CHECK (amount > 0)],
    [transaction_id UNIQUE].  The amount the webhook writes is a whole
    number of cents divided by 100, so it is kept in cents. *)
Definition payments_accepts (st : Store) (r : Payments.insert) : bool :=
  mem (Payments.i_order_id r) (map Orders.id (orders st))
  && (0 <? Payments.i_amount r) && fits_10_2 (Payments.i_amount r)
  && varchar 100 (Payments.i_payment_method r)
  && varchar 50 (Payments.i_status r)
  && match Payments.i_transaction_id r with
     | Some t => varchar 255 t
     | None => true
     end
  && transaction_id_free st (Payments.i_transaction_id r).

(** [from('payments').insert(r)]; [true] when the statement succeeds. *)
Definition insert_payment (st : Store) (r : Payments.insert) : Store * bool :=
  if payments_accepts st r then
    let p := Payments.mk (uuid_generate_v4 (next_uuid st))
                         (Payments.i_order_id r) (Payments.i_amount r)
                         (Payments.i_payment_method r)
                         (Payments.i_transaction_id r) (Payments.i_status r) in
    (mkStore (users st) (products st) (orders st) (order_items st)
             (payments st ++ [p]) (S (next_uuid st)),
     true)
  else (st, false).

(** The non-null transaction ids on record, one per payment row that has
    one.  The UNIQUE constraint keeps them pairwise distinct. *)
Definition transaction_ids (st : Store) : list string :=
  flat_map (fun p => match Payments.transaction_id p with
                     | Some t => [t]
                     | None => []
                     end) (payments st).


End Db.

(** ** HTTP responses: status code and, for a failure, the error text *)

Record Response : Type := mkResponse
  { http_status : nat; error : option string }.

Definition json_ok : Response := mkResponse 200 None.
Definition json_error (msg : string) (code : nat) : Response :=
  mkResponse code (Some msg).

(** ** The checkout endpoint *)

Module Checkout.

(** The [product] object of a cart line, as far as the handler reads it. *)
Record ProductPayload : Type := mkProduct
  { id : option string;
    name : option string;
    image_url : option string;
    price : option Q }.                 (* any number, in dollars *)

Record CartItem : Type := mkCartItem
  { product : option ProductPayload;
    quantity : option Z }.

(** The request body; [cartItems] is [None] when it is not an array. *)
Record Body : Type := mkBody
  { cartItems : option (list CartItem);
    userId : option string;
    shippingAddress : option string }.

Record LineItem : Type := mkLineItem
  { li_name : string;
    li_images : list string;
    li_unit_amount : Z;
    li_quantity : Z }.

Record Session : Type := mkSession { session_id : string; session_url : string }.

(** [item.product?.price || 0] *)
Definition price_of (item : CartItem) : Q :=
  Js.number_or (match product item with Some p => price p | None => None end)
               0.

(** [item.quantity || 1] *)
Definition quantity_of (item : CartItem) : Z := Js.num_or (quantity item) 1.

(** [item.product?.id] *)
Definition product_id_of (item : CartItem) : option string :=
  match product item with Some p => id p | None => None end.

(** [cartItems.reduce((sum, item) => sum + price * quantity, 0)] *)
Definition totalAmount (cart : list CartItem) : Q :=
  fold_left (fun sum item => sum + price_of item * inject_Z (quantity_of item))%Q
            cart 0%Q.

Definition itemsPayload (order : Orders.row) (cart : list CartItem)
  : list OrderItems.insert :=
  map (fun item => OrderItems.mkInsert (Orders.id order) (product_id_of item)
                                       (quantity_of item) (price_of item))
      cart.

(** [Math.round((item.product?.price || 0) * 100)] *)
Definition unit_amount (item : CartItem) : Z :=
  Js.Math_round (price_of item * (100 # 1))%Q.

Definition line_items (cart : list CartItem) : list LineItem :=
  map (fun item =>
         let p := product item in
         mkLineItem
           (Js.str_or (match p with Some x => name x | None => None end) "Product")
           (match p with
            | Some x => if Js.truthy (image_url x)
                        then match image_url x with Some u => [u] | None => [] end
                        else []
            | None => []
            end)
           (unit_amount item) (quantity_of item))
      cart.

Section Handler.

(** [stripe.checkout.sessions.create]: the session for the line items and
    the metadata [order_id], [user_id], or the message of the error it
    throws. *)
Variable stripe_checkout_sessions_create :
  list LineItem -> string -> string -> Session + string.

Definition POST (st : Db.Store) (body : Body) : Db.Store * Response :=
  match cartItems body with
  | None | Some [] => (st, json_error "Cart is empty" 400)
  | Some cart =>
      match userId body with
      | None => (st, json_error "Missing userId" 400)
      | Some uid =>
          if (uid =? "")%string then (st, json_error "Missing userId" 400)
          else
            (* 1) Create pending order *)
            match Db.insert_order st
                    (Orders.mkInsert uid pending (totalAmount cart)
                                     (Js.str_or (shippingAddress body) ""))
            with
            | (st1, None) => (st1, json_error "Failed to create order" 500)
            | (st1, Some order) =>
                (* 2) Insert order items *)
                match Db.insert_order_items st1 (itemsPayload order cart) with
                | (st2, false) =>
                    (st2, json_error "Failed to create order items" 500)
                | (st2, true) =>
                    (* 3), 4) Stripe checkout session *)
                    match stripe_checkout_sessions_create
                            (line_items cart) (Orders.id order) uid
                    with
                    | inl _ => (st2, json_ok)
                    | inr message => (st2, json_error message 500)
                    end
                end
            end
      end
  end.

End Handler.


(** The stored prices times the quantities of the cart lines, in cents. *)
Definition lines_total (cart : list CartItem) : Z :=
  fold_left (fun sum item =>
               sum + Db.round_cents (price_of item) * quantity_of item)
            cart 0.

(** A cart line the store will take as an [order_items] row: it names a
    product of the catalogue, its quantity is positive and its price rounds
    to a positive amount, both within the range of their columns. *)
Definition valid_item (st : Db.Store) (item : CartItem) : bool :=
  match product_id_of item with
  | Some pid => Db.mem pid (map Products.id (Db.products st))
  | None => false
  end
  && (0 <? quantity_of item) && Db.int4 (quantity_of item)
  && Db.positive_10_2 (price_of item).

(** A request the handler and the store take: a non-empty cart of valid
    lines, the id of a registered user, a total within [DECIMAL(10,2)]. *)
Definition valid_request (st : Db.Store) (body : Body) : bool :=
  match cartItems body, userId body with
  | Some (item :: cart), Some uid =>
      negb (uid =? "")%string && Db.mem uid (Db.users st)
      && forallb (valid_item st) (item :: cart)
      && match Db.decimal_10_2 (totalAmount (item :: cart)) with
         | Some _ => true
         | None => false
         end
  | _, _ => false
  end.

(** The number is a whole number of cents: rounding to two decimals does
    not change it. *)
Definition whole_cents (x : Q) : bool :=
  Qeq_bool x (Db.to_number (Db.round_cents x)).

(** Every price of the cart is a whole number of cents. *)
Definition priced_in_cents (cart : list CartItem) : bool :=
  forallb (fun item => whole_cents (price_of item)) cart.

End Checkout.

(** ** The Stripe webhook *)

Module StripeWebhook.

(** [session.payment_intent]: an id, an expanded object, or null. *)
Inductive PaymentIntent : Type :=
| PiString (s : string)
| PiObject (id : string)
| PiNull.

Record Session : Type := mkSession
  { id : string;
    metadata_order_id : option string;      (* [session.metadata?.order_id] *)
    amount_total : option Z;                (* in cents *)
    payment_status : string;
    payment_intent : PaymentIntent }.

Record Event : Type := mkEvent { type : string; data_object : Session }.

Record Request : Type := mkRequest
  { rawBody : string;
    stripe_signature : option string }.     (* the [stripe-signature] header *)

Definition paymentIntentId (s : Session) : option string :=
  match payment_intent s with
  | PiString x => Some x
  | PiObject x => Some x
  | PiNull => None
  end.

(** [paymentIntentId || session.id] *)
Definition transaction_id_of (s : Session) : string :=
  Js.str_or (paymentIntentId s) (id s).

(** The payment row the handler writes; [(amountTotal || 0) / 100] dollars
    is [amountTotal || 0] cents. *)
Definition payment_of (orderId : string) (s : Session) : Payments.insert :=
  Payments.mkInsert orderId
    (Js.num_or (Some (Js.num_or (amount_total s) 0)) 0)
    (if (payment_status s =? "paid")%string then "completed" else "pending")
    "stripe"
    (Some (transaction_id_of s)).

Section Handler.

(** [stripe.webhooks.constructEvent(rawBody, sig, endpointSecret)]: the
    verified event, or [None] when verification throws. *)
Variable constructEvent : string -> string -> string -> option Event.
Variable endpointSecret : string.

Definition POST (st : Db.Store) (req : Request) : Db.Store * Response :=
  let sig := Js.str_or (stripe_signature req) "" in
  match constructEvent (rawBody req) sig endpointSecret with
  | None => (st, json_error "Invalid signature" 400)
  | Some event =>
      if (type event =? "checkout.session.completed")%string then
        let session := data_object event in
        match metadata_order_id session with
        | None => (st, json_ok)
        | Some orderId =>
            if (orderId =? "")%string then (st, json_ok)
            else
              (* Mark order as paid; the result is not inspected *)
              let st1 := Db.update_order_status st orderId processing in
              (* Record payment; the result is not inspected *)
              let '(st2, _) := Db.insert_payment st1 (payment_of orderId session) in
              (st2, json_ok)
        end
      else (st, json_ok)
  end.

End Handler.

End StripeWebhook.

(** ** The admin order screen *)

Module AdminOrders.

(** The component state that [updateOrderStatus] touches. *)
Definition LocalOrders : Type := list Orders.row.

(** [updateOrderStatus(orderId, newStatus)]: one unconditional [update] of
    the store, then the same change in the local list.  The store reports no
    error for a well-typed status, so the [catch] branch is not reached. *)
Definition updateOrderStatus (st : Db.Store) (local : LocalOrders)
  (orderId : string) (newStatus : order_status) : Db.Store * LocalOrders :=
  let st' := Db.update_order_status st orderId newStatus in
  (st',
   map (fun order => if (Orders.id order =? orderId)%string
                     then Orders.with_status newStatus order else order)
       local).

(** The status buttons rendered in a row of the table, as the new status
    each one passes to [updateOrderStatus]. *)
Definition status_buttons (current : order_status) : list order_status :=
  (if order_status_eqb current pending then [processing] else [])
  ++ (if order_status_eqb current processing then [shipped] else [])
  ++ (if order_status_eqb current shipped then [delivered] else []).

End AdminOrders.

(** ** The message endpoints *)

(** A table whose rows get generated primary keys. *)
Record Table (row : Type) : Type := mkTable
  { rows : list row; next_key : nat }.
Arguments mkTable {row} _ _.
Arguments rows {row} _.
Arguments next_key {row} _.

Module MessagesApi.

Record CustomerMessage : Type := mk
  { id : string; customer_id : string; content : string }.

Record Body : Type := mkBody
  { b_customer_id : option string; b_content : option string }.

Section Handler.

(** The constraints of [customer_messages]; its DDL is not part of the
    setup script, so the handler is modelled for any table. *)
Variable customer_messages_accepts :
  list CustomerMessage -> string -> string -> bool.

Definition POST (tbl : Table CustomerMessage) (body : Body)
  : Table CustomerMessage * Response :=
  if negb (Js.truthy (b_customer_id body)) || negb (Js.truthy (b_content body))
  then (tbl, json_error "Missing customer_id or content" 400)
  else
    match b_customer_id body, b_content body with
    | Some cid, Some text =>
        if customer_messages_accepts (rows tbl) cid text then
          (mkTable (rows tbl ++ [mk (Db.uuid_generate_v4 (next_key tbl)) cid text])
                   (S (next_key tbl)),
           json_ok)
        else (tbl, json_error "Internal error" 500)   (* [throw error] *)
    | _, _ => (tbl, json_error "Missing customer_id or content" 400)
    end.

End Handler.

End MessagesApi.

Module Chat.

(** [interface ChatMessage] of both chat screens ([created_at] left out). *)
Record ChatMessage : Type := mk
  { id : string;
    customer_id : string;
    sender_id : string;
    sender_role : string;
    content : string }.

Record Body : Type := mkBody
  { b_customer_id : option string;
    b_sender_id : option string;
    b_sender_role : option string;
    b_content : option string }.

Section Handler.

(** The constraints of [chat_messages] as the chat code uses it (the setup
    script declares the table with other columns). *)
Variable chat_messages_accepts : list ChatMessage -> ChatMessage -> bool.

(** The [/api/chat] endpoint. *)
Definition POST (tbl : Table ChatMessage) (body : Body)
  : Table ChatMessage * Response :=
  match b_customer_id body, b_sender_id body, b_sender_role body, b_content body with
  | Some cid, Some sid, Some role, Some text =>
      if negb (Js.truthy (Some cid)) || negb (Js.truthy (Some sid))
         || negb (Js.truthy (Some role)) || negb (Js.truthy (Some text))
      then (tbl, json_error "Missing fields" 400)
      else
        let m := mk (Db.uuid_generate_v4 (next_key tbl)) cid sid role text in
        if chat_messages_accepts (rows tbl) m then
          (mkTable (rows tbl ++ [m]) (S (next_key tbl)), json_ok)
        else (tbl, json_error "Internal error" 500)
  | _, _, _, _ => (tbl, json_error "Missing fields" 400)
  end.

(** [sendMessage] of the customer screen: trims the composer, sends nothing
    when the text is empty, otherwise posts to [/api/chat]. *)
Definition sendMessage (tbl : Table ChatMessage) (user_id : string)
  (composer : string) : Table ChatMessage :=
  let text := Js.trim composer in
  if negb (Js.truthy (Some text)) then tbl
  else fst (POST tbl (mkBody (Some user_id) (Some user_id) (Some "customer")
                             (Some text))).

(** [sendReply] of the admin screen. *)
Definition sendReply (tbl : Table ChatMessage) (admin_id : string)
  (selectedCustomerId : option string) (composer : string)
  : Table ChatMessage :=
  let text := Js.trim composer in
  match selectedCustomerId with
  | Some cid =>
      if negb (Js.truthy (Some text)) || negb (Js.truthy (Some cid)) then tbl
      else fst (POST tbl (mkBody (Some cid) (Some admin_id) (Some "admin")
                                 (Some text)))
  | None => tbl
  end.

End Handler.

(** *** Live feed handlers *)

(** The INSERT callback passed to [setMessages] by [subscribeRealtime] of
    the customer screen. *)
Definition customer_onInsert (prev : list ChatMessage) (new : ChatMessage)
  : list ChatMessage :=
  let exists_ := existsb (fun m => (id m =? id new)%string) prev in
  if negb exists_ then prev ++ [new] else prev.

(** The same callback of the admin screen. *)
Definition admin_onInsert (prev : list ChatMessage) (new : ChatMessage)
  : list ChatMessage :=
  let exists_ := existsb (fun m => (id m =? id new)%string) prev in
  if negb exists_ then prev ++ [new] else prev.

(** The UPDATE callback (both screens). *)
Definition onUpdate (prev : list ChatMessage) (new : ChatMessage)
  : list ChatMessage :=
  map (fun m => if (id m =? id new)%string then new else m) prev.

(** *** Thread list of the admin screen *)

Definition THREAD_PAGE_SIZE : nat := 20.

(** [.range(from, to)]: the rows at offsets [from .. to], both included. *)
Definition range {A : Type} (from to : nat) (l : list A) : list A :=
  firstn (S to - from) (skipn from l).

(** The [for] loop of the fallback: [seen] is the set, [ids] the result so
    far; the loop stops when a page is full. *)
Fixpoint dedupe_loop (msgs : list string) (seen ids : list string)
  : list string :=
  match msgs with
  | [] => ids
  | cid :: rest =>
      if negb (Db.mem cid seen) then
        let seen' := cid :: seen in
        let ids' := ids ++ [cid] in
        if Nat.leb THREAD_PAGE_SIZE (List.length ids') then ids'
        else dedupe_loop rest seen' ids'
      else dedupe_loop rest seen ids
  end.

(** The fallback path.  [log] is [chat_messages] ordered by [created_at]
    descending, as the store returns it before [range] is applied. *)
Definition fallback_ids (log : list ChatMessage) (page : nat) : list string :=
  let from := (page * THREAD_PAGE_SIZE)%nat in
  let to := (from + THREAD_PAGE_SIZE - 1)%nat in
  let msgs := range from (to + THREAD_PAGE_SIZE) log in
  dedupe_loop (map customer_id msgs) [] [].

(** First occurrences, in order. *)
Fixpoint distinct (seen : list string) (l : list string) : list string :=
  match l with
  | [] => []
  | x :: rest =>
      if Db.mem x seen then distinct seen rest
      else x :: distinct (x :: seen) rest
  end.

(** The [chat_threads] view ordered by [last_message_at] descending: one row
    per thread, threads in the order of their latest message, which is the
    order of first occurrence in the recency-ordered log. *)
Definition chat_threads (log : list ChatMessage) : list string :=
  distinct [] (map customer_id log).

(** The preferred path: a page of the view. *)
Definition view_ids (log : list ChatMessage) (page : nat) : list string :=
  let from := (page * THREAD_PAGE_SIZE)%nat in
  let to := (from + THREAD_PAGE_SIZE - 1)%nat in
  range from to (chat_threads log).

(** [loadThreads(page)]: the new value of [threadIds].  [view_ok] tells
    whether the query on the view succeeded. *)
Definition loadThreads (view_ok : bool) (log : list ChatMessage)
  (prev : list string) (page : nat) : list string :=
  let ids := if view_ok then view_ids log page else fallback_ids log page in
  match ids with
  | [] => prev
  | _ => if Nat.eqb page 0 then ids else prev ++ ids
  end.

End Chat.


(** ** Concrete stores and requests used in the examples *)

Module Scenario.

Definition vitamin_d3 : Products.row := Products.mk "P1" 1999 150 true.
Definition vitamin_c : Products.row := Products.mk "P2" 2499 200 true.

(** A store with one customer, two products and nothing else. *)
Definition shop : Db.Store :=
  Db.mkStore ["U1"] [vitamin_d3; vitamin_c] [] [] [] 0.

Definition stripe_ok (_ : list Checkout.LineItem) (order_id _ : string)
  : Checkout.Session + string :=
  inl (Checkout.mkSession ("cs_" ++ order_id)%string "https://checkout.example").

(** cart = [{productId: "P1", price: 19.99, qty: 2}] *)
Definition line_p1 : Checkout.CartItem :=
  Checkout.mkCartItem
    (Some (Checkout.mkProduct (Some "P1") (Some "Vitamin D3") None
                              (Some (1999 # 100)%Q)))
    (Some 2).

(** A line whose product carries no price. *)
Definition line_no_price : Checkout.CartItem :=
  Checkout.mkCartItem
    (Some (Checkout.mkProduct (Some "P2") (Some "Vitamin C") None None))
    (Some 1).

Definition checkout_p1 : Checkout.Body :=
  Checkout.mkBody (Some [line_p1]) (Some "U1") (Some "1 Main St").


Definition checkout_mixed : Checkout.Body :=
  Checkout.mkBody (Some [line_p1; line_no_price]) (Some "U1") (Some "1 Main St").

(** Three units at 0.125: a price that is not a whole number of cents. *)
Definition line_eighth : Checkout.CartItem :=
  Checkout.mkCartItem
    (Some (Checkout.mkProduct (Some "P1") (Some "Vitamin D3") None
                              (Some (1 # 8)%Q)))
    (Some 3).

Definition checkout_eighth : Checkout.Body :=
  Checkout.mkBody (Some [line_eighth]) (Some "U1") (Some "1 Main St").



(** A store holding order "O1" in a given status. *)
Definition shop_with_order (s : order_status) : Db.Store :=
  Db.mkStore ["U1"] [vitamin_d3; vitamin_c]
             [Orders.mk "O1" "U1" 3998 s "1 Main St"] [] [] 1.

(** A stand-in for the provider's verification: the signature must be the
    secret; the payload of the delivery is the given event. *)
Definition verify (event : StripeWebhook.Event) (rawBody sig secret : string)
  : option StripeWebhook.Event :=
  if (sig =? secret)%string then Some event else None.

Definition session_for_O1 (payment_status : string) : StripeWebhook.Session :=
  StripeWebhook.mkSession "cs_1" (Some "O1") (Some 3998) payment_status
                          (StripeWebhook.PiString "pi_1").

Definition completed (payment_status : string) : StripeWebhook.Event :=
  StripeWebhook.mkEvent "checkout.session.completed"
                        (session_for_O1 payment_status).

Definition signed_delivery : StripeWebhook.Request :=
  StripeWebhook.mkRequest "payload" (Some "whsec_1").

Definition forged_delivery : StripeWebhook.Request :=
  StripeWebhook.mkRequest "payload" (Some "forged").

(** Tables that take every row. *)
Definition any_customer_message (_ : list MessagesApi.CustomerMessage)
  (_ _ : string) : bool := true.

Definition any_chat_message (_ : list Chat.ChatMessage) (_ : Chat.ChatMessage)
  : bool := true.

Definition no_messages : Table MessagesApi.CustomerMessage := mkTable [] 0.

Definition blank_message : MessagesApi.Body :=
  MessagesApi.mkBody (Some "U1") (Some "   ").

(** A message of thread [cid]. *)
Definition message_of (cid : string) : Chat.ChatMessage :=
  Chat.mk "m" cid cid "customer" "Hi".

(** Forty messages of thread "A", the newest, then one older message of
    thread "B". *)
Definition busy_log : list Chat.ChatMessage :=
  repeat (message_of "A") 40 ++ [message_of "B"].

(** Twenty-one messages of the single thread "A". *)
Definition single_thread_log : list Chat.ChatMessage :=
  repeat (message_of "A") 21.

End Scenario.

(** ** The cart: product list screen and cart screen *)

Module Cart.

(** The fields of a catalogue product that the cart and the checkout read. *)
Record Product : Type := mkProduct
  { id : string; name : string; price : Z; image_url : option string }.

Record CartItem : Type := mkItem { product : Product; quantity : Z }.

(** [{ ...item, quantity: q }] *)
Definition with_quantity (q : Z) (item : CartItem) : CartItem :=
  mkItem (product item) q.

(** [addToCart(product)] of the product list: nothing without a signed-in
    user; otherwise one more of the product when the cart holds it, else a
    new line with quantity 1 at the end. *)
Definition addToCart (signed_in : bool) (prev : list CartItem) (p : Product)
  : list CartItem :=
  if negb signed_in then prev
  else
    match find (fun item => (id (product item) =? id p)%string) prev with
    | Some _ =>
        map (fun item => if (id (product item) =? id p)%string
                         then with_quantity (quantity item + 1) item
                         else item) prev
    | None => prev ++ [mkItem p 1]
    end.

(** [updateQuantity(productId, newQuantity)] of the cart screen. *)
Definition updateQuantity (cartItems : list CartItem) (productId : string)
  (newQuantity : Z) : list CartItem :=
  if newQuantity <? 1 then cartItems
  else map (fun item => if (id (product item) =? productId)%string
                        then with_quantity newQuantity item
                        else item) cartItems.

(** [removeItem(productId)] *)
Definition removeItem (cartItems : list CartItem) (productId : string)
  : list CartItem :=
  filter (fun item => negb (id (product item) =? productId)%string) cartItems.

(** [getCartTotal()] (both screens) *)
Definition getCartTotal (cartItems : list CartItem) : Z :=
  fold_left (fun total item => total + price (product item) * quantity item)
            cartItems 0.

(** [getItemCount()] / [getCartItemCount()] *)
Definition getItemCount (cartItems : list CartItem) : Z :=
  fold_left (fun count item => count + quantity item) cartItems 0.

(** The minus and plus buttons of a cart line. *)
Definition minus_button (cartItems : list CartItem) (item : CartItem)
  : list CartItem :=
  updateQuantity cartItems (id (product item)) (quantity item - 1).

Definition plus_button (cartItems : list CartItem) (item : CartItem)
  : list CartItem :=
  updateQuantity cartItems (id (product item)) (quantity item + 1).

Record ShippingAddress : Type := mkAddress
  { fullName : string;
    phone : string;
    addressLine1 : string;
    addressLine2 : string;
    city : string;
    state : string;
    zipCode : string;
    country : string }.

(** [part.trim() !== ''] *)
Definition not_blank (part : string) : bool :=
  negb (Js.trim part =? "")%string.

Definition isAddressComplete (a : ShippingAddress) : bool :=
  not_blank (fullName a) && not_blank (phone a) && not_blank (addressLine1 a)
  && not_blank (city a) && not_blank (state a) && not_blank (zipCode a)
  && not_blank (country a).

Definition newline : string := String (ascii_of_nat 10) "".

Definition formatAddressForDatabase (a : ShippingAddress) : string :=
  let parts :=
    [ fullName a; phone a; addressLine1 a; addressLine2 a;
      (city a ++ ", " ++ state a ++ " " ++ zipCode a)%string;
      country a ] in
  String.concat newline (filter not_blank parts).

(** The line of the cart as [JSON.stringify] sends it to the endpoint; the
    price is that of a product row, a whole number of cents. *)
Definition to_payload (item : CartItem) : Checkout.CartItem :=
  Checkout.mkCartItem
    (Some (Checkout.mkProduct (Some (id (product item)))
                              (Some (name (product item)))
                              (image_url (product item))
                              (Some (Db.to_number (price (product item))))))
    (Some (quantity item)).

(** The request [handleCheckout] posts to [/api/checkout], if it posts one:
    none when the address is incomplete or the cart is empty. *)
Definition checkout_request (user_id : option string) (a : ShippingAddress)
  (cartItems : list CartItem) : option Checkout.Body :=
  if negb (isAddressComplete a) then None
  else
    match cartItems with
    | [] => None
    | _ => Some (Checkout.mkBody (Some (map to_payload cartItems)) user_id
                                 (Some (formatAddressForDatabase a)))
    end.

(** [handleCheckout()], as far as the store is concerned (the alerts and the
    redirect to the payment page are left out). *)
Definition handleCheckout
  (stripe : list Checkout.LineItem -> string -> string -> Checkout.Session + string)
  (st : Db.Store) (user_id : option string) (a : ShippingAddress)
  (cartItems : list CartItem) : Db.Store :=
  match checkout_request user_id a cartItems with
  | None => st
  | Some body => fst (Checkout.POST stripe st body)
  end.

(** A cart as the two screens build it: one line per product, every
    quantity at least 1. *)
Definition well_formed (cartItems : list CartItem) : Prop :=
  NoDup (map (fun item => id (product item)) cartItems)
  /\ Forall (fun item => 1 <= quantity item) cartItems.

End Cart.

(** ** Concrete inputs for the further properties *)

Module Examples.

Definition d3 : Cart.Product := Cart.mkProduct "P1" "Vitamin D3" 1999 None.
Definition vit_c : Cart.Product := Cart.mkProduct "P2" "Vitamin C" 2499 None.

(** Two units of D3 and one of vitamin C. *)
Definition cart : list Cart.CartItem :=
  [Cart.mkItem d3 2; Cart.mkItem vit_c 1].

Definition address : Cart.ShippingAddress :=
  Cart.mkAddress "Ann Lee" "555 0100" "1 Main St" "" "Springfield" "IL"
                 "62701" "United States".

End Examples.

(** ** Integrity of the store *)

Module Integrity.

(** What the constraints of the schema guarantee of the rows on record:
    orders belong to users and have a positive total; items belong to an
    order and a product and have positive quantity and price; payments
    belong to an order and have a positive amount; transaction ids are
    pairwise distinct. *)
Definition consistent (st : Db.Store) : Prop :=
  Forall (fun o => In (Orders.customer_id o) (Db.users st)
                   /\ 0 < Orders.total_amount o) (Db.orders st)
  /\ Forall (fun i => In (OrderItems.order_id i) (map Orders.id (Db.orders st))
                      /\ In (OrderItems.product_id i)
                            (map Products.id (Db.products st))
                      /\ 0 < OrderItems.quantity i
                      /\ 0 < OrderItems.unit_price i) (Db.order_items st)
  /\ Forall (fun p => In (Payments.order_id p) (map Orders.id (Db.orders st))
                      /\ 0 < Payments.amount p) (Db.payments st)
  /\ NoDup (Db.transaction_ids st).

(** What Stripe charges for a list of line items, in cents. *)
Definition line_items_total (ls : list Checkout.LineItem) : Z :=
  fold_left (fun sum l => sum + Checkout.li_unit_amount l * Checkout.li_quantity l)
            ls 0.

End Integrity.

Module Examples3.

(** The confirmation of the payment for the first order of the example
    shop, which gets the key drawn from counter 0. *)
Definition confirmation : StripeWebhook.Event :=
  StripeWebhook.mkEvent "checkout.session.completed"
    (StripeWebhook.mkSession "cs_1" (Some (Db.uuid_generate_v4 0)) (Some 3998)
                             "paid" (StripeWebhook.PiString "pi_1")).

End Examples3.

(** ** Paging of the admin tables *)

Module Paging.

Definition ITEMS_PER_PAGE : nat := 20.

(** [Math.ceil(n / ITEMS_PER_PAGE)] for a length [n]. *)
Definition ceil_pages (n : nat) : nat :=
  (n + (ITEMS_PER_PAGE - 1)) / ITEMS_PER_PAGE.

(** [setTotalPages(Math.ceil(filtered.length / ITEMS_PER_PAGE))] *)
Definition totalPages {A : Type} (filtered : list A) : nat :=
  ceil_pages (List.length filtered).

(** [getCurrentPageItems()]: [filtered.slice(startIndex, endIndex)] with
    [startIndex = (currentPage - 1) * ITEMS_PER_PAGE].  For page 0 the
    start is negative, the end is 0 and the slice is empty. *)
Definition getCurrentPageItems {A : Type} (currentPage : nat)
  (filtered : list A) : list A :=
  match currentPage with
  | O => []
  | S p =>
      let startIndex := (p * ITEMS_PER_PAGE)%nat in
      let endIndex := (startIndex + ITEMS_PER_PAGE)%nat in
      firstn (endIndex - startIndex) (skipn startIndex filtered)
  end.

Definition goToNextPage (currentPage totalPages : nat) : nat :=
  if Nat.ltb currentPage totalPages then (currentPage + 1)%nat
  else currentPage.

Definition goToPreviousPage (currentPage : nat) : nat :=
  if Nat.ltb 1 currentPage then (currentPage - 1)%nat else currentPage.

(** The page after [filterOrders] / [filterProducts]: back to the first
    page when the current one is beyond the last. *)
Definition page_after_filter {A : Type} (currentPage : nat)
  (filtered : list A) : nat :=
  if Nat.ltb (totalPages filtered) currentPage then 1%nat else currentPage.

(** A page number the pager can show: 1, or one up to the last page. *)
Definition in_range (currentPage totalPages : nat) : Prop :=
  (1 <= currentPage)%nat /\ (currentPage <= Nat.max 1 totalPages)%nat.

End Paging.

(** ** The live feed and the thread list over time *)

Module ChatFeed.

(** An event of the subscription of a thread. *)
Inductive Delivery : Type :=
| Inserted (m : Chat.ChatMessage)
| Updated (m : Chat.ChatMessage).

(** What [setMessages] makes of an event. *)
Definition handle (prev : list Chat.ChatMessage) (d : Delivery)
  : list Chat.ChatMessage :=
  match d with
  | Inserted m => Chat.customer_onInsert prev m
  | Updated m => Chat.onUpdate prev m
  end.

Definition deliver_all (prev : list Chat.ChatMessage) (ds : list Delivery)
  : list Chat.ChatMessage :=
  fold_left handle ds prev.

(** [threadIds] after [loadThreads(0)], [loadThreads(1)], ...,
    [loadThreads(n)], starting from the empty list. *)
Fixpoint load_pages (view_ok : bool) (log : list Chat.ChatMessage) (n : nat)
  : list string :=
  match n with
  | O => Chat.loadThreads view_ok log [] 0
  | S k => Chat.loadThreads view_ok log (load_pages view_ok log k) (S k)
  end.

End ChatFeed.

(** ** Start-up configuration *)

Module Env.

(** [process.env]: a variable is absent or has a value. *)
Definition Environment : Type := string -> option string.

Definition required : list string :=
  [ "NEXT_PUBLIC_SUPABASE_URL";
    "NEXT_PUBLIC_SUPABASE_ANON_KEY";
    "SUPABASE_SERVICE_ROLE_KEY";
    "JWT_SECRET";
    "STRIPE_SECRET_KEY";
    "STRIPE_WEBHOOK_SECRET";
    "NEXT_PUBLIC_STRIPE_PUBLISHABLE_KEY" ].

(** [required.filter(key => !process.env[key])] *)
Definition missing (env : Environment) : list string :=
  filter (fun key => negb (Js.truthy (env key))) required.

Record Config : Type := mkConfig
  { supabase_url : option string;
    supabase_anonKey : option string;
    supabase_serviceRoleKey : option string;
    jwt_secret : option string;
    stripe_secretKey : option string;
    stripe_webhookSecret : option string;
    stripe_publishableKey : option string }.

(** [validateEnv()]: the configuration, or the message of the error it
    throws. *)
Definition validateEnv (env : Environment) : Config + string :=
  match missing env with
  | [] =>
      inl (mkConfig (env "NEXT_PUBLIC_SUPABASE_URL")
                    (env "NEXT_PUBLIC_SUPABASE_ANON_KEY")
                    (env "SUPABASE_SERVICE_ROLE_KEY")
                    (env "JWT_SECRET")
                    (env "STRIPE_SECRET_KEY")
                    (env "STRIPE_WEBHOOK_SECRET")
                    (env "NEXT_PUBLIC_STRIPE_PUBLISHABLE_KEY"))
  | keys =>
      inr ("Missing required environment variables: "
           ++ String.concat ", " keys)%string
  end.

(** The values of a configuration, in the order of [required]. *)
Definition values (c : Config) : list (option string) :=
  [ supabase_url c; supabase_anonKey c; supabase_serviceRoleKey c;
    jwt_secret c; stripe_secretKey c; stripe_webhookSecret c;
    stripe_publishableKey c ].

End Env.

(** ** Sign-in and registration *)

Module Auth.

Inductive user_role : Type := admin | customer.
Inductive user_status : Type := pending | approved | rejected.

Record User : Type := mkUser
  { id : string;
    email : string;
    password_hash : string;
    full_name : string;
    role : user_role;
    status : user_status }.

(** [const { password_hash, ...userWithoutPassword } = user] *)
Record UserWithoutPassword : Type := mkPublic
  { p_id : string;
    p_email : string;
    p_full_name : string;
    p_role : user_role;
    p_status : user_status }.

Definition userWithoutPassword (u : User) : UserWithoutPassword :=
  mkPublic (id u) (email u) (full_name u) (role u) (status u).

(** [.single()]: the row when the query yields exactly one, else an error. *)
Definition single {A : Type} (l : list A) : option A :=
  match l with
  | [x] => Some x
  | _ => None
  end.

(** [from('users').select(..).eq('email', e).single()] *)
Definition by_email (users : list User) (e : string) : option User :=
  single (filter (fun u => (email u =? e)%string) users).

Inductive Answer : Type :=
| Failure (code : nat) (error : string)
| SignedIn (user : UserWithoutPassword) (token : string)
| Registered (user : UserWithoutPassword).

(** [email VARCHAR(255) UNIQUE NOT NULL], [password_hash VARCHAR(255)],
    [full_name VARCHAR(255)]. *)
Definition users_accepts (users : list User) (e hash name : string) : bool :=
  negb (existsb (fun u => (email u =? e)%string) users)
  && Db.varchar 255 e && Db.varchar 255 hash && Db.varchar 255 name.

(** [hash_password(input_password TEXT)] of the setup script, called by
    named arguments: the call reaches the function when it names the
    parameter as the function declares it, and is an error otherwise.
    [crypt] is the hashing of the function body,
    [crypt(input_password, gen_salt('bf', 12))]. *)
Definition hash_password (crypt : string -> string)
  (args : list (string * string)) : option string :=
  match args with
  | [(parameter, value)] =>
      if (parameter =? "input_password")%string then Some (crypt value)
      else None
  | _ => None
  end.

Section Handlers.

(** [rpc('verify_password', ..)]: the boolean, or [None] for an error. *)
Variable verify_password : string -> string -> option bool.
(** [rpc('hash_password', args)] with the named arguments [args]: the hash,
    or [None] for an error. *)
Variable rpc_hash_password : list (string * string) -> option string.
(** [jwt.sign({ userId, email, role, status }, secret, ..)] *)
Variable jwt_sign : UserWithoutPassword -> string.

(** The sign-in endpoint; it reads the table and writes nothing. *)
Definition login (users : list User) (e password : option string) : Answer :=
  match e, password with
  | Some e', Some password' =>
      if negb (Js.truthy e) || negb (Js.truthy password)
      then Failure 400 "Email and password are required"
      else
        match by_email users e' with
        | None => Failure 401 "Invalid email or password"
        | Some user =>
            match status user with
            | approved =>
                match verify_password password' (password_hash user) with
                | Some true =>
                    SignedIn (userWithoutPassword user)
                             (jwt_sign (userWithoutPassword user))
                | _ => Failure 401 "Invalid email or password"
                end
            | _ =>
                Failure 403
                  "Account is pending approval. Please contact an administrator."
            end
        end
  | _, _ => Failure 400 "Email and password are required"
  end.

(** The registration endpoint. *)
Definition register (tbl : Table User) (e password fullName : option string)
  : Table User * Answer :=
  match e, password, fullName with
  | Some e', Some password', Some fullName' =>
      if negb (Js.truthy e) || negb (Js.truthy password)
         || negb (Js.truthy fullName)
      then (tbl, Failure 400 "Email, password, and full name are required")
      else
        match by_email (rows tbl) e' with
        | Some _ => (tbl, Failure 409 "User with this email already exists")
        | None =>
            match rpc_hash_password [("password_input", password')] with
            | None => (tbl, Failure 500 "Error processing password")
            | Some hashedPassword =>
                if users_accepts (rows tbl) e' hashedPassword fullName' then
                  let newUser :=
                    mkUser (Db.uuid_generate_v4 (next_key tbl)) e'
                           hashedPassword fullName' customer pending in
                  (mkTable (rows tbl ++ [newUser]) (S (next_key tbl)),
                   Registered (userWithoutPassword newUser))
                else (tbl, Failure 500 "Error creating user account")
            end
        end
  | _, _, _ =>
      (tbl, Failure 400 "Email, password, and full name are required")
  end.

End Handlers.

End Auth.

Module Examples4.

(** An environment with every variable set to "x" but the webhook secret. *)
Definition no_webhook_secret : Env.Environment :=
  fun key => if (key =? "STRIPE_WEBHOOK_SECRET")%string then None else Some "x".

(** A stand-in for the hashing of pgcrypto. *)
Definition crypt (password : string) : string := ("$2a$12$" ++ password)%string.

(** The admin account of the setup script and one approved customer. *)
Definition two_users : Table Auth.User :=
  mkTable [ Auth.mkUser "u-admin" "admin@supplementstore.com"
                        (crypt "Admin123!") "Admin User"
                        Auth.admin Auth.approved;
            Auth.mkUser "u-ann" "ann@example.com" (crypt "secret") "Ann Lee"
                        Auth.customer Auth.approved ]
          2.

End Examples4.

(** ** The admin product table: deleting a product *)

Module AdminProducts.

(** [from('products').delete().eq('id', productId)]: the product goes, and
    with it the order items that reference it
    ([product_id ... REFERENCES products(id) ON DELETE CASCADE]). *)
Definition delete_product (st : Db.Store) (productId : string) : Db.Store :=
  Db.mkStore (Db.users st)
             (filter (fun p => negb (Products.id p =? productId)%string)
                     (Db.products st))
             (Db.orders st)
             (filter (fun i => negb (OrderItems.product_id i =? productId)%string)
                     (Db.order_items st))
             (Db.payments st) (Db.next_uuid st).

(** [deleteProduct(productId)]; [confirmed] is the answer to the
    confirmation dialog, [local] the products of the screen. *)
Definition deleteProduct (confirmed : bool) (st : Db.Store)
  (local : list Products.row) (productId : string)
  : Db.Store * list Products.row :=
  if negb confirmed then (st, local)
  else (delete_product st productId,
        filter (fun product => negb (Products.id product =? productId)%string)
               local).

End AdminProducts.

(** ** The admin dashboard: revenue *)

Module Dashboard.

(** [payments.reduce((sum, payment) => sum + Number(payment.amount), 0)]
    over the payments with status 'completed'. *)
Definition completed_payments_total (st : Db.Store) : Z :=
  fold_left (fun sum payment => sum + Payments.amount payment)
            (filter (fun p => (Payments.status p =? "completed")%string)
                    (Db.payments st))
            0.

(** The fallback: the totals of the orders in 'processing', 'shipped' or
    'delivered'. *)
Definition paid_orders_total (st : Db.Store) : Z :=
  fold_left (fun sum order => sum + Orders.total_amount order)
            (filter (fun o => order_status_eqb (Orders.status o) processing
                              || order_status_eqb (Orders.status o) shipped
                              || order_status_eqb (Orders.status o) delivered)
                    (Db.orders st))
            0.

(** [totalRevenue] of [fetchDashboardStats]: the fallback is used when the
    payments give 0. *)
Definition totalRevenue (st : Db.Store) : Z :=
  let totalRevenue := Js.num_or (Some (completed_payments_total st)) 0 in
  if totalRevenue =? 0
  then Js.num_or (Some (paid_orders_total st)) 0
  else totalRevenue.

End Dashboard.

(** ** The product list: loading page after page, filtering and sorting *)

Module ProductList.

Definition ITEMS_PER_PAGE : nat := 20.

(** The fields of a product that the list reads ([created_at] as a time
    value). *)
Record Product : Type := mkProduct
  { id : string;
    name : string;
    description : option string;
    price : Z;
    category : string;
    created_at : Z }.

Inductive SortBy : Type :=
| by_name | price_low | price_high | newest
| unsorted.                             (* any other value of [sortBy] *)

(** The controls above the list. *)
Record Filters : Type := mkFilters
  { searchTerm : string; categoryFilter : string; sortBy : SortBy }.

Record State : Type := mkState
  { products : list Product;
    filteredProducts : list Product;
    currentPage : nat;
    hasMore : bool }.

(** The state at mount. *)
Definition initial : State := mkState [] [] 1 true.

(** [Array.prototype.sort(compare)]: a stable sort, written as insertion
    from the right; [x] goes in front of the first element it does not
    exceed. *)
Fixpoint insert_sorted (compare : Product -> Product -> Z) (x : Product)
  (l : list Product) : list Product :=
  match l with
  | [] => [x]
  | y :: rest =>
      if compare x y <=? 0 then x :: y :: rest
      else y :: insert_sorted compare x rest
  end.

Definition sort (compare : Product -> Product -> Z) (l : list Product)
  : list Product :=
  fold_right (insert_sorted compare) [] l.

Section Screen.

(** The active products by [created_at] descending, as the store holds
    them while the screen is open. *)
Variable active : list Product.
(** [a.localeCompare(b)] *)
Variable localeCompare : string -> string -> Z.
(** [text.toLowerCase().includes(term.toLowerCase())] *)
Variable includes_lower : string -> string -> bool.

(** [fetchProducts()] *)
Definition fetchProducts (s : State) : State :=
  let data := Chat.range 0 (ITEMS_PER_PAGE - 1) active in
  mkState data (filteredProducts s) 1
          (Nat.eqb (List.length data) ITEMS_PER_PAGE).

(** [loadMoreProducts()], called while no other load is running. *)
Definition loadMoreProducts (s : State) : State :=
  if negb (hasMore s) then s
  else
    let nextPage := (currentPage s + 1)%nat in
    let startIndex := ((nextPage - 1) * ITEMS_PER_PAGE)%nat in
    let endIndex := (startIndex + ITEMS_PER_PAGE - 1)%nat in
    match Chat.range startIndex endIndex active with
    | [] => mkState (products s) (filteredProducts s) (currentPage s) false
    | data =>
        mkState (products s ++ data) (filteredProducts s) nextPage
                (Nat.eqb (List.length data) ITEMS_PER_PAGE)
    end.

(** The comparison function passed to [sort]. *)
Definition compare (key : SortBy) (a b : Product) : Z :=
  match key with
  | price_low => price a - price b
  | price_high => price b - price a
  | by_name => localeCompare (name a) (name b)
  | newest => created_at b - created_at a
  | unsorted => 0
  end.

Definition matches_search (term : string) (product : Product) : bool :=
  includes_lower (name product) term
  || match description product with
     | Some text => Js.truthy (Some text) && includes_lower text term
     | None => false
     end.

(** [filterAndSortProducts()].  [filtered] starts as the array of the
    [products] state itself; each filter that applies replaces it by a copy.
    [sort] works in place: when no filter applies it reorders [products]. *)
Definition filterAndSortProducts (f : Filters) (s : State) : State :=
  let by_search := Js.truthy (Some (searchTerm f)) in
  let by_category := negb (categoryFilter f =? "all")%string in
  let filtered := products s in
  let filtered :=
    if by_search then filter (matches_search (searchTerm f)) filtered
    else filtered in
  let filtered :=
    if by_category
    then filter (fun product => (category product =? categoryFilter f)%string)
                filtered
    else filtered in
  let sorted := sort (compare (sortBy f)) filtered in
  mkState (if by_search || by_category then products s else sorted)
          sorted (currentPage s) (hasMore s).

(** What happens on the screen after the first load: the list is scrolled
    to its end, or the filter effect runs with the controls as they are. *)
Inductive Event : Type :=
| Scrolled
| Rendered (f : Filters).

Definition step (s : State) (e : Event) : State :=
  match e with
  | Scrolled => loadMoreProducts s
  | Rendered f => filterAndSortProducts f s
  end.

(** The state after the first load and the given events. *)
Definition run (events : list Event) : State :=
  fold_left step events (fetchProducts initial).

End Screen.

(** What the screen holds after [loads] scrolls: the first [currentPage]
    pages of the store in some order, a page counter that follows the
    loads, the end of the store noticed when [hasMore] is off, and nothing
    shown that is not loaded. *)
Definition well_loaded (active : list Product) (s : State) (loads : nat)
  : Prop :=
  Permutation (products s) (firstn (ITEMS_PER_PAGE * currentPage s) active)
  /\ (1 <= currentPage s <= loads + 1)%nat
  /\ (hasMore s = false ->
      (List.length active <= ITEMS_PER_PAGE * currentPage s)%nat)
  /\ (hasMore s = true -> currentPage s = (loads + 1)%nat)
  /\ incl (filteredProducts s) (products s).

(** The number of times the list was scrolled to its end. *)
Definition scrolls (events : list Event) : nat :=
  List.length (filter (fun e => match e with Scrolled => true | _ => false end)
                      events).

End ProductList.

Module Examples5.

Definition whey : ProductList.Product :=
  ProductList.mkProduct "P3" "Whey Protein" None 3499 "protein" 30.
Definition zinc : ProductList.Product :=
  ProductList.mkProduct "P4" "Zinc" None 899 "minerals" 20.
Definition omega : ProductList.Product :=
  ProductList.mkProduct "P5" "Omega 3" None 1599 "oils" 10.

(** The catalogue, newest first. *)
Definition catalogue : list ProductList.Product := [whey; zinc; omega].

(** A comparison of names by their first code unit, enough for the
    example. *)
Definition first_unit (a b : string) : Z :=
  match a, b with
  | String x _, String y _ => Z.of_nat (nat_of_ascii x) - Z.of_nat (nat_of_ascii y)
  | _, _ => 0
  end.

Definition no_match (_ _ : string) : bool := false.

End Examples5.
(** * Properties *)

(** ** Membership and small list facts *)

Lemma mem_In (x : string) (l : list string) : Db.mem x l = true <-> In x l.
Proof.
  unfold Db.mem. rewrite existsb_exists. split.
  - intros [y [Hy He]]. apply String.eqb_eq in He. now subst.
  - intros H. exists x. split; [assumption | apply String.eqb_refl].
Qed.

Lemma mem_not_In (x : string) (l : list string) :
  Db.mem x l = false <-> ~ In x l.
Proof.
  rewrite <- mem_In. destruct (Db.mem x l); split; intro H;
    try reflexivity; try discriminate; try (intro; discriminate).
  exfalso. now apply H.
Qed.

Lemma In_firstn_In {A : Type} (n : nat) (l : list A) (x : A) :
  In x (firstn n l) -> In x l.
Proof.
  rewrite <- (firstn_skipn n l) at 2. intro H. apply in_or_app. now left.
Qed.

Lemma NoDup_firstn {A : Type} (n : nat) (l : list A) :
  NoDup l -> NoDup (firstn n l).
Proof.
  revert n. induction l as [| a l IH]; intros [| n] H; simpl;
    try constructor.
  - inversion H as [| ? ? Hnotin Hnd]; subst.
    intro Hin. apply Hnotin. eapply In_firstn_In; eassumption.
  - inversion H; subst. now apply IH.
Qed.

(** ** Live feed: duplicate delivery *)

Lemma id_exists_In (prev : list Chat.ChatMessage) (new : Chat.ChatMessage) :
  existsb (fun m => (Chat.id m =? Chat.id new)%string) prev = true
  <-> In (Chat.id new) (map Chat.id prev).
Proof.
  rewrite existsb_exists, in_map_iff. split.
  - intros [m [Hin He]]. apply String.eqb_eq in He. now exists m.
  - intros [m [He Hin]]. exists m. split; [assumption |].
    rewrite He. apply String.eqb_refl.
Qed.

(** C9. When the thread already holds a message with the id of the delivered
    INSERT event, the insert handler of the customer screen and the one of the
    admin screen both return the list unchanged. *)
Theorem onInsert_duplicate_unchanged
  (prev : list Chat.ChatMessage) (new : Chat.ChatMessage)
  (Hheld : In (Chat.id new) (map Chat.id prev)) :
  Chat.customer_onInsert prev new = prev /\ Chat.admin_onInsert prev new = prev.
Proof.
  apply id_exists_In in Hheld.
  unfold Chat.customer_onInsert, Chat.admin_onInsert.
  rewrite Hheld. simpl. split; reflexivity.
Qed.

Lemma onInsert_duplicate_unchanged_witness :
  let m := Chat.mk "m1" "c1" "c1" "customer" "Hi" in
  In (Chat.id m) (map Chat.id [m])
  /\ Chat.customer_onInsert [m] m = [m] /\ Chat.admin_onInsert [m] m = [m].
Proof.
  simpl. split.
  - left. reflexivity.
  - apply (onInsert_duplicate_unchanged
             [Chat.mk "m1" "c1" "c1" "customer" "Hi"]
             (Chat.mk "m1" "c1" "c1" "customer" "Hi")).
    simpl. left. reflexivity.
Defined.

(** After a first delivery the message is held, so a second delivery of the
    same event changes nothing. *)
Lemma onInsert_holds (prev : list Chat.ChatMessage) (new : Chat.ChatMessage) :
  In (Chat.id new) (map Chat.id (Chat.customer_onInsert prev new)).
Proof.
  unfold Chat.customer_onInsert.
  destruct (existsb _ prev) eqn:E; simpl.
  - now apply id_exists_In.
  - rewrite map_app. apply in_or_app. right. simpl. now left.
Qed.

Lemma onInsert_idempotent (prev : list Chat.ChatMessage) (new : Chat.ChatMessage) :
  Chat.customer_onInsert (Chat.customer_onInsert prev new) new
  = Chat.customer_onInsert prev new.
Proof.
  pose proof (onInsert_holds prev new) as H.
  apply id_exists_In in H.
  unfold Chat.customer_onInsert at 1. now rewrite H.
Qed.

(** Ids stay pairwise distinct under any sequence of deliveries. *)
Lemma onInsert_NoDup (prev : list Chat.ChatMessage) (new : Chat.ChatMessage) :
  NoDup (map Chat.id prev) ->
  NoDup (map Chat.id (Chat.customer_onInsert prev new)).
Proof.
  intro Hnd. unfold Chat.customer_onInsert.
  destruct (existsb _ prev) eqn:E; simpl; [assumption |].
  rewrite map_app. simpl.
  apply NoDup_app; [assumption | repeat constructor; intros [] |].
  intros x Hx [Hy | []]. subst x.
  apply id_exists_In in Hx. congruence.
Qed.

(** ** Rounding to cents *)

Lemma Qfloor_half (c : Z) : Qfloor (inject_Z c + (1 # 2))%Q = c.
Proof.
  pose proof (Qfloor_le (inject_Z c + (1 # 2))%Q) as H1.
  pose proof (Qlt_floor (inject_Z c + (1 # 2))%Q) as H2.
  set (f := Qfloor _) in *.
  unfold Qle, Qlt, Qplus, inject_Z in *. simpl in *. lia.
Qed.

(** Equal numbers are stored as the same amount. *)
Lemma round_cents_comp (x y : Q) :
  (x == y)%Q -> Db.round_cents x = Db.round_cents y.
Proof.
  intro H. unfold Db.round_cents. cbv zeta.
  assert (Hb : Qle_bool 0 (x * (100 # 1)) = Qle_bool 0 (y * (100 # 1))).
  { destruct (Qle_bool 0 (x * (100 # 1))) eqn:E1,
             (Qle_bool 0 (y * (100 # 1))) eqn:E2; try reflexivity.
    - apply Qle_bool_iff in E1. rewrite H in E1. apply Qle_bool_iff in E1.
      congruence.
    - apply Qle_bool_iff in E2. rewrite <- H in E2. apply Qle_bool_iff in E2.
      congruence. }
  rewrite Hb.
  assert (H1 : Qfloor (x * (100 # 1) + (1 # 2))
               = Qfloor (y * (100 # 1) + (1 # 2))) by now rewrite H.
  assert (H2 : Qfloor (- (x * (100 # 1)) + (1 # 2))
               = Qfloor (- (y * (100 # 1)) + (1 # 2))) by now rewrite H.
  now rewrite H1, H2.
Qed.

Lemma to_number_times_100 (c : Z) :
  (Db.to_number c * (100 # 1) == inject_Z c)%Q.
Proof. unfold Db.to_number, Qeq, Qmult, inject_Z. simpl. lia. Qed.

(** A whole number of cents is stored as it is. *)
Lemma round_cents_to_number (c : Z) : Db.round_cents (Db.to_number c) = c.
Proof.
  unfold Db.round_cents. cbv zeta.
  pose proof (to_number_times_100 c) as He.
  destruct (Qle_bool 0 _).
  - rewrite He. apply Qfloor_half.
  - rewrite He.
    assert (Hn : (- inject_Z c == inject_Z (- c))%Q)
      by (unfold Qeq, Qopp, inject_Z; simpl; lia).
    rewrite Hn, Qfloor_half. lia.
Qed.

(** ... and is sent to the payment provider as it is. *)
Lemma Math_round_to_number (c : Z) :
  Js.Math_round (Db.to_number c * (100 # 1)) = c.
Proof.
  unfold Js.Math_round. rewrite to_number_times_100. apply Qfloor_half.
Qed.

Lemma Math_round_comp (x y : Q) :
  (x == y)%Q -> Js.Math_round x = Js.Math_round y.
Proof. intro H. unfold Js.Math_round. now rewrite H. Qed.

(** The stored amount is positive exactly from half a cent on. *)
Lemma round_cents_pos (x : Q) : 0 < Db.round_cents x <-> (1 # 200 <= x)%Q.
Proof.
  unfold Db.round_cents. cbv zeta.
  destruct (Qle_bool 0 _) eqn:E.
  - apply Qle_bool_iff in E.
    pose proof (Qfloor_le (x * (100 # 1) + (1 # 2))%Q) as H1.
    pose proof (Qlt_floor (x * (100 # 1) + (1 # 2))%Q) as H2.
    set (f := Qfloor _) in *.
    split; intro H.
    + assert (Hf : (1 <= inject_Z f)%Q).
      { change 1%Q with (inject_Z 1). rewrite <- Zle_Qle. lia. }
      lra.
    + assert (Hg : (1 < inject_Z (f + 1))%Q) by lra.
      change 1%Q with (inject_Z 1) in Hg. rewrite <- Zlt_Qlt in Hg. lia.
  - assert (Hneg : ~ (0 <= x * (100 # 1))%Q).
    { intro H. apply Qle_bool_iff in H. congruence. }
    pose proof (Qlt_floor (- (x * (100 # 1)) + (1 # 2))%Q) as H2.
    set (f := Qfloor _) in *.
    split; intro H.
    + exfalso. assert (Hf : (0 < inject_Z (f + 1))%Q) by lra.
      change 0%Q with (inject_Z 0) in Hf. rewrite <- Zlt_Qlt in Hf. lia.
    + exfalso. apply Hneg. lra.
Qed.

Lemma positive_10_2_inv (x : Q) :
  Db.positive_10_2 x = true ->
  0 < Db.round_cents x /\ Db.decimal_10_2 x = Some (Db.round_cents x).
Proof.
  unfold Db.positive_10_2, Db.decimal_10_2. cbv zeta.
  destruct (Db.fits_10_2 (Db.round_cents x)); [| discriminate].
  intro H. apply Z.ltb_lt in H. now split.
Qed.

Lemma positive_10_2_intro (x : Q) :
  Db.decimal_10_2 x <> None -> (1 # 200 <= x)%Q -> Db.positive_10_2 x = true.
Proof.
  unfold Db.positive_10_2, Db.decimal_10_2. cbv zeta.
  destruct (Db.fits_10_2 _); [| congruence].
  intros _ Hx. apply Z.ltb_lt. now apply round_cents_pos.
Qed.

Lemma whole_cents_eq (x : Q) :
  Checkout.whole_cents x = true ->
  (x == Db.to_number (Db.round_cents x))%Q.
Proof. unfold Checkout.whole_cents. apply Qeq_bool_eq. Qed.

(** ** Checkout: what the two inserts store *)

(** One stored row per submitted line, carrying the order id, the price of
    the line rounded to cents and its quantity; the rows add up to the
    stored prices times the quantities of the cart. *)
Lemma order_item_rows_shape (st : Db.Store) (order : Orders.row) :
  forall (cart : list Checkout.CartItem) (n : nat) (rows : list OrderItems.row),
    Db.order_item_rows st n (Checkout.itemsPayload order cart) = Some rows ->
    List.length rows = List.length cart
    /\ Forall (fun r => OrderItems.order_id r = Orders.id order) rows
    /\ Forall2 (fun item r =>
                  OrderItems.unit_price r
                  = Db.round_cents (Checkout.price_of item)
                  /\ OrderItems.quantity r = Checkout.quantity_of item)
               cart rows
    /\ Forall (fun r => 0 < OrderItems.unit_price r) rows
    /\ forall acc,
        fold_left (fun sum r => sum + OrderItems.unit_price r * OrderItems.quantity r)
                  rows acc
        = fold_left (fun sum item =>
                       sum + Db.round_cents (Checkout.price_of item)
                             * Checkout.quantity_of item)
                    cart acc.
Proof.
  induction cart as [| item cart IH]; intros n rows H; cbn [Checkout.itemsPayload map Db.order_item_rows] in H.
  - injection H as <-. repeat split; constructor.
  - destruct (Db.order_item_row st n _) as [x |] eqn:Hx; [| discriminate].
    destruct (Db.order_item_rows st (S n) _) as [xs |] eqn:Hxs; [| discriminate].
    injection H as <-.
    destruct (IH _ _ Hxs) as (Hlen & Hall & Hrel & Hpos & Hsum).
    unfold Db.order_item_row in Hx.
    cbn [OrderItems.i_product_id OrderItems.i_order_id OrderItems.i_quantity
         OrderItems.i_unit_price] in Hx.
    destruct (Checkout.product_id_of item) as [pid |]; [| discriminate].
    destruct (_ && _) eqn:Hc in Hx; [| discriminate].
    apply andb_prop in Hc as [_ Hprice].
    apply positive_10_2_inv in Hprice as [Hprice _].
    injection Hx as <-.
    repeat split; cbn [List.length fold_left OrderItems.unit_price
                       OrderItems.quantity OrderItems.order_id].
    + now rewrite Hlen.
    + constructor; [reflexivity | assumption].
    + constructor; [split; reflexivity | assumption].
    + constructor; [exact Hprice | assumption].
    + intro acc. apply Hsum.
Qed.

(** Valid lines are taken by the store once their order exists. *)
Lemma order_item_rows_valid (st0 st : Db.Store) (order : Orders.row) :
  Db.products st = Db.products st0 ->
  Db.mem (Orders.id order) (map Orders.id (Db.orders st)) = true ->
  forall (cart : list Checkout.CartItem) (n : nat),
    forallb (Checkout.valid_item st0) cart = true ->
    exists rows,
      Db.order_item_rows st n (Checkout.itemsPayload order cart) = Some rows.
Proof.
  intros Hp Ho. induction cart as [| item cart IH]; intros n Hv;
    cbn [Checkout.itemsPayload map Db.order_item_rows].
  - now exists [].
  - cbn [forallb] in Hv. apply andb_prop in Hv as [Hi Hrest].
    destruct (IH (S n) Hrest) as [xs Hxs].
    unfold Checkout.itemsPayload in Hxs. rewrite Hxs.
    unfold Checkout.valid_item in Hi.
    unfold Db.order_item_row.
    cbn [OrderItems.i_product_id OrderItems.i_order_id OrderItems.i_quantity
         OrderItems.i_unit_price].
    destruct (Checkout.product_id_of item) as [pid |]; [| discriminate].
    rewrite Ho, Hp.
    repeat (apply andb_prop in Hi as [Hi ?]).
    repeat match goal with H : _ = true |- _ => rewrite H; clear H end.
    cbn [andb]. eexists. reflexivity.
Qed.

(** A valid line has a price of at least half a cent and a quantity of at
    least one. *)
Lemma valid_item_amounts (st : Db.Store) (item : Checkout.CartItem) :
  Checkout.valid_item st item = true ->
  (1 # 200 <= Checkout.price_of item)%Q
  /\ (1 <= inject_Z (Checkout.quantity_of item))%Q.
Proof.
  unfold Checkout.valid_item. intro Hi.
  apply andb_prop in Hi as [Hi Hprice].
  apply andb_prop in Hi as [Hi _]. apply andb_prop in Hi as [_ Hqty].
  apply positive_10_2_inv in Hprice as [Hprice _].
  apply round_cents_pos in Hprice. apply Z.ltb_lt in Hqty.
  split; [exact Hprice |].
  change 1%Q with (inject_Z 1). rewrite <- Zle_Qle. lia.
Qed.

Lemma line_amount_ge (p q : Q) :
  (1 # 200 <= p)%Q -> (1 <= q)%Q -> (1 # 200 <= p * q)%Q.
Proof.
  intros Hp Hq.
  assert (H0 : (0 <= p * (q - 1))%Q) by (apply Qmult_le_0_compat; lra).
  assert (He : (p * (q - 1) == p * q - p)%Q) by ring.
  rewrite He in H0. lra.
Qed.

Lemma totalAmount_ge (st : Db.Store) (cart : list Checkout.CartItem) :
  forallb (Checkout.valid_item st) cart = true ->
  forall acc : Q,
    (acc <= fold_left (fun sum item =>
                         sum + Checkout.price_of item
                               * inject_Z (Checkout.quantity_of item))%Q
                      cart acc)%Q.
Proof.
  induction cart as [| item cart IH]; intros Hv acc; cbn [fold_left];
    [apply Qle_refl |].
  cbn [forallb] in Hv. apply andb_prop in Hv as [Hi Hrest].
  destruct (valid_item_amounts st item Hi) as [Hp Hq].
  pose proof (line_amount_ge _ _ Hp Hq) as Hpq.
  eapply Qle_trans; [| apply (IH Hrest)]. lra.
Qed.

(** The total of a cart of valid lines is stored as a positive amount. *)
Lemma totalAmount_pos (st : Db.Store) (item : Checkout.CartItem)
  (cart : list Checkout.CartItem) :
  forallb (Checkout.valid_item st) (item :: cart) = true ->
  0 < Db.round_cents (Checkout.totalAmount (item :: cart)).
Proof.
  intro Hv. apply round_cents_pos.
  unfold Checkout.totalAmount. cbn [fold_left].
  cbn [forallb] in Hv. apply andb_prop in Hv as [Hi Hrest].
  destruct (valid_item_amounts st item Hi) as [Hp Hq].
  pose proof (line_amount_ge _ _ Hp Hq) as Hpq.
  eapply Qle_trans; [| apply (totalAmount_ge st cart Hrest)]. lra.
Qed.

(** A cart priced in whole cents totals the stored prices times the
    quantities, exactly. *)
Lemma totalAmount_cents (cart : list Checkout.CartItem) :
  Checkout.priced_in_cents cart = true ->
  forall (accQ : Q) (acc : Z),
    (accQ == Db.to_number acc)%Q ->
    (fold_left (fun sum item =>
                  sum + Checkout.price_of item
                        * inject_Z (Checkout.quantity_of item))%Q cart accQ
     == Db.to_number
          (fold_left (fun sum item =>
                        sum + Db.round_cents (Checkout.price_of item)
                              * Checkout.quantity_of item)%Z cart acc))%Q.
Proof.
  induction cart as [| item cart IH]; intros Hc accQ acc Hacc;
    cbn [fold_left]; [exact Hacc |].
  unfold Checkout.priced_in_cents in Hc. cbn [forallb] in Hc.
  apply andb_prop in Hc as [Hp Hrest].
  apply IH; [exact Hrest |].
  apply whole_cents_eq in Hp.
  rewrite Hacc. rewrite Hp at 1.
  unfold Db.to_number, Qeq, Qplus, Qmult, inject_Z. simpl. lia.
Qed.

Lemma lines_total_stored (cart : list Checkout.CartItem) :
  Checkout.priced_in_cents cart = true ->
  Db.round_cents (Checkout.totalAmount cart) = Checkout.lines_total cart.
Proof.
  intro Hc. unfold Checkout.totalAmount, Checkout.lines_total.
  assert (H0 : (0 == Db.to_number 0)%Q) by reflexivity.
  rewrite (round_cents_comp _ _ (totalAmount_cents cart Hc 0%Q 0 H0)).
  apply round_cents_to_number.
Qed.

(** What a successful or refused statement leaves behind. *)
Lemma insert_order_inv (st st1 : Db.Store) (r : Orders.insert) (o : Orders.row) :
  Db.insert_order st r = (st1, Some o) ->
  Db.orders_accepts st r = true
  /\ Db.orders st1 = Db.orders st ++ [o]
  /\ Orders.status o = Orders.i_status r
  /\ Orders.total_amount o = Db.round_cents (Orders.i_total_amount r)
  /\ Orders.customer_id o = Orders.i_customer_id r
  /\ Db.users st1 = Db.users st
  /\ Db.products st1 = Db.products st
  /\ Db.order_items st1 = Db.order_items st
  /\ Db.payments st1 = Db.payments st.
Proof.
  unfold Db.insert_order. destruct (Db.orders_accepts st r); [| discriminate].
  intro H. injection H as <- <-. cbn. repeat split; reflexivity.
Qed.

Lemma insert_order_refused (st st1 : Db.Store) (r : Orders.insert) :
  Db.insert_order st r = (st1, None) -> st1 = st.
Proof.
  unfold Db.insert_order. destruct (Db.orders_accepts st r); [discriminate |].
  intro H. now injection H as <-.
Qed.

Lemma insert_order_items_inv (st st2 : Db.Store) (rs : list OrderItems.insert) :
  Db.insert_order_items st rs = (st2, true) ->
  exists rows,
    Db.order_item_rows st (Db.next_uuid st) rs = Some rows
    /\ Db.orders st2 = Db.orders st
    /\ Db.order_items st2 = Db.order_items st ++ rows
    /\ Db.users st2 = Db.users st
    /\ Db.products st2 = Db.products st
    /\ Db.payments st2 = Db.payments st.
Proof.
  unfold Db.insert_order_items.
  destruct (Db.order_item_rows st (Db.next_uuid st) rs) as [rows |];
    [| discriminate].
  intro H. injection H as <-. exists rows. cbn. repeat split; reflexivity.
Qed.

Lemma insert_order_items_refused (st st2 : Db.Store)
  (rs : list OrderItems.insert) :
  Db.insert_order_items st rs = (st2, false) -> st2 = st.
Proof.
  unfold Db.insert_order_items.
  destruct (Db.order_item_rows st (Db.next_uuid st) rs); [discriminate |].
  intro H. now injection H as <-.
Qed.

(** The parts of a valid request. *)
Lemma valid_request_inv (st : Db.Store) (body : Checkout.Body)
  (cart : list Checkout.CartItem) :
  Checkout.cartItems body = Some cart ->
  Checkout.valid_request st body = true ->
  exists item rest uid,
    cart = item :: rest
    /\ Checkout.userId body = Some uid
    /\ (uid =? "")%string = false
    /\ Db.mem uid (Db.users st) = true
    /\ forallb (Checkout.valid_item st) cart = true
    /\ Db.positive_10_2 (Checkout.totalAmount cart) = true.
Proof.
  intros Hcart Hvalid. unfold Checkout.valid_request in Hvalid.
  rewrite Hcart in Hvalid.
  destruct cart as [| item cart]; [discriminate |].
  destruct (Checkout.userId body) as [uid |]; [| discriminate].
  apply andb_prop in Hvalid as [Hvalid Hrange].
  apply andb_prop in Hvalid as [Hvalid Hitems].
  apply andb_prop in Hvalid as [Hne Huser].
  apply negb_true_iff in Hne.
  exists item, cart, uid. repeat split; try assumption.
  apply positive_10_2_intro.
  - destruct (Db.decimal_10_2 _); discriminate.
  - apply round_cents_pos. now apply (totalAmount_pos st).
Qed.

(** ** The checkout endpoint, case by case *)

(** Every run of the endpoint is of one of four kinds: the request is
    turned down before any statement; the order statement is refused; the
    order is stored and the items statement refused; both are stored. *)
Lemma POST_inv
  (stripe : list Checkout.LineItem -> string -> string -> Checkout.Session + string)
  (st : Db.Store) (body : Checkout.Body) :
  (Checkout.POST stripe st body = (st, json_error "Cart is empty" 400)
   /\ (Checkout.cartItems body = None \/ Checkout.cartItems body = Some []))
  \/ (Checkout.POST stripe st body = (st, json_error "Missing userId" 400)
      /\ Js.truthy (Checkout.userId body) = false)
  \/ exists cart uid,
       Checkout.cartItems body = Some cart /\ cart <> []
       /\ Checkout.userId body = Some uid /\ uid <> ""
       /\ let ins := Orders.mkInsert uid pending (Checkout.totalAmount cart)
                       (Js.str_or (Checkout.shippingAddress body) "") in
          (Db.insert_order st ins = (st, None)
           /\ Checkout.POST stripe st body
              = (st, json_error "Failed to create order" 500))
          \/ exists st1 order,
               Db.insert_order st ins = (st1, Some order)
               /\ ((Db.insert_order_items st1 (Checkout.itemsPayload order cart)
                    = (st1, false)
                    /\ Checkout.POST stripe st body
                       = (st1, json_error "Failed to create order items" 500))
                   \/ exists st2,
                        Db.insert_order_items st1
                          (Checkout.itemsPayload order cart) = (st2, true)
                        /\ fst (Checkout.POST stripe st body) = st2
                        /\ ((exists s,
                               stripe (Checkout.line_items cart)
                                      (Orders.id order) uid = inl s
                               /\ snd (Checkout.POST stripe st body) = json_ok)
                            \/ (exists message,
                                  stripe (Checkout.line_items cart)
                                         (Orders.id order) uid = inr message
                                  /\ snd (Checkout.POST stripe st body)
                                     = json_error message 500))).
Proof.
  unfold Checkout.POST.
  destruct (Checkout.cartItems body) as [[| item cart] |] eqn:Hcart;
    try (left; split; [reflexivity | auto]).
  destruct (Checkout.userId body) as [uid |] eqn:Huid;
    [| right; left; split; reflexivity].
  destruct (uid =? "")%string eqn:Hne.
  { right; left. split; [reflexivity |]. simpl. now rewrite Hne. }
  right; right. exists (item :: cart), uid.
  apply String.eqb_neq in Hne.
  repeat (split; [first [reflexivity | assumption | discriminate] |]).
  cbv zeta.
  destruct (Db.insert_order st _) as [st1 [order |]] eqn:Hins.
  - right. exists st1, order. split; [reflexivity |].
    destruct (Db.insert_order_items st1 _) as [st2 [|]] eqn:Hins2.
    + right. exists st2. split; [reflexivity |].
      destruct (stripe _ _ _) as [s | message] eqn:Hs.
      * split; [reflexivity |]. left. now exists s.
      * split; [reflexivity |]. right. now exists message.
    + pose proof (insert_order_items_refused _ _ _ Hins2). subst st2.
      left. split; reflexivity.
  - pose proof (insert_order_refused _ _ _ Hins). subst st1.
    left. split; reflexivity.
Qed.

Lemma insert_order_row (st st1 : Db.Store) (r : Orders.insert) (o : Orders.row) :
  Db.insert_order st r = (st1, Some o) ->
  o = Orders.mk (Db.uuid_generate_v4 (Db.next_uuid st)) (Orders.i_customer_id r)
                (Db.round_cents (Orders.i_total_amount r)) (Orders.i_status r)
                (Orders.i_shipping_address r)
  /\ st1 = Db.mkStore (Db.users st) (Db.products st) (Db.orders st ++ [o])
                      (Db.order_items st) (Db.payments st)
                      (S (Db.next_uuid st)).
Proof.
  unfold Db.insert_order. destruct (Db.orders_accepts st r); [| discriminate].
  intro H. injection H as <- <-. split; reflexivity.
Qed.

(** A valid request goes through both statements. *)
Lemma POST_valid
  (stripe : list Checkout.LineItem -> string -> string -> Checkout.Session + string)
  (st : Db.Store) (body : Checkout.Body) (cart : list Checkout.CartItem) :
  Checkout.cartItems body = Some cart ->
  Checkout.valid_request st body = true ->
  exists uid order rows,
    Checkout.userId body = Some uid
    /\ order = Orders.mk (Db.uuid_generate_v4 (Db.next_uuid st)) uid
                         (Db.round_cents (Checkout.totalAmount cart)) pending
                         (Js.str_or (Checkout.shippingAddress body) "")
    /\ fst (Checkout.POST stripe st body)
       = Db.mkStore (Db.users st) (Db.products st) (Db.orders st ++ [order])
                    (Db.order_items st ++ rows) (Db.payments st)
                    (S (Db.next_uuid st) + List.length rows)%nat
    /\ List.length rows = List.length cart
    /\ 0 < Db.round_cents (Checkout.totalAmount cart)
    /\ Db.fits_10_2 (Db.round_cents (Checkout.totalAmount cart)) = true
    /\ (forall message,
          stripe (Checkout.line_items cart) (Orders.id order) uid = inr message ->
          snd (Checkout.POST stripe st body) = json_error message 500)
    /\ (forall s,
          stripe (Checkout.line_items cart) (Orders.id order) uid = inl s ->
          snd (Checkout.POST stripe st body) = json_ok)
    /\ Forall2 (fun item row =>
                  OrderItems.unit_price row
                  = Db.round_cents (Checkout.price_of item)
                  /\ OrderItems.quantity row = Checkout.quantity_of item)
               cart rows.
Proof.
  intros Hcart Hvalid.
  destruct (valid_request_inv st body cart Hcart Hvalid)
    as (item & rest & uid0 & Hcons & Huid0 & Hne & Huser & Hitems & Htotal).
  destruct (positive_10_2_inv _ Htotal) as [Hpos Hdec].
  assert (Hrange : Db.fits_10_2 (Db.round_cents (Checkout.totalAmount cart))
                   = true).
  { unfold Db.decimal_10_2 in Hdec. cbv zeta in Hdec.
    now destruct (Db.fits_10_2 _). }
  destruct (POST_inv stripe st body)
    as [[_ [Hc | Hc]] | [[_ Ht] | (c & uid & Hc & _ & Hu & _ & Hrest)]].
  - congruence.
  - congruence.
  - rewrite Huid0 in Ht. cbn in Ht. rewrite Hne in Ht. discriminate.
  - rewrite Hcart in Hc. injection Hc as <-.
    rewrite Huid0 in Hu. injection Hu as <-.
    cbv zeta in Hrest.
    destruct Hrest as [[Hins _] | (st1 & order & Hins & Htail)].
    + exfalso. unfold Db.insert_order, Db.orders_accepts in Hins.
      cbn [Orders.i_customer_id Orders.i_total_amount] in Hins.
      rewrite Huser, Htotal in Hins. discriminate.
    + pose proof (insert_order_row _ _ _ _ Hins) as [Ho Hst1].
      cbn [Orders.i_customer_id Orders.i_total_amount Orders.i_status
           Orders.i_shipping_address] in Ho.
      assert (Hmem : Db.mem (Orders.id order)
                            (map Orders.id (Db.orders st1)) = true).
      { apply mem_In. rewrite Hst1. cbn [Db.orders]. rewrite map_app.
        apply in_or_app. right. now left. }
      assert (Hprod : Db.products st1 = Db.products st)
        by (rewrite Hst1; reflexivity).
      destruct (order_item_rows_valid st st1 order Hprod Hmem cart
                  (Db.next_uuid st1) Hitems) as [rows Hrows].
      destruct Htail as [[Hins2 _] | (st2 & Hins2 & Hfst & Hsnd)].
      * exfalso. unfold Db.insert_order_items in Hins2.
        rewrite Hrows in Hins2. discriminate.
      * unfold Db.insert_order_items in Hins2. rewrite Hrows in Hins2.
        injection Hins2 as Hst2.
        destruct (order_item_rows_shape st1 order _ _ _ Hrows)
          as (Hlen & _ & Hrel & _).
        exists uid0, order, rows.
        split; [exact Huid0 |]. split; [exact Ho |].
        split; [rewrite Hfst, <- Hst2, Hst1; reflexivity |].
        split; [exact Hlen |]. split; [exact Hpos |].
        split; [exact Hrange |].
        split; [| split; [| exact Hrel]].
        -- intros message Hm.
           destruct Hsnd as [(s & Hs & _) | (m & Hs & Hr)]; [congruence |].
           rewrite Hm in Hs. injection Hs as <-. exact Hr.
        -- intros s Hs'.
           destruct Hsnd as [(s0 & _ & Hr) | (m & Hs & _)];
             [exact Hr | congruence].
Qed.




(** The scenario of the specification: two units at 19.99 make an order of
    39.98 in status [pending], with one item. *)
Example checkout_scenario_p1 :
  let st' := fst (Checkout.POST Scenario.stripe_ok Scenario.shop
                                Scenario.checkout_p1) in
  Checkout.priced_in_cents [Scenario.line_p1] = true
  /\ map (fun o => (Orders.total_amount o, Orders.status o)) (Db.orders st')
     = [(3998, pending)]
  /\ map (fun r => (OrderItems.unit_price r, OrderItems.quantity r))
         (Db.order_items st')
     = [(1999, 2)].
Proof. repeat split; reflexivity. Qed.


(** ** Checkout: the outcomes of the two statements *)

(** C6 (amended). The order and its items are written by two statements.
    For every request the endpoint leaves the store in one of three states:
    nothing was stored; the pending order and all N items were stored; or,
    when the items statement is refused, the pending order alone was stored
    and the answer is 500 "Failed to create order items".  The items are
    never stored in part. *)
Theorem createOrder_outcomes
  (stripe : list Checkout.LineItem -> string -> string -> Checkout.Session + string)
  (st : Db.Store) (body : Checkout.Body) :
  let st' := fst (Checkout.POST stripe st body) in
  let r := snd (Checkout.POST stripe st body) in
  st' = st
  \/ (exists cart order items,
        Checkout.cartItems body = Some cart
        /\ Db.orders st' = Db.orders st ++ [order]
        /\ Orders.status order = pending
        /\ Db.order_items st' = Db.order_items st ++ items
        /\ List.length items = List.length cart
        /\ Forall (fun i => OrderItems.order_id i = Orders.id order) items)
  \/ (exists order,
        Db.orders st' = Db.orders st ++ [order]
        /\ Orders.status order = pending
        /\ Db.order_items st' = Db.order_items st
        /\ r = json_error "Failed to create order items" 500).
Proof.
  unfold Checkout.POST.
  destruct (Checkout.cartItems body) as [[| item cart] |] eqn:Hcart;
    try (left; reflexivity).
  destruct (Checkout.userId body) as [uid |]; [| left; reflexivity].
  destruct (uid =? "")%string; [left; reflexivity |].
  destruct (Db.insert_order st _) as [st1 [order |]] eqn:Hins.
  - apply insert_order_inv in Hins as (_ & Ho & Hs & _ & _ & _ & _ & Hi & _).
    simpl in Hs.
    destruct (Db.insert_order_items st1 _) as [st2 [|]] eqn:Hins2.
    + apply insert_order_items_inv in Hins2
        as (rows & Hrows & Ho2 & Hi2 & _).
      destruct (order_item_rows_shape st1 order _ _ _ Hrows)
        as (Hlen & Hall & _ & _).
      right; left. exists (item :: cart), order, rows.
      destruct (stripe _ _ _); simpl; rewrite Ho2, Hi2, Ho, Hi;
        repeat split; assumption.
    + apply insert_order_items_refused in Hins2. subst st2.
      right; right. exists order. simpl. repeat split; assumption.
  - apply insert_order_refused in Hins. subst st1. left. reflexivity.
Qed.

(** A cart of two lines, the second without a price: the order is stored,
    the items statement is refused ([CHECK (unit_price > 0)]), and the
    pending order stays behind without any item. *)
Lemma createOrder_orphan_order_counterexample :
  let st' := fst (Checkout.POST Scenario.stripe_ok Scenario.shop
                                Scenario.checkout_mixed) in
  Db.orders Scenario.shop = [] /\ Db.order_items Scenario.shop = []
  /\ map (fun o => (Orders.status o, Orders.total_amount o)) (Db.orders st')
     = [(pending, 3998)]
  /\ Db.order_items st' = []
  /\ snd (Checkout.POST Scenario.stripe_ok Scenario.shop Scenario.checkout_mixed)
     = json_error "Failed to create order items" 500.
Proof. repeat split; reflexivity. Qed.

(** ** Checkout: where the amounts come from *)

Lemma app_singleton_neq {A : Type} (l : list A) (x : A) : l <> l ++ [x].
Proof.
  intro H. apply (f_equal (@List.length A)) in H.
  rewrite length_app in H. simpl in H. lia.
Qed.












(** ** The admin order screen: status changes *)

Lemma update_order_status_absent (st : Db.Store) (orderId : string)
  (s : order_status) :
  ~ In orderId (map Orders.id (Db.orders st)) ->
  Db.update_order_status st orderId s = st.
Proof.
  intro Habs. unfold Db.update_order_status. destruct st as [u p os oi pay n].
  simpl in *. f_equal.
  induction os as [| o os IH]; simpl; [reflexivity |].
  simpl in Habs.
  destruct (Orders.id o =? orderId)%string eqn:E.
  - apply String.eqb_eq in E. exfalso. apply Habs. now left.
  - f_equal. apply IH. intro H. apply Habs. now right.
Qed.

(** C2 (amended). [updateOrderStatus] writes the requested status without
    looking at the current one: every order with the given id gets the new
    status, whatever status it had (terminal ones included), in the store
    and in the local list; the other orders and tables stay as they were;
    when no order has the id nothing changes and no error is raised.  The
    only status buttons the screen renders are pending -> processing,
    processing -> shipped and shipped -> delivered. *)
Theorem updateOrderStatus_writes_any_status
  (st : Db.Store) (local : AdminOrders.LocalOrders) (orderId : string)
  (newStatus : order_status) :
  let st' := fst (AdminOrders.updateOrderStatus st local orderId newStatus) in
  let local' := snd (AdminOrders.updateOrderStatus st local orderId newStatus) in
  (forall o, In o (Db.orders st) -> Orders.id o = orderId ->
             In (Orders.with_status newStatus o) (Db.orders st'))
  /\ (forall o, In o (Db.orders st) -> Orders.id o <> orderId ->
                In o (Db.orders st'))
  /\ (forall o', In o' (Db.orders st') ->
                 In o' (Db.orders st)
                 \/ (Orders.id o' = orderId /\ Orders.status o' = newStatus))
  /\ map Orders.id (Db.orders st') = map Orders.id (Db.orders st)
  /\ (forall o, In o local -> Orders.id o = orderId ->
                In (Orders.with_status newStatus o) local')
  /\ (Db.users st', Db.products st', Db.order_items st', Db.payments st')
     = (Db.users st, Db.products st, Db.order_items st, Db.payments st)
  /\ (~ In orderId (map Orders.id (Db.orders st)) -> st' = st)
  /\ (forall current next,
        In next (AdminOrders.status_buttons current)
        <-> (current = pending /\ next = processing)
            \/ (current = processing /\ next = shipped)
            \/ (current = shipped /\ next = delivered)).
Proof.
  cbv zeta. unfold AdminOrders.updateOrderStatus. simpl.
  repeat split.
  - intros o Hin Hid. apply in_map_iff. exists o. split; [| assumption].
    apply String.eqb_eq in Hid. now rewrite Hid.
  - intros o Hin Hid. apply in_map_iff. exists o. split; [| assumption].
    apply String.eqb_neq in Hid. now rewrite Hid.
  - intros o' Hin. apply in_map_iff in Hin as [o [Ho Hin]].
    destruct (Orders.id o =? orderId)%string eqn:E.
    + right. subst o'. apply String.eqb_eq in E. now split.
    + left. now subst o'.
  - rewrite map_map. apply map_ext. intro o.
    now destruct (Orders.id o =? orderId)%string.
  - intros o Hin Hid. apply in_map_iff. exists o. split; [| assumption].
    apply String.eqb_eq in Hid. now rewrite Hid.
  - apply update_order_status_absent.
  - destruct current; simpl; intros H; repeat destruct H as [H | H];
      subst; auto; contradiction.
  - intros [[-> ->] | [[-> ->] | [-> ->]]]; simpl; auto.
Qed.

(** A delivered order is put back to [pending], and a cancelled one to
    [shipped]: backward moves and moves out of a terminal status are written
    like any other.  An unknown order id changes nothing and raises nothing. *)
Lemma updateOrderStatus_backward_counterexample :
  map Orders.status
      (Db.orders (fst (AdminOrders.updateOrderStatus
                         (Scenario.shop_with_order delivered) [] "O1" pending)))
  = [pending]
  /\ map Orders.status
         (Db.orders (fst (AdminOrders.updateOrderStatus
                            (Scenario.shop_with_order cancelled) [] "O1" shipped)))
     = [shipped]
  /\ AdminOrders.updateOrderStatus (Scenario.shop_with_order pending) []
                                   "O9" processing
     = (Scenario.shop_with_order pending, []).
Proof. repeat split; reflexivity. Qed.

(** ** The Stripe webhook *)

(** C3. A delivery whose signature does not verify is answered with 400
    "Invalid signature" and the store is left exactly as it was: no order
    row is updated and no payment row is inserted. *)
Theorem webhook_invalid_signature_rejected
  (constructEvent : string -> string -> string -> option StripeWebhook.Event)
  (endpointSecret : string) (st : Db.Store) (req : StripeWebhook.Request)
  (Hbad : constructEvent (StripeWebhook.rawBody req)
                         (Js.str_or (StripeWebhook.stripe_signature req) "")
                         endpointSecret = None) :
  StripeWebhook.POST constructEvent endpointSecret st req
  = (st, json_error "Invalid signature" 400).
Proof. unfold StripeWebhook.POST. cbv zeta. now rewrite Hbad. Qed.

Lemma webhook_invalid_signature_rejected_witness :
  Scenario.verify (Scenario.completed "paid")
    (StripeWebhook.rawBody Scenario.forged_delivery)
    (Js.str_or (StripeWebhook.stripe_signature Scenario.forged_delivery) "")
    "whsec_1" = None
  /\ StripeWebhook.POST (Scenario.verify (Scenario.completed "paid")) "whsec_1"
       (Scenario.shop_with_order pending) Scenario.forged_delivery
     = (Scenario.shop_with_order pending, json_error "Invalid signature" 400).
Proof.
  split; [reflexivity |].
  apply (webhook_invalid_signature_rejected
           (Scenario.verify (Scenario.completed "paid")) "whsec_1"
           (Scenario.shop_with_order pending) Scenario.forged_delivery).
  reflexivity.
Defined.

Lemma update_order_status_ids (st : Db.Store) (orderId : string)
  (s : order_status) :
  map Orders.id (Db.orders (Db.update_order_status st orderId s))
  = map Orders.id (Db.orders st).
Proof.
  simpl. rewrite map_map. apply map_ext. intro o.
  now destruct (Orders.id o =? orderId)%string.
Qed.

Lemma update_order_status_twice (st : Db.Store) (orderId : string)
  (s : order_status) :
  Db.update_order_status (Db.update_order_status st orderId s) orderId s
  = Db.update_order_status st orderId s.
Proof.
  unfold Db.update_order_status. simpl. f_equal.
  rewrite map_map. apply map_ext. intro o.
  destruct (Orders.id o =? orderId)%string eqn:E; simpl; now rewrite E.
Qed.

Lemma payments_accepts_update (st : Db.Store) (orderId : string)
  (s : order_status) (r : Payments.insert) :
  Db.payments_accepts (Db.update_order_status st orderId s) r
  = Db.payments_accepts st r.
Proof.
  unfold Db.payments_accepts. rewrite update_order_status_ids. reflexivity.
Qed.

(** C4 (amended). For a validly signed checkout.session.completed event
    whose metadata names an order, whose payment_status is "paid" and whose
    payment row the store takes (the order exists, the amount is positive,
    the transaction id is new), the webhook sets that order to [processing]
    -- so a pending order becomes processing -- leaves the other orders as
    they were, inserts exactly one payment row, with status "completed",
    method "stripe" and the provider transaction id (the payment intent id,
    or else the session id), and answers 200. *)
Theorem webhook_paid_session_recorded
  (constructEvent : string -> string -> string -> option StripeWebhook.Event)
  (endpointSecret : string) (st : Db.Store) (req : StripeWebhook.Request)
  (event : StripeWebhook.Event) (orderId : string)
  (Hsig : constructEvent (StripeWebhook.rawBody req)
                         (Js.str_or (StripeWebhook.stripe_signature req) "")
                         endpointSecret = Some event)
  (Htype : StripeWebhook.type event = "checkout.session.completed")
  (Horder : StripeWebhook.metadata_order_id (StripeWebhook.data_object event)
            = Some orderId)
  (Hne : orderId <> "")
  (Hpaid : StripeWebhook.payment_status (StripeWebhook.data_object event) = "paid")
  (Hacc : Db.payments_accepts st
            (StripeWebhook.payment_of orderId (StripeWebhook.data_object event))
          = true) :
  let st' := fst (StripeWebhook.POST constructEvent endpointSecret st req) in
  (forall o, In o (Db.orders st) -> Orders.id o = orderId ->
             In (Orders.with_status processing o) (Db.orders st'))
  /\ (forall o, In o (Db.orders st) -> Orders.id o <> orderId ->
                In o (Db.orders st'))
  /\ (exists o, In o (Db.orders st') /\ Orders.id o = orderId
                /\ Orders.status o = processing)
  /\ (exists p,
        Db.payments st' = Db.payments st ++ [p]
        /\ Payments.order_id p = orderId
        /\ Payments.status p = "completed"
        /\ Payments.payment_method p = "stripe"
        /\ Payments.transaction_id p
           = Some (StripeWebhook.transaction_id_of
                     (StripeWebhook.data_object event)))
  /\ snd (StripeWebhook.POST constructEvent endpointSecret st req) = json_ok.
Proof.
  cbv zeta. unfold StripeWebhook.POST. cbv zeta.
  rewrite Hsig, Htype, Horder. simpl String.eqb.
  apply String.eqb_neq in Hne. rewrite Hne.
  unfold Db.insert_payment. rewrite payments_accepts_update, Hacc.
  simpl fst. simpl snd. simpl Db.orders. simpl Db.payments.
  assert (Hupd : forall o, In o (Db.orders st) -> Orders.id o = orderId ->
                 In (Orders.with_status processing o)
                    (map (fun o0 => if (Orders.id o0 =? orderId)%string
                                    then Orders.with_status processing o0
                                    else o0) (Db.orders st))).
  { intros o Hin Hid. apply in_map_iff. exists o. split; [| assumption].
    apply String.eqb_eq in Hid. now rewrite Hid. }
  split; [exact Hupd |]. split; [| split; [| split]].
  - intros o Hin Hid. apply in_map_iff. exists o. split; [| assumption].
    apply String.eqb_neq in Hid. now rewrite Hid.
  - unfold Db.payments_accepts in Hacc.
    repeat (apply andb_prop in Hacc as [Hacc _]).
    simpl in Hacc. apply mem_In in Hacc.
    apply in_map_iff in Hacc as [o [Hid Hin]].
    exists (Orders.with_status processing o).
    split; [now apply Hupd |]. split; [exact Hid | reflexivity].
  - eexists. split; [reflexivity |]. simpl. rewrite Hpaid.
    repeat split; reflexivity.
  - reflexivity.
Qed.

Lemma webhook_paid_session_recorded_witness :
  let ce := Scenario.verify (Scenario.completed "paid") in
  let st := Scenario.shop_with_order pending in
  let session := StripeWebhook.data_object (Scenario.completed "paid") in
  ce (StripeWebhook.rawBody Scenario.signed_delivery)
     (Js.str_or (StripeWebhook.stripe_signature Scenario.signed_delivery) "")
     "whsec_1" = Some (Scenario.completed "paid")
  /\ StripeWebhook.metadata_order_id session = Some "O1"
  /\ StripeWebhook.payment_status session = "paid"
  /\ Db.payments_accepts st (StripeWebhook.payment_of "O1" session) = true
  /\ (exists p,
        Db.payments (fst (StripeWebhook.POST ce "whsec_1" st
                            Scenario.signed_delivery))
        = Db.payments st ++ [p]
        /\ Payments.order_id p = "O1"
        /\ Payments.status p = "completed"
        /\ Payments.payment_method p = "stripe"
        /\ Payments.transaction_id p
           = Some (StripeWebhook.transaction_id_of session))
  /\ snd (StripeWebhook.POST ce "whsec_1" st Scenario.signed_delivery) = json_ok.
Proof.
  cbv zeta.
  repeat (split; [reflexivity |]).
  apply (webhook_paid_session_recorded
           (Scenario.verify (Scenario.completed "paid")) "whsec_1"
           (Scenario.shop_with_order pending) Scenario.signed_delivery
           (Scenario.completed "paid") "O1"
           eq_refl eq_refl eq_refl
           (fun H : "O1" = "" =>
              eq_ind "O1"
                (fun s => match s with EmptyString => False | _ => True end)
                I "" H)
           eq_refl eq_refl).
Defined.

(** A signed checkout.session.completed event that is not yet paid (a
    delayed payment method): the payment row is written with status
    "pending", not "completed". *)
Lemma webhook_unpaid_session_counterexample :
  let ce := Scenario.verify (Scenario.completed "unpaid") in
  let st' := fst (StripeWebhook.POST ce "whsec_1"
                    (Scenario.shop_with_order pending)
                    Scenario.signed_delivery) in
  ce (StripeWebhook.rawBody Scenario.signed_delivery) "whsec_1" "whsec_1"
  = Some (Scenario.completed "unpaid")
  /\ StripeWebhook.type (Scenario.completed "unpaid")
     = "checkout.session.completed"
  /\ map (fun p => (Payments.status p, Payments.transaction_id p))
         (Db.payments st')
     = [("pending", Some "pi_1")].
Proof. repeat split; reflexivity. Qed.

(** Recording the same payment again after a first attempt: the status
    update finds the status already written and the insert is refused. *)
Lemma record_payment_twice (st : Db.Store) (orderId t : string)
  (r : Payments.insert) :
  Payments.i_transaction_id r = Some t ->
  let st2 := fst (Db.insert_payment
                    (Db.update_order_status st orderId processing) r) in
  Db.insert_payment (Db.update_order_status st2 orderId processing) r
  = (st2, false).
Proof.
  intros Htx. cbv zeta.
  set (st1 := Db.update_order_status st orderId processing).
  assert (Hst1 : Db.update_order_status st1 orderId processing = st1)
    by apply update_order_status_twice.
  destruct (Db.insert_payment st1 r) as [st2 ok] eqn:Hins. simpl fst.
  unfold Db.insert_payment in Hins.
  destruct (Db.payments_accepts st1 r) eqn:Hacc; injection Hins as <- <-.
  - set (st2 := Db.mkStore _ _ _ _ _ _).
    assert (Hst2 : Db.update_order_status st2 orderId processing = st2).
    { unfold Db.update_order_status, st2. simpl. f_equal.
      exact (f_equal Db.orders Hst1). }
    rewrite Hst2. unfold Db.insert_payment.
    assert (Hdup : Db.payments_accepts st2 r = false).
    { unfold Db.payments_accepts.
      assert (Hfree : Db.transaction_id_free st2 (Payments.i_transaction_id r)
                      = false).
      { rewrite Htx. unfold st2. simpl. rewrite existsb_app. simpl.
        rewrite Htx, String.eqb_refl. now rewrite orb_true_r. }
      rewrite Hfree. apply andb_false_r. }
    now rewrite Hdup.
  - rewrite Hst1. unfold Db.insert_payment. now rewrite Hacc.
Qed.

Lemma transaction_id_free_not_In (st : Db.Store) (t : string) :
  Db.transaction_id_free st (Some t) = true -> ~ In t (Db.transaction_ids st).
Proof.
  unfold Db.transaction_id_free, Db.transaction_ids.
  rewrite negb_true_iff. intros Hfree Hin.
  apply in_flat_map in Hin as [p [Hp Ht]].
  assert (Hex : existsb (fun p => match Payments.transaction_id p with
                                  | Some y => (y =? t)%string
                                  | None => false
                                  end) (Db.payments st) = true).
  { apply existsb_exists. exists p. split; [assumption |].
    destruct (Payments.transaction_id p) as [y |]; [| contradiction].
    destruct Ht as [-> | []]. apply String.eqb_refl. }
  congruence.
Qed.

(** An insert keeps the transaction ids on record pairwise distinct. *)
Lemma insert_payment_unique (st : Db.Store) (r : Payments.insert) :
  NoDup (Db.transaction_ids st) ->
  NoDup (Db.transaction_ids (fst (Db.insert_payment st r))).
Proof.
  intro Hnd. unfold Db.insert_payment.
  destruct (Db.payments_accepts st r) eqn:Hacc; [| exact Hnd].
  unfold Db.payments_accepts in Hacc. apply andb_prop in Hacc as [_ Hfree].
  unfold Db.transaction_ids. simpl. rewrite flat_map_app. simpl.
  destruct (Payments.i_transaction_id r) as [t |].
  - apply transaction_id_free_not_In in Hfree.
    apply NoDup_app; [exact Hnd | repeat constructor; intros [] |].
    intros x Hx [<- | []]. now apply Hfree.
  - now rewrite app_nil_r.
Qed.

(** C5. Delivering the same event a second time changes nothing: the store
    after two deliveries is the store after one (the same payment rows, so no
    second row with the transaction id, and the same order statuses), and
    the answer is the same.  The second insert is refused by the UNIQUE
    constraint on [payments.transaction_id]; under that constraint no
    delivery ever leaves two payment rows with one transaction id. *)
Theorem webhook_redelivery_idempotent
  (constructEvent : string -> string -> string -> option StripeWebhook.Event)
  (endpointSecret : string) (st : Db.Store) (req : StripeWebhook.Request) :
  let once := StripeWebhook.POST constructEvent endpointSecret st req in
  StripeWebhook.POST constructEvent endpointSecret (fst once) req = once
  /\ (NoDup (Db.transaction_ids st) -> NoDup (Db.transaction_ids (fst once))).
Proof.
  cbv zeta. unfold StripeWebhook.POST. cbv zeta.
  destruct (constructEvent _ _ _) as [event |]; [| now split].
  destruct (StripeWebhook.type event =? "checkout.session.completed")%string;
    [| now split].
  destruct (StripeWebhook.metadata_order_id _) as [orderId |]; [| now split].
  destruct (orderId =? "")%string; [now split |].
  pose proof (record_payment_twice st orderId
                (StripeWebhook.transaction_id_of (StripeWebhook.data_object event))
                (StripeWebhook.payment_of orderId (StripeWebhook.data_object event))
                eq_refl) as Htwice.
  pose proof (insert_payment_unique
                (Db.update_order_status st orderId processing)
                (StripeWebhook.payment_of orderId (StripeWebhook.data_object event)))
    as Huniq.
  cbv zeta in Htwice.
  destruct (Db.insert_payment (Db.update_order_status st orderId processing) _)
    as [st2 ok].
  simpl fst in *. rewrite Htwice. split; [reflexivity | exact Huniq].
Qed.

(** The scenario of the specification, delivered twice: order "O1" ends in
    [processing] and there is one payment row, "completed". *)
Example webhook_scenario_twice :
  let ce := Scenario.verify (Scenario.completed "paid") in
  let once := fst (StripeWebhook.POST ce "whsec_1"
                     (Scenario.shop_with_order pending)
                     Scenario.signed_delivery) in
  let twice := fst (StripeWebhook.POST ce "whsec_1" once
                      Scenario.signed_delivery) in
  map Orders.status (Db.orders twice) = [processing]
  /\ map Payments.status (Db.payments twice) = ["completed"]
  /\ Db.transaction_ids twice = ["pi_1"].
Proof. repeat split; reflexivity. Qed.

(** ** The message endpoints: what counts as content *)

Example trim_examples :
  Js.trim "  Hi there  " = "Hi there"
  /\ Js.trim "   " = ""
  /\ Js.trim "" = ""
  /\ Js.trim (String (ascii_of_nat 9) (String (ascii_of_nat 10) "x")) = "x".
Proof. repeat split; reflexivity. Qed.

(** C7 (amended). The message endpoint checks presence only: it inserts the
    message exactly when customer_id and content are both present and not
    the empty string (and the table takes the row), and then stores the
    content as sent, untrimmed; a request whose content is missing or empty
    is answered 400 and inserts nothing.  Trimming is done by the chat
    composers: [sendMessage] and [sendReply] send nothing when the text is
    empty after trimming. *)
Theorem postMessage_requires_present_content
  (customer_messages_accepts :
     list MessagesApi.CustomerMessage -> string -> string -> bool)
  (chat_messages_accepts : list Chat.ChatMessage -> Chat.ChatMessage -> bool)
  (tbl : Table MessagesApi.CustomerMessage) (body : MessagesApi.Body)
  (chat : Table Chat.ChatMessage) :
  let tbl' := fst (MessagesApi.POST customer_messages_accepts tbl body) in
  (tbl' = tbl
   \/ exists cid text,
        MessagesApi.b_customer_id body = Some cid /\ cid <> ""
        /\ MessagesApi.b_content body = Some text /\ text <> ""
        /\ customer_messages_accepts (rows tbl) cid text = true
        /\ rows tbl'
           = rows tbl
             ++ [MessagesApi.mk (Db.uuid_generate_v4 (next_key tbl)) cid text])
  /\ (forall cid text,
        MessagesApi.b_customer_id body = Some cid -> cid <> "" ->
        MessagesApi.b_content body = Some text -> text <> "" ->
        customer_messages_accepts (rows tbl) cid text = true ->
        rows tbl'
        = rows tbl
          ++ [MessagesApi.mk (Db.uuid_generate_v4 (next_key tbl)) cid text])
  /\ (Js.truthy (MessagesApi.b_content body) = false ->
      MessagesApi.POST customer_messages_accepts tbl body
      = (tbl, json_error "Missing customer_id or content" 400))
  /\ (forall user composer selected,
        Js.trim composer = "" ->
        Chat.sendMessage chat_messages_accepts chat user composer = chat
        /\ Chat.sendReply chat_messages_accepts chat user selected composer
           = chat).
Proof.
  cbv zeta. split; [| split; [| split]].
  - unfold MessagesApi.POST.
    destruct (MessagesApi.b_customer_id body) as [cid |];
      destruct (MessagesApi.b_content body) as [text |]; simpl;
      try (left; rewrite ?orb_true_r; reflexivity).
    destruct (cid =? "")%string eqn:Ec; simpl; [now left |].
    destruct (text =? "")%string eqn:Et; simpl; [now left |].
    destruct (customer_messages_accepts (rows tbl) cid text) eqn:Hacc;
      simpl; [| now left].
    right. exists cid, text. apply String.eqb_neq in Ec, Et.
    repeat split; assumption.
  - intros cid text Hc Hcn Ht Htn Hacc. unfold MessagesApi.POST.
    rewrite Hc, Ht. simpl.
    apply String.eqb_neq in Hcn, Htn. rewrite Hcn, Htn. simpl.
    now rewrite Hacc.
  - intro Hmiss. unfold MessagesApi.POST. rewrite Hmiss.
    now rewrite orb_true_r.
  - intros user composer selected Htrim.
    unfold Chat.sendMessage, Chat.sendReply. rewrite Htrim. simpl.
    split; [reflexivity | now destruct selected].
Qed.

(** A request whose content is three spaces: it is empty after trimming,
    yet the endpoint answers 200 and the message is stored. *)
Lemma postMessage_blank_content_counterexample :
  MessagesApi.b_content Scenario.blank_message = Some "   "
  /\ Js.trim "   " = ""
  /\ MessagesApi.POST Scenario.any_customer_message Scenario.no_messages
                      Scenario.blank_message
     = (mkTable [MessagesApi.mk (Db.uuid_generate_v4 0) "U1" "   "] 1, json_ok).
Proof. repeat split; reflexivity. Qed.

(** ** The thread list: fallback against the view *)

Lemma THREAD_PAGE_SIZE_pos : (0 < Chat.THREAD_PAGE_SIZE)%nat.
Proof. unfold Chat.THREAD_PAGE_SIZE. lia. Qed.

(** The loop computes the first occurrences, cut when the page is full. *)
Lemma dedupe_loop_distinct :
  forall (msgs seen ids : list string),
    (List.length ids < Chat.THREAD_PAGE_SIZE)%nat ->
    Chat.dedupe_loop msgs seen ids
    = ids ++ firstn (Chat.THREAD_PAGE_SIZE - List.length ids)
                    (Chat.distinct seen msgs).
Proof.
  induction msgs as [| cid rest IH]; intros seen ids Hlt.
  - cbn [Chat.dedupe_loop Chat.distinct]. rewrite firstn_nil.
    now rewrite app_nil_r.
  - cbn [Chat.dedupe_loop Chat.distinct].
    destruct (Db.mem cid seen); cbn [negb].
    + now apply IH.
    + rewrite length_app. cbn [List.length].
      destruct (Nat.leb_spec Chat.THREAD_PAGE_SIZE (List.length ids + 1))
        as [Hfull | Hroom].
      * replace (Chat.THREAD_PAGE_SIZE - List.length ids)%nat with 1%nat
          by lia.
        reflexivity.
      * rewrite IH by (rewrite length_app; cbn [List.length]; lia).
        rewrite length_app. cbn [List.length].
        replace (Chat.THREAD_PAGE_SIZE - List.length ids)%nat
          with (S (Chat.THREAD_PAGE_SIZE - (List.length ids + 1)))%nat by lia.
        cbn [firstn]. rewrite <- app_assoc. reflexivity.
Qed.

Lemma distinct_spec :
  forall (l seen : list string),
    NoDup (Chat.distinct seen l)
    /\ forall x, In x (Chat.distinct seen l) -> In x l /\ ~ In x seen.
Proof.
  induction l as [| a l IH]; intro seen; cbn [Chat.distinct].
  - split; [constructor | intros x []].
  - destruct (Db.mem a seen) eqn:Hmem.
    + destruct (IH seen) as [Hnd Hin]. split; [assumption |].
      intros x Hx. destruct (Hin x Hx). split; [now right | assumption].
    + apply mem_not_In in Hmem.
      destruct (IH (a :: seen)) as [Hnd Hin]. split.
      * constructor; [| assumption].
        intro Ha. destruct (Hin a Ha) as [_ Hn]. apply Hn. now left.
      * intros x [<- | Hx]; [split; [now left | assumption] |].
        destruct (Hin x Hx) as [Hl Hn]. split; [now right |].
        intro Hs. apply Hn. now right.
Qed.

Lemma distinct_app :
  forall (l1 l2 seen : list string),
    Chat.distinct seen (l1 ++ l2)
    = Chat.distinct seen l1
      ++ Chat.distinct (rev (Chat.distinct seen l1) ++ seen) l2.
Proof.
  induction l1 as [| a l1 IH]; intros l2 seen; cbn [Chat.distinct app].
  - reflexivity.
  - destruct (Db.mem a seen).
    + apply IH.
    + cbn [app rev]. f_equal. rewrite IH. f_equal.
      now rewrite <- app_assoc.
Qed.

Lemma firstn_app_full {A : Type} (n : nat) (l1 l2 : list A) :
  (n <= List.length l1)%nat -> firstn n (l1 ++ l2) = firstn n l1.
Proof.
  intro H. rewrite firstn_app.
  replace (n - List.length l1)%nat with 0%nat by lia.
  cbn [firstn]. now rewrite app_nil_r.
Qed.

(** C8 (amended). The fallback path looks only at a window of forty
    messages, those at offsets 20*page .. 20*page + 39 of the log by recency.
    For every log and page its result is the first page of the thread view
    computed over that window: thread ids of the log, none repeated, at most
    twenty, in the order of their latest message in the window.  On page 0 it
    is the result of the view path whenever the log has at most forty
    messages or its forty newest messages span at least twenty threads. *)
Theorem loadThreads_fallback_window (log : list Chat.ChatMessage) (page : nat) :
  let from := (page * Chat.THREAD_PAGE_SIZE)%nat in
  let window :=
    Chat.range from (from + Chat.THREAD_PAGE_SIZE - 1 + Chat.THREAD_PAGE_SIZE)
               log in
  Chat.fallback_ids log page
  = firstn Chat.THREAD_PAGE_SIZE (Chat.chat_threads window)
  /\ NoDup (Chat.fallback_ids log page)
  /\ (List.length (Chat.fallback_ids log page) <= Chat.THREAD_PAGE_SIZE)%nat
  /\ (forall cid, In cid (Chat.fallback_ids log page) ->
                  In cid (map Chat.customer_id log))
  /\ ((List.length log <= 2 * Chat.THREAD_PAGE_SIZE)%nat
      \/ (Chat.THREAD_PAGE_SIZE
          <= List.length
               (Chat.chat_threads (firstn (2 * Chat.THREAD_PAGE_SIZE) log)))%nat ->
      Chat.fallback_ids log 0 = Chat.view_ids log 0).
Proof.
  cbv zeta.
  assert (Hchar : forall p,
             Chat.fallback_ids log p
             = firstn Chat.THREAD_PAGE_SIZE
                 (Chat.chat_threads
                    (Chat.range (p * Chat.THREAD_PAGE_SIZE)
                       (p * Chat.THREAD_PAGE_SIZE + Chat.THREAD_PAGE_SIZE - 1
                        + Chat.THREAD_PAGE_SIZE) log))).
  { intro p. unfold Chat.fallback_ids, Chat.chat_threads.
    rewrite dedupe_loop_distinct by apply THREAD_PAGE_SIZE_pos.
    cbn [List.length app]. now rewrite Nat.sub_0_r. }
  split; [apply Hchar |]. split; [| split; [| split]].
  - rewrite Hchar. apply NoDup_firstn. apply distinct_spec.
  - rewrite Hchar. apply firstn_le_length.
  - intros cid Hin. rewrite Hchar in Hin. apply In_firstn_In in Hin.
    apply distinct_spec in Hin as [Hin _].
    apply in_map_iff in Hin as [m [Hm Hin]].
    apply in_map_iff. exists m. split; [assumption |].
    unfold Chat.range in Hin. apply In_firstn_In in Hin.
    rewrite <- (firstn_skipn (page * Chat.THREAD_PAGE_SIZE) log).
    apply in_or_app. now right.
  - intro Hcover. rewrite Hchar. unfold Chat.view_ids, Chat.range.
    change (0 * Chat.THREAD_PAGE_SIZE)%nat with 0%nat. cbn [skipn].
    replace (S (0 + Chat.THREAD_PAGE_SIZE - 1 + Chat.THREAD_PAGE_SIZE) - 0)%nat
      with (2 * Chat.THREAD_PAGE_SIZE)%nat
      by (pose proof THREAD_PAGE_SIZE_pos; lia).
    replace (S (0 + Chat.THREAD_PAGE_SIZE - 1) - 0)%nat
      with Chat.THREAD_PAGE_SIZE
      by (pose proof THREAD_PAGE_SIZE_pos; lia).
    destruct Hcover as [Hshort | Hmany].
    + now rewrite (firstn_all2 log Hshort).
    + unfold Chat.chat_threads in *.
      rewrite <- (firstn_skipn (2 * Chat.THREAD_PAGE_SIZE) log) at 2.
      rewrite map_app, distinct_app.
      now rewrite firstn_app_full by exact Hmany.
Qed.

(** Forty messages of thread "A" followed by one older message of thread
    "B": the view lists both threads on page 0, the fallback only "A".  And
    with twenty-one messages of the single thread "A" the fallback returns
    "A" again on page 1, where the view has nothing left, so [loadThreads]
    appends the thread a second time. *)
Lemma loadThreads_fallback_counterexample :
  Chat.view_ids Scenario.busy_log 0 = ["A"; "B"]
  /\ Chat.fallback_ids Scenario.busy_log 0 = ["A"]
  /\ Chat.view_ids Scenario.single_thread_log 1 = []
  /\ Chat.fallback_ids Scenario.single_thread_log 1 = ["A"]
  /\ Chat.loadThreads false Scenario.single_thread_log
       (Chat.loadThreads false Scenario.single_thread_log [] 0) 1
     = ["A"; "A"].
Proof. repeat split; reflexivity. Qed.


(** * Further properties of the workflow code *)

(** ** The cart *)

Lemma getItemCount_cons (item : Cart.CartItem) (l : list Cart.CartItem) :
  Cart.getItemCount (item :: l) = Cart.quantity item + Cart.getItemCount l.
Proof.
  unfold Cart.getItemCount. simpl.
  assert (H : forall l acc,
             fold_left (fun count i => count + Cart.quantity i) l acc
             = acc + fold_left (fun count i => count + Cart.quantity i) l 0).
  { clear. induction l as [| a l IH]; intro acc; cbn [fold_left]; [lia |].
    rewrite (IH (acc + _)), (IH (0 + _)). lia. }
  rewrite H. lia.
Qed.

Lemma getCartTotal_cons (item : Cart.CartItem) (l : list Cart.CartItem) :
  Cart.getCartTotal (item :: l)
  = Cart.price (Cart.product item) * Cart.quantity item + Cart.getCartTotal l.
Proof.
  unfold Cart.getCartTotal. simpl.
  assert (H : forall l acc,
             fold_left (fun t i => t + Cart.price (Cart.product i) * Cart.quantity i)
                       l acc
             = acc + fold_left (fun t i => t + Cart.price (Cart.product i)
                                               * Cart.quantity i) l 0).
  { clear. induction l as [| a l IH]; intro acc; cbn [fold_left]; [lia |].
    rewrite (IH (acc + _)), (IH (0 + _)). lia. }
  rewrite H. lia.
Qed.

Lemma getItemCount_app (l1 l2 : list Cart.CartItem) :
  Cart.getItemCount (l1 ++ l2) = Cart.getItemCount l1 + Cart.getItemCount l2.
Proof.
  induction l1 as [| a l1 IH]; [reflexivity |].
  rewrite <- app_comm_cons, !getItemCount_cons, IH. lia.
Qed.

(** A map that only touches the lines of a product leaves a cart without
    that product as it is. *)
Lemma map_other_product (f : Cart.CartItem -> Cart.CartItem) (pid : string)
  (l : list Cart.CartItem) :
  ~ In pid (map (fun item => Cart.id (Cart.product item)) l) ->
  map (fun item => if (Cart.id (Cart.product item) =? pid)%string
                   then f item else item) l = l.
Proof.
  induction l as [| a l IH]; intro Hn; simpl; [reflexivity |].
  simpl in Hn.
  destruct (Cart.id (Cart.product a) =? pid)%string eqn:E.
  - apply String.eqb_eq in E. exfalso. apply Hn. now left.
  - f_equal. apply IH. intro H. apply Hn. now right.
Qed.

Lemma map_quantity_ids (f : Cart.CartItem -> Z) (pid : string)
  (l : list Cart.CartItem) :
  map (fun item => Cart.id (Cart.product item))
      (map (fun item => if (Cart.id (Cart.product item) =? pid)%string
                        then Cart.with_quantity (f item) item else item) l)
  = map (fun item => Cart.id (Cart.product item)) l.
Proof.
  rewrite map_map. apply map_ext. intro a.
  now destruct (Cart.id (Cart.product a) =? pid)%string.
Qed.

Lemma find_product_None (pid : string) (l : list Cart.CartItem) :
  find (fun item => (Cart.id (Cart.product item) =? pid)%string) l = None ->
  ~ In pid (map (fun item => Cart.id (Cart.product item)) l).
Proof.
  intros Hf Hin. apply in_map_iff in Hin as [a [Ha Hin]].
  pose proof (find_none _ _ Hf a Hin) as H. simpl in H.
  rewrite Ha, String.eqb_refl in H. discriminate.
Qed.

Lemma count_one_more (pid : string) (l : list Cart.CartItem) :
  NoDup (map (fun item => Cart.id (Cart.product item)) l) ->
  In pid (map (fun item => Cart.id (Cart.product item)) l) ->
  Cart.getItemCount
    (map (fun item => if (Cart.id (Cart.product item) =? pid)%string
                      then Cart.with_quantity (Cart.quantity item + 1) item
                      else item) l)
  = Cart.getItemCount l + 1.
Proof.
  induction l as [| a l IH]; intros Hnd Hin; [contradiction |].
  simpl in Hnd, Hin. inversion Hnd as [| ? ? Hnotin Hnd']; subst.
  simpl map. rewrite !getItemCount_cons.
  destruct (Cart.id (Cart.product a) =? pid)%string eqn:E.
  - apply String.eqb_eq in E. subst pid.
    rewrite (map_other_product _ _ l Hnotin). simpl. lia.
  - destruct Hin as [Heq | Hin].
    + apply String.eqb_neq in E. contradiction.
    + rewrite (IH Hnd' Hin). lia.
Qed.

(** In a cart with one line per product, a change of the lines of a product
    touches exactly one line and leaves the others where and as they are. *)
Lemma map_one_line (f : Cart.CartItem -> Cart.CartItem) (pid : string)
  (l : list Cart.CartItem) :
  NoDup (map (fun item => Cart.id (Cart.product item)) l) ->
  In pid (map (fun item => Cart.id (Cart.product item)) l) ->
  exists before line after,
    l = before ++ line :: after
    /\ Cart.id (Cart.product line) = pid
    /\ map (fun item => if (Cart.id (Cart.product item) =? pid)%string
                        then f item else item) l
       = before ++ f line :: after.
Proof.
  induction l as [| a l IH]; intros Hnd Hin; [contradiction |].
  cbn [map] in Hnd, Hin. inversion Hnd as [| ? ? Hnotin Hnd']; subst.
  cbn [map].
  destruct (Cart.id (Cart.product a) =? pid)%string eqn:E.
  - apply String.eqb_eq in E. subst pid.
    exists [], a, l. rewrite (map_other_product _ _ l Hnotin).
    repeat split; reflexivity.
  - destruct Hin as [Heq | Hin];
      [apply String.eqb_neq in E; contradiction |].
    destruct (IH Hnd' Hin) as (before & line & after & Hl & Hid & Hmap).
    exists (a :: before), line, after.
    split; [now rewrite Hl | split; [exact Hid | now rewrite Hmap]].
Qed.

(** X1. Adding a product to a well-formed cart (one line per product, every
    quantity at least 1) gives a well-formed cart holding exactly one more
    unit: the line of the product gains one and every other line stays
    where and as it is, or, when the cart has no line of the product, a new
    line with quantity 1 is appended.  Without a signed-in user the cart is
    left as it is. *)
Theorem addToCart_one_more_unit (prev : list Cart.CartItem) (p : Cart.Product)
  (Hwf : Cart.well_formed prev) :
  let cart := Cart.addToCart true prev p in
  Cart.well_formed cart
  /\ Cart.getItemCount cart = Cart.getItemCount prev + 1
  /\ ((exists before line after,
         prev = before ++ line :: after
         /\ Cart.id (Cart.product line) = Cart.id p
         /\ cart = before
                   ++ Cart.mkItem (Cart.product line) (Cart.quantity line + 1)
                   :: after)
      \/ (~ In (Cart.id p) (map (fun item => Cart.id (Cart.product item)) prev)
          /\ cart = prev ++ [Cart.mkItem p 1]))
  /\ Cart.addToCart false prev p = prev.
Proof.
  cbv zeta.
  destruct Hwf as [Hnd Hq]. unfold Cart.addToCart. simpl negb. cbv iota.
  destruct (find _ prev) as [found |] eqn:Hfind.
  - assert (Hin : In (Cart.id p)
                     (map (fun item => Cart.id (Cart.product item)) prev)).
    { apply find_some in Hfind as [Hin He]. apply String.eqb_eq in He.
      apply in_map_iff. now exists found. }
    split; [split |]; [| | split; [| split]].
    + now rewrite map_quantity_ids.
    + apply Forall_forall. intros x Hx.
      apply in_map_iff in Hx as [a [Ha Hain]].
      rewrite Forall_forall in Hq. specialize (Hq a Hain).
      destruct (Cart.id (Cart.product a) =? Cart.id p)%string; subst x;
        simpl; lia.
    + now apply count_one_more.
    + left.
      destruct (map_one_line
                  (fun item => Cart.with_quantity (Cart.quantity item + 1) item)
                  (Cart.id p) prev Hnd Hin)
        as (before & line & after & Hl & Hid & Hmap).
      exists before, line, after. repeat split; assumption.
    + reflexivity.
  - apply find_product_None in Hfind.
    split; [split |]; [| | split; [| split]].
    + rewrite map_app. simpl.
      apply NoDup_app; [assumption | repeat constructor; intros [] |].
      intros x Hx [<- | []]. contradiction.
    + apply Forall_app. split; [assumption |].
      repeat constructor. simpl. lia.
    + rewrite getItemCount_app. unfold Cart.getItemCount at 2. simpl. lia.
    + right. split; [exact Hfind | reflexivity].
    + reflexivity.
Qed.

Lemma addToCart_one_more_unit_witness :
  Cart.well_formed Examples.cart
  /\ Cart.getItemCount (Cart.addToCart true Examples.cart Examples.d3)
     = Cart.getItemCount Examples.cart + 1
  /\ Cart.addToCart true Examples.cart Examples.d3
     = [Cart.mkItem Examples.d3 3; Cart.mkItem Examples.vit_c 1].
Proof.
  assert (Hwf : Cart.well_formed Examples.cart).
  { split.
    - simpl. repeat constructor; simpl; intuition discriminate.
    - repeat constructor; simpl; lia. }
  split; [exact Hwf |].
  split; [| reflexivity].
  apply (addToCart_one_more_unit Examples.cart Examples.d3 Hwf).
Defined.

(** X2. Changing a quantity keeps a well-formed cart well formed and keeps
    its lines and their order.  A quantity below 1 is not taken (so the
    minus button does nothing on a line with quantity 1); a quantity of at
    least 1 becomes the quantity of the product's line, whose product stays,
    and every other line stays where and as it is; without a line of the
    product nothing changes. *)
Theorem updateQuantity_keeps_cart (cartItems : list Cart.CartItem)
  (productId : string) (newQuantity : Z)
  (Hwf : Cart.well_formed cartItems) :
  let cart := Cart.updateQuantity cartItems productId newQuantity in
  Cart.well_formed cart
  /\ map (fun item => Cart.id (Cart.product item)) cart
     = map (fun item => Cart.id (Cart.product item)) cartItems
  /\ (newQuantity < 1 -> cart = cartItems)
  /\ (1 <= newQuantity ->
      (exists before line after,
         cartItems = before ++ line :: after
         /\ Cart.id (Cart.product line) = productId
         /\ cart = before ++ Cart.mkItem (Cart.product line) newQuantity
                   :: after)
      \/ (~ In productId
               (map (fun item => Cart.id (Cart.product item)) cartItems)
          /\ cart = cartItems))
  /\ (forall item,
        Cart.quantity item = 1 -> Cart.minus_button cartItems item = cartItems).
Proof.
  cbv zeta.
  destruct Hwf as [Hnd Hq].
  assert (Hlow : forall pid q, q < 1 -> Cart.updateQuantity cartItems pid q
                                         = cartItems).
  { intros pid q Hlt. unfold Cart.updateQuantity.
    apply Z.ltb_lt in Hlt. now rewrite Hlt. }
  unfold Cart.well_formed.
  destruct (Z.ltb_spec newQuantity 1) as [Hlt | Hge].
  - rewrite (Hlow _ _ Hlt). repeat split; try assumption; try reflexivity.
    + lia.
    + intros item H1. unfold Cart.minus_button. apply Hlow. lia.
  - assert (Hdef : Cart.updateQuantity cartItems productId newQuantity
                   = map (fun item =>
                            if (Cart.id (Cart.product item) =? productId)%string
                            then Cart.with_quantity newQuantity item
                            else item) cartItems).
    { unfold Cart.updateQuantity. apply Z.ltb_ge in Hge. now rewrite Hge. }
    rewrite Hdef.
    rewrite (map_quantity_ids (fun _ => newQuantity)).
    split; [split |]; [| | split; [| split; [| split]]].
    + assumption.
    + apply Forall_forall. intros x Hx.
      apply in_map_iff in Hx as [a [Ha Hain]].
      rewrite Forall_forall in Hq. specialize (Hq a Hain).
      destruct (Cart.id (Cart.product a) =? productId)%string; subst x;
        simpl; lia.
    + reflexivity.
    + lia.
    + intros _.
      destruct (in_dec string_dec productId
                  (map (fun item => Cart.id (Cart.product item)) cartItems))
        as [Hin | Hout].
      * left.
        destruct (map_one_line (Cart.with_quantity newQuantity) productId
                    cartItems Hnd Hin)
          as (before & line & after & Hl & Hid & Hmap).
        exists before, line, after. repeat split; assumption.
      * right. split; [exact Hout |]. now apply map_other_product.
    + intros item H1. unfold Cart.minus_button. apply Hlow. lia.
Qed.

Lemma updateQuantity_keeps_cart_witness :
  Cart.well_formed Examples.cart
  /\ Cart.well_formed (Cart.updateQuantity Examples.cart "P1" 5)
  /\ map (fun item => Cart.id (Cart.product item))
         (Cart.updateQuantity Examples.cart "P1" 5)
     = map (fun item => Cart.id (Cart.product item)) Examples.cart
  /\ Cart.updateQuantity Examples.cart "P1" 5
     = [Cart.mkItem Examples.d3 5; Cart.mkItem Examples.vit_c 1].
Proof.
  assert (Hwf : Cart.well_formed Examples.cart).
  { split.
    - simpl. repeat constructor; simpl; intuition discriminate.
    - repeat constructor; simpl; lia. }
  split; [exact Hwf |].
  pose proof (updateQuantity_keeps_cart Examples.cart "P1" 5 Hwf)
    as (H1 & H2 & _).
  split; [exact H1 |]. split; [exact H2 | reflexivity].
Defined.

Lemma removeItem_absent (pid : string) (l : list Cart.CartItem) :
  ~ In pid (map (fun item => Cart.id (Cart.product item)) l) ->
  Cart.removeItem l pid = l.
Proof.
  unfold Cart.removeItem.
  induction l as [| a l IH]; intro Hn; simpl; [reflexivity |].
  simpl in Hn.
  destruct (Cart.id (Cart.product a) =? pid)%string eqn:E; simpl.
  - apply String.eqb_eq in E. exfalso. apply Hn. now left.
  - f_equal. apply IH. intro H. apply Hn. now right.
Qed.

Lemma removeItem_gone (pid : string) (l : list Cart.CartItem) :
  ~ In pid (map (fun item => Cart.id (Cart.product item))
                (Cart.removeItem l pid)).
Proof.
  unfold Cart.removeItem. intro Hin.
  apply in_map_iff in Hin as [a [Ha Hin]].
  apply filter_In in Hin as [_ Hne].
  rewrite Ha, String.eqb_refl in Hne. discriminate.
Qed.

Lemma NoDup_map_filter {A B : Type} (f : A -> B) (g : A -> bool) (l : list A) :
  NoDup (map f l) -> NoDup (map f (filter g l)).
Proof.
  induction l as [| a l IH]; intro Hnd; simpl; [constructor |].
  simpl in Hnd. inversion Hnd as [| ? ? Hnotin Hnd']; subst.
  destruct (g a); simpl; [| now apply IH].
  constructor; [| now apply IH].
  intro Hin. apply Hnotin.
  apply in_map_iff in Hin as [x [Hx Hin]].
  apply filter_In in Hin as [Hin _].
  apply in_map_iff. now exists x.
Qed.

(** X3. Removing the line of a product from a well-formed cart leaves a
    well-formed cart without that product; the item count drops by the
    quantity of the line and the total by its price times its quantity.
    Removing it once more changes nothing. *)
Theorem removeItem_removes_line (cartItems : list Cart.CartItem)
  (item : Cart.CartItem)
  (Hwf : Cart.well_formed cartItems) (Hin : In item cartItems) :
  let rest := Cart.removeItem cartItems (Cart.id (Cart.product item)) in
  Cart.well_formed rest
  /\ ~ In (Cart.id (Cart.product item))
          (map (fun i => Cart.id (Cart.product i)) rest)
  /\ Cart.getItemCount rest = Cart.getItemCount cartItems - Cart.quantity item
  /\ Cart.getCartTotal rest
     = Cart.getCartTotal cartItems
       - Cart.price (Cart.product item) * Cart.quantity item
  /\ Cart.removeItem rest (Cart.id (Cart.product item)) = rest.
Proof.
  cbv zeta. destruct Hwf as [Hnd Hq].
  split; [| split; [| split; [| split]]].
  - split.
    + unfold Cart.removeItem. now apply NoDup_map_filter.
    + apply Forall_forall. intros x Hx. apply filter_In in Hx as [Hx _].
      rewrite Forall_forall in Hq. now apply Hq.
  - apply removeItem_gone.
  - clear Hq. induction cartItems as [| a l IH]; [contradiction |].
    simpl in Hnd. inversion Hnd as [| ? ? Hnotin Hnd']; subst.
    rewrite getItemCount_cons. destruct Hin as [-> | Hin].
    + unfold Cart.removeItem. simpl. rewrite String.eqb_refl. simpl.
      fold (Cart.removeItem l (Cart.id (Cart.product item))).
      rewrite (removeItem_absent _ _ Hnotin). lia.
    + assert (Hne : (Cart.id (Cart.product a)
                     =? Cart.id (Cart.product item))%string = false).
      { apply String.eqb_neq. intro He. apply Hnotin. rewrite He.
        apply in_map_iff. now exists item. }
      unfold Cart.removeItem. simpl. rewrite Hne. simpl.
      fold (Cart.removeItem l (Cart.id (Cart.product item))).
      rewrite getItemCount_cons, (IH Hnd' Hin). lia.
  - clear Hq. induction cartItems as [| a l IH]; [contradiction |].
    simpl in Hnd. inversion Hnd as [| ? ? Hnotin Hnd']; subst.
    rewrite getCartTotal_cons. destruct Hin as [-> | Hin].
    + unfold Cart.removeItem. simpl. rewrite String.eqb_refl. simpl.
      fold (Cart.removeItem l (Cart.id (Cart.product item))).
      rewrite (removeItem_absent _ _ Hnotin). lia.
    + assert (Hne : (Cart.id (Cart.product a)
                     =? Cart.id (Cart.product item))%string = false).
      { apply String.eqb_neq. intro He. apply Hnotin. rewrite He.
        apply in_map_iff. now exists item. }
      unfold Cart.removeItem. simpl. rewrite Hne. simpl.
      fold (Cart.removeItem l (Cart.id (Cart.product item))).
      rewrite getCartTotal_cons, (IH Hnd' Hin). lia.
  - apply removeItem_absent, removeItem_gone.
Qed.

Lemma removeItem_removes_line_witness :
  Cart.well_formed Examples.cart
  /\ In (Cart.mkItem Examples.d3 2) Examples.cart
  /\ Cart.getCartTotal (Cart.removeItem Examples.cart "P1")
     = Cart.getCartTotal Examples.cart - 1999 * 2.
Proof.
  assert (Hwf : Cart.well_formed Examples.cart).
  { split.
    - simpl. repeat constructor; simpl; intuition discriminate.
    - repeat constructor; simpl; lia. }
  assert (Hin : In (Cart.mkItem Examples.d3 2) Examples.cart)
    by (left; reflexivity).
  split; [exact Hwf |]. split; [exact Hin |].
  apply (removeItem_removes_line Examples.cart (Cart.mkItem Examples.d3 2)
           Hwf Hin).
Defined.

(** ** From the cart to the stored order *)

(** The price a cart line sends is the stored price of its product. *)
Lemma price_of_payload (item : Cart.CartItem) :
  Db.round_cents (Checkout.price_of (Cart.to_payload item))
  = Cart.price (Cart.product item)
  /\ Checkout.whole_cents (Checkout.price_of (Cart.to_payload item)) = true.
Proof.
  unfold Checkout.price_of, Cart.to_payload.
  cbn [Checkout.product Checkout.price Js.number_or].
  set (c := Cart.price (Cart.product item)).
  destruct (Qeq_bool (Db.to_number c) 0) eqn:E.
  - apply Qeq_bool_eq in E.
    assert (Hc : c = 0).
    { unfold Db.to_number, Qeq in E. simpl in E. lia. }
    rewrite Hc. split; reflexivity.
  - split; [apply round_cents_to_number |].
    unfold Checkout.whole_cents. rewrite round_cents_to_number.
    apply Qeq_bool_iff. reflexivity.
Qed.

Lemma payload_priced_in_cents (cartItems : list Cart.CartItem) :
  Checkout.priced_in_cents (map Cart.to_payload cartItems) = true.
Proof.
  unfold Checkout.priced_in_cents. rewrite forallb_forall.
  intros x Hx. apply in_map_iff in Hx as [item [<- _]].
  apply price_of_payload.
Qed.

Lemma payload_total (cartItems : list Cart.CartItem) :
  Forall (fun item => Cart.quantity item <> 0) cartItems ->
  Db.round_cents (Checkout.totalAmount (map Cart.to_payload cartItems))
  = Cart.getCartTotal cartItems.
Proof.
  intro Hq. rewrite (lines_total_stored _ (payload_priced_in_cents cartItems)).
  unfold Checkout.lines_total, Cart.getCartTotal.
  generalize 0. revert Hq.
  induction cartItems as [| a l IH]; intros Hq acc; cbn [map fold_left];
    [reflexivity |].
  inversion Hq as [| ? ? Ha Hl]; subst.
  rewrite IH by assumption. f_equal.
  destruct (price_of_payload a) as [-> _].
  unfold Checkout.quantity_of, Cart.to_payload.
  cbn [Checkout.quantity Js.num_or].
  apply Z.eqb_neq in Ha. now rewrite Ha.
Qed.

Lemma not_blank_nonempty (s : string) : Cart.not_blank s = true -> s <> "".
Proof. intros H ->. discriminate. Qed.

Lemma formatAddress_nonempty (a : Cart.ShippingAddress) :
  Cart.isAddressComplete a = true -> Cart.formatAddressForDatabase a <> "".
Proof.
  unfold Cart.isAddressComplete. intro H.
  repeat (apply andb_prop in H as [H _]).
  pose proof (not_blank_nonempty _ H) as Hne.
  unfold Cart.formatAddressForDatabase. cbv zeta.
  match goal with
  | |- String.concat _ (filter _ (?x :: ?rest)) <> _ =>
      change (filter Cart.not_blank (x :: rest))
        with (if Cart.not_blank x then x :: filter Cart.not_blank rest
              else filter Cart.not_blank rest);
      generalize (filter Cart.not_blank rest)
  end.
  intro others. rewrite H.
  destruct (Cart.fullName a) as [| c s]; [congruence |].
  destruct others; simpl; discriminate.
Qed.

(** X4. [handleCheckout] sends nothing, and the store stays as it is, when
    the address is incomplete or the cart is empty.  Whenever it leads to a
    stored order, that order is pending, belongs to the signed-in user,
    carries the formatted address (never empty) and, for a cart without
    zero quantities, has the total the cart screen shows. *)
Theorem handleCheckout_order
  (stripe : list Checkout.LineItem -> string -> string -> Checkout.Session + string)
  (st : Db.Store) (user_id : option string) (a : Cart.ShippingAddress)
  (cartItems : list Cart.CartItem) :
  let st' := Cart.handleCheckout stripe st user_id a cartItems in
  (Cart.isAddressComplete a = false \/ cartItems = [] -> st' = st)
  /\ (forall order,
        Db.orders st' = Db.orders st ++ [order] ->
        Cart.isAddressComplete a = true
        /\ cartItems <> []
        /\ user_id = Some (Orders.customer_id order)
        /\ Orders.status order = pending
        /\ Orders.shipping_address order = Cart.formatAddressForDatabase a
        /\ Orders.shipping_address order <> ""
        /\ (Forall (fun item => Cart.quantity item <> 0) cartItems ->
            Orders.total_amount order = Cart.getCartTotal cartItems)).
Proof.
  cbv zeta. unfold Cart.handleCheckout, Cart.checkout_request. split.
  - intros [Hinc | ->].
    + now rewrite Hinc.
    + now destruct (Cart.isAddressComplete a).
  - intros order.
    destruct (Cart.isAddressComplete a) eqn:Hcomplete; simpl negb; cbv iota;
      [| intro H; now apply app_singleton_neq in H].
    destruct cartItems as [| item rest];
      [intro H; now apply app_singleton_neq in H |].
    set (cart := item :: rest).
    set (body := Checkout.mkBody _ _ _).
    pose proof (formatAddress_nonempty a Hcomplete) as Hne.
    destruct (POST_inv stripe st body)
      as [[Hp _] | [[Hp _] | (c & uid & Hc & _ & Hu & _ & Hrest)]].
    + rewrite Hp. intro H. now apply app_singleton_neq in H.
    + rewrite Hp. intro H. now apply app_singleton_neq in H.
    + simpl in Hc, Hu. injection Hc as <-. cbv zeta in Hrest.
      destruct Hrest as [[_ Hp] | (st1 & o & Hins & Htail)].
      * rewrite Hp. intro H. now apply app_singleton_neq in H.
      * apply insert_order_row in Hins as [Ho Hst1].
        cbn [Orders.i_customer_id Orders.i_total_amount Orders.i_status
             Orders.i_shipping_address] in Ho.
        unfold body in Ho. cbn [Checkout.shippingAddress] in Ho.
        assert (Hfinal : forall st2, Db.orders st2 = Db.orders st1 ->
                  Db.orders st2 = Db.orders st ++ [order] ->
                  true = true /\ cart <> [] /\
                  user_id = Some (Orders.customer_id order) /\
                  Orders.status order = pending /\
                  Orders.shipping_address order
                  = Cart.formatAddressForDatabase a /\
                  Orders.shipping_address order <> "" /\
                  (Forall (fun i => Cart.quantity i <> 0) cart ->
                   Orders.total_amount order = Cart.getCartTotal cart)).
        { intros st2 H2 H. rewrite H2, Hst1 in H. simpl in H.
          apply app_inv_head in H. injection H as <-.
          assert (Hs : Js.str_or (Some (Cart.formatAddressForDatabase a)) ""
                       = Cart.formatAddressForDatabase a).
          { simpl. apply String.eqb_neq in Hne. now rewrite Hne. }
          rewrite Hs in Ho. rewrite Ho.
          cbn [Orders.customer_id Orders.status Orders.shipping_address
               Orders.total_amount].
          repeat split; try assumption; try discriminate.
          intro Hq. exact (payload_total cart Hq). }
        destruct Htail as [[_ Hp] | (st2 & Hins2 & Hfst & _)].
        -- rewrite Hp. simpl fst. now apply Hfinal.
        -- rewrite Hfst. apply insert_order_items_inv in Hins2
             as (rows & _ & Ho2 & _). now apply Hfinal.
Qed.

(** The example cart, checked out in the example shop: the stored total is
    the 64.97 the cart screen shows. *)
Example handleCheckout_example :
  let st' := Cart.handleCheckout Scenario.stripe_ok Scenario.shop (Some "U1")
               Examples.address Examples.cart in
  Cart.getCartTotal Examples.cart = 6497
  /\ map Orders.total_amount (Db.orders st') = [6497]
  /\ map OrderItems.quantity (Db.order_items st') = [2; 1].
Proof. repeat split; reflexivity. Qed.

(** ** The checkout endpoint: answers, frame, integrity *)


(** X6. The checkout endpoint only ever adds rows: for every request the
    orders and the order items on record before are still there, unchanged
    and in place, and users, products and payments are untouched. *)
Theorem checkout_only_adds
  (stripe : list Checkout.LineItem -> string -> string -> Checkout.Session + string)
  (st : Db.Store) (body : Checkout.Body) :
  let st' := fst (Checkout.POST stripe st body) in
  (exists new_orders, Db.orders st' = Db.orders st ++ new_orders
                      /\ (List.length new_orders <= 1)%nat)
  /\ (exists new_items, Db.order_items st' = Db.order_items st ++ new_items)
  /\ Db.users st' = Db.users st
  /\ Db.products st' = Db.products st
  /\ Db.payments st' = Db.payments st.
Proof.
  cbv zeta.
  assert (Hsame : forall s, s = st ->
            (exists new_orders, Db.orders s = Db.orders st ++ new_orders
                                /\ (List.length new_orders <= 1)%nat)
            /\ (exists new_items, Db.order_items s = Db.order_items st ++ new_items)
            /\ Db.users s = Db.users st /\ Db.products s = Db.products st
            /\ Db.payments s = Db.payments st).
  { intros s ->. repeat split.
    - exists []. rewrite app_nil_r. split; [reflexivity | simpl; lia].
    - exists []. now rewrite app_nil_r. }
  destruct (POST_inv stripe st body)
    as [[Hp _] | [[Hp _] | (cart & uid & Hc & _ & Hu & _ & Hrest)]];
    try (rewrite Hp; now apply Hsame).
  cbv zeta in Hrest.
  destruct Hrest as [[_ Hp] | (st1 & order & Hins & Htail)];
    [rewrite Hp; now apply Hsame |].
  apply insert_order_inv in Hins
    as (_ & Ho & _ & _ & _ & Hu1 & Hp1 & Hi1 & Hpay1).
  destruct Htail as [[_ Hp] | (st2 & Hins2 & Hfst & _)].
  - rewrite Hp. simpl fst. repeat split; try assumption.
    + exists [order]. split; [assumption | simpl; lia].
    + exists []. now rewrite app_nil_r.
  - rewrite Hfst.
    apply insert_order_items_inv in Hins2
      as (rows & _ & Ho2 & Hi2 & Hu2 & Hp2 & Hpay2).
    repeat split; try congruence.
    + exists [order]. split; [congruence | simpl; lia].
    + exists rows. congruence.
Qed.

(** ** Integrity of the store under the handlers *)

Lemma consistent_insert_order (st st1 : Db.Store) (r : Orders.insert)
  (res : option Orders.row) :
  Integrity.consistent st -> Db.insert_order st r = (st1, res) ->
  Integrity.consistent st1.
Proof.
  intros (Ho & Hi & Hp & Ht) Hins. unfold Db.insert_order in Hins.
  destruct (Db.orders_accepts st r) eqn:Hacc;
    injection Hins as <- <-; [| repeat split; assumption].
  unfold Db.orders_accepts in Hacc.
  apply andb_prop in Hacc as [Hu Hpos].
  apply mem_In in Hu. apply positive_10_2_inv in Hpos as [Hpos _].
  unfold Integrity.consistent. cbn. repeat split.
  - apply Forall_app. split; [assumption |].
    repeat constructor; assumption.
  - eapply Forall_impl; [| exact Hi]. intros i (H1 & H2 & H3 & H4).
    repeat split; try assumption.
    rewrite map_app. apply in_or_app. now left.
  - eapply Forall_impl; [| exact Hp]. intros p (H1 & H2).
    split; [| assumption]. rewrite map_app. apply in_or_app. now left.
  - exact Ht.
Qed.

Lemma order_item_rows_checked (st : Db.Store) :
  forall (rs : list OrderItems.insert) (n : nat) (rows : list OrderItems.row),
    Db.order_item_rows st n rs = Some rows ->
    Forall (fun i => In (OrderItems.order_id i) (map Orders.id (Db.orders st))
                     /\ In (OrderItems.product_id i)
                           (map Products.id (Db.products st))
                     /\ 0 < OrderItems.quantity i
                     /\ 0 < OrderItems.unit_price i) rows.
Proof.
  induction rs as [| r rs IH]; intros n rows H; simpl in H.
  - injection H as <-. constructor.
  - destruct (Db.order_item_row st n r) as [x |] eqn:Hx; [| discriminate].
    destruct (Db.order_item_rows st (S n) rs) as [xs |] eqn:Hxs;
      [| discriminate].
    injection H as <-. constructor; [| now apply (IH (S n))].
    unfold Db.order_item_row in Hx.
    destruct (OrderItems.i_product_id r) as [pid |]; [| discriminate].
    destruct (_ && _) eqn:Hc in Hx; [| discriminate].
    injection Hx as <-. cbn.
    apply andb_prop in Hc as [Hc Hprice].
    apply andb_prop in Hc as [Hc _]. apply andb_prop in Hc as [Hc Hqty].
    apply andb_prop in Hc as [Horder Hprod].
    apply mem_In in Horder, Hprod. apply Z.ltb_lt in Hqty.
    apply positive_10_2_inv in Hprice as [Hprice _].
    repeat split; assumption.
Qed.

Lemma consistent_insert_order_items (st st2 : Db.Store)
  (rs : list OrderItems.insert) (ok : bool) :
  Integrity.consistent st -> Db.insert_order_items st rs = (st2, ok) ->
  Integrity.consistent st2.
Proof.
  intros (Ho & Hi & Hp & Ht) Hins. unfold Db.insert_order_items in Hins.
  destruct (Db.order_item_rows st (Db.next_uuid st) rs) as [rows |] eqn:Hrows;
    injection Hins as <- <-; [| repeat split; assumption].
  apply order_item_rows_checked in Hrows.
  unfold Integrity.consistent. simpl. repeat split; try assumption.
  apply Forall_app. split; assumption.
Qed.

Lemma consistent_insert_payment (st : Db.Store) (r : Payments.insert) :
  Integrity.consistent st ->
  Integrity.consistent (fst (Db.insert_payment st r)).
Proof.
  intros (Ho & Hi & Hp & Ht).
  pose proof (insert_payment_unique st r Ht) as Huniq.
  unfold Db.insert_payment in *.
  destruct (Db.payments_accepts st r) eqn:Hacc;
    [| repeat split; assumption].
  unfold Db.payments_accepts in Hacc.
  repeat (apply andb_prop in Hacc as [Hacc ?]).
  apply mem_In in Hacc.
  match goal with H : (0 <? _) = true |- _ => apply Z.ltb_lt in H end.
  unfold Integrity.consistent. simpl in *. repeat split; try assumption.
  apply Forall_app. split; [assumption |].
  repeat constructor; assumption.
Qed.

Lemma consistent_update_order_status (st : Db.Store) (orderId : string)
  (s : order_status) :
  Integrity.consistent st ->
  Integrity.consistent (Db.update_order_status st orderId s).
Proof.
  intros (Ho & Hi & Hp & Ht).
  unfold Integrity.consistent.
  rewrite update_order_status_ids. simpl. repeat split; try assumption.
  apply Forall_forall. intros o' Hin.
  apply in_map_iff in Hin as [o [Heq Hin]].
  rewrite Forall_forall in Ho. specialize (Ho o Hin).
  destruct (Orders.id o =? orderId)%string; subst o'; exact Ho.
Qed.

Lemma consistent_checkout
  (stripe : list Checkout.LineItem -> string -> string -> Checkout.Session + string)
  (st : Db.Store) (body : Checkout.Body) :
  Integrity.consistent st ->
  Integrity.consistent (fst (Checkout.POST stripe st body)).
Proof.
  intro Hc.
  destruct (POST_inv stripe st body)
    as [[Hp _] | [[Hp _] | (cart & uid & _ & _ & _ & _ & Hrest)]];
    try (now rewrite Hp).
  cbv zeta in Hrest.
  destruct Hrest as [[_ Hp] | (st1 & order & Hins & Htail)];
    [now rewrite Hp |].
  pose proof (consistent_insert_order _ _ _ _ Hc Hins) as Hc1.
  destruct Htail as [[_ Hp] | (st2 & Hins2 & Hfst & _)].
  - now rewrite Hp.
  - rewrite Hfst. exact (consistent_insert_order_items _ _ _ _ Hc1 Hins2).
Qed.

Lemma consistent_webhook
  (constructEvent : string -> string -> string -> option StripeWebhook.Event)
  (endpointSecret : string) (st : Db.Store) (req : StripeWebhook.Request) :
  Integrity.consistent st ->
  Integrity.consistent
    (fst (StripeWebhook.POST constructEvent endpointSecret st req)).
Proof.
  intro Hc. unfold StripeWebhook.POST. cbv zeta.
  destruct (constructEvent _ _ _) as [event |]; [| exact Hc].
  destruct (StripeWebhook.type event =? "checkout.session.completed")%string;
    [| exact Hc].
  destruct (StripeWebhook.metadata_order_id _) as [orderId |]; [| exact Hc].
  destruct (orderId =? "")%string; [exact Hc |].
  pose proof (consistent_insert_payment _
                (StripeWebhook.payment_of orderId
                   (StripeWebhook.data_object event))
                (consistent_update_order_status st orderId processing Hc))
    as H.
  destruct (Db.insert_payment _ _) as [st2 ok]. exact H.
Qed.

(** ** The webhook: when it acts and what it touches *)

Lemma payments_accepts_unknown_order (st : Db.Store) (r : Payments.insert) :
  ~ In (Payments.i_order_id r) (map Orders.id (Db.orders st)) ->
  Db.payments_accepts st r = false.
Proof.
  intro Hn. apply mem_not_In in Hn. unfold Db.payments_accepts.
  now rewrite Hn.
Qed.

(** X8. A delivery whose signature verifies is always acknowledged with
    200, and the webhook changes the store only for a
    checkout.session.completed event whose metadata names an order on
    record: other event types, a missing or empty order id and an unknown
    order id all leave the store exactly as it was. *)
Theorem webhook_acts_only_on_known_orders
  (constructEvent : string -> string -> string -> option StripeWebhook.Event)
  (endpointSecret : string) (st : Db.Store) (req : StripeWebhook.Request) :
  let verified :=
    constructEvent (StripeWebhook.rawBody req)
                   (Js.str_or (StripeWebhook.stripe_signature req) "")
                   endpointSecret in
  (verified <> None ->
   snd (StripeWebhook.POST constructEvent endpointSecret st req) = json_ok)
  /\ (fst (StripeWebhook.POST constructEvent endpointSecret st req) <> st ->
      exists event orderId,
        verified = Some event
        /\ StripeWebhook.type event = "checkout.session.completed"
        /\ StripeWebhook.metadata_order_id (StripeWebhook.data_object event)
           = Some orderId
        /\ orderId <> ""
        /\ In orderId (map Orders.id (Db.orders st))).
Proof.
  cbv zeta. unfold StripeWebhook.POST. cbv zeta.
  destruct (constructEvent _ _ _) as [event |];
    [| split; [congruence | simpl; congruence]].
  destruct (StripeWebhook.type event =? "checkout.session.completed")%string
    eqn:Htype; [| split; [reflexivity | simpl; congruence]].
  destruct (StripeWebhook.metadata_order_id _) as [orderId |] eqn:Hid;
    [| split; [reflexivity | simpl; congruence]].
  destruct (orderId =? "")%string eqn:Hne;
    [split; [reflexivity | simpl; congruence] |].
  destruct (Db.insert_payment _ _) as [st2 ok] eqn:Hins. simpl.
  split; [reflexivity |]. intro Hchanged.
  exists event, orderId. apply String.eqb_eq in Htype.
  apply String.eqb_neq in Hne.
  repeat split; try assumption.
  destruct (in_dec string_dec orderId (map Orders.id (Db.orders st)))
    as [Hin | Hout]; [assumption |].
  exfalso. apply Hchanged.
  rewrite (update_order_status_absent st orderId processing Hout) in Hins.
  unfold Db.insert_payment in Hins.
  rewrite payments_accepts_unknown_order in Hins by exact Hout.
  now injection Hins as <- _.
Qed.

(** X9. Whatever is delivered, the webhook leaves users, products and order
    items untouched, keeps every order with its id, customer, total and
    address (an order either stays as it was or is now [processing]), and
    adds at most one payment row, with method "stripe", after the payment
    rows on record. *)
Theorem webhook_frame
  (constructEvent : string -> string -> string -> option StripeWebhook.Event)
  (endpointSecret : string) (st : Db.Store) (req : StripeWebhook.Request) :
  let st' := fst (StripeWebhook.POST constructEvent endpointSecret st req) in
  Db.users st' = Db.users st
  /\ Db.products st' = Db.products st
  /\ Db.order_items st' = Db.order_items st
  /\ map (fun o => (Orders.id o, Orders.customer_id o, Orders.total_amount o,
                    Orders.shipping_address o)) (Db.orders st')
     = map (fun o => (Orders.id o, Orders.customer_id o, Orders.total_amount o,
                      Orders.shipping_address o)) (Db.orders st)
  /\ (forall o', In o' (Db.orders st') ->
                 In o' (Db.orders st) \/ Orders.status o' = processing)
  /\ exists new_payments,
       Db.payments st' = Db.payments st ++ new_payments
       /\ (List.length new_payments <= 1)%nat
       /\ Forall (fun p => Payments.payment_method p = "stripe") new_payments.
Proof.
  cbv zeta.
  assert (Hsame : forall s, s = st ->
            Db.users s = Db.users st /\ Db.products s = Db.products st
            /\ Db.order_items s = Db.order_items st
            /\ map (fun o => (Orders.id o, Orders.customer_id o,
                              Orders.total_amount o, Orders.shipping_address o))
                   (Db.orders s)
               = map (fun o => (Orders.id o, Orders.customer_id o,
                                Orders.total_amount o, Orders.shipping_address o))
                     (Db.orders st)
            /\ (forall o', In o' (Db.orders s) ->
                           In o' (Db.orders st) \/ Orders.status o' = processing)
            /\ exists new_payments,
                 Db.payments s = Db.payments st ++ new_payments
                 /\ (List.length new_payments <= 1)%nat
                 /\ Forall (fun p => Payments.payment_method p = "stripe")
                           new_payments).
  { intros s ->. repeat split; auto.
    exists []. rewrite app_nil_r. repeat split; [simpl; lia | constructor]. }
  unfold StripeWebhook.POST. cbv zeta.
  destruct (constructEvent _ _ _) as [event |]; [| now apply Hsame].
  destruct (StripeWebhook.type event =? "checkout.session.completed")%string;
    [| now apply Hsame].
  destruct (StripeWebhook.metadata_order_id _) as [orderId |];
    [| now apply Hsame].
  destruct (orderId =? "")%string; [now apply Hsame |].
  assert (Hmap : map (fun o => (Orders.id o, Orders.customer_id o,
                                Orders.total_amount o, Orders.shipping_address o))
                     (map (fun o => if (Orders.id o =? orderId)%string
                                    then Orders.with_status processing o
                                    else o) (Db.orders st))
                 = map (fun o => (Orders.id o, Orders.customer_id o,
                                  Orders.total_amount o,
                                  Orders.shipping_address o)) (Db.orders st)).
  { rewrite map_map. apply map_ext. intro o.
    now destruct (Orders.id o =? orderId)%string. }
  assert (Hstat : forall o',
             In o' (map (fun o => if (Orders.id o =? orderId)%string
                                  then Orders.with_status processing o
                                  else o) (Db.orders st)) ->
             In o' (Db.orders st) \/ Orders.status o' = processing).
  { intros o' Hin. apply in_map_iff in Hin as [o [Ho Hin]].
    destruct (Orders.id o =? orderId)%string; subst o'; auto. }
  unfold Db.insert_payment.
  destruct (Db.payments_accepts _ _); simpl.
  - repeat split; try assumption.
    eexists. split; [reflexivity |]. split; [simpl; lia |].
    repeat constructor.
  - repeat split; try assumption.
    exists []. rewrite app_nil_r. repeat split; [simpl; lia | constructor].
Qed.

(** ** From checkout to payment *)

(** X10. When the payment provider fails after a valid request was stored,
    the endpoint answers 500 with the provider's message and the pending
    order and its N items stay on record: the failure is not undone. *)
Theorem checkout_keeps_order_when_stripe_fails
  (stripe : list Checkout.LineItem -> string -> string -> Checkout.Session + string)
  (st : Db.Store) (body : Checkout.Body) (cart : list Checkout.CartItem)
  (message : string)
  (Hcart : Checkout.cartItems body = Some cart)
  (Hvalid : Checkout.valid_request st body = true)
  (Hfails : forall ls orderId uid, stripe ls orderId uid = inr message) :
  exists order items,
    Checkout.POST stripe st body
    = (Db.mkStore (Db.users st) (Db.products st) (Db.orders st ++ [order])
                  (Db.order_items st ++ items) (Db.payments st)
                  (S (Db.next_uuid st) + List.length items)%nat,
       json_error message 500)
    /\ Orders.status order = pending
    /\ List.length items = List.length cart.
Proof.
  destruct (POST_valid stripe st body cart Hcart Hvalid)
    as (uid & order & rows & _ & Ho & Hfst & Hlen & _ & _ & Hbad & _).
  exists order, rows. split; [| split; [now rewrite Ho | exact Hlen]].
  rewrite (surjective_pairing (Checkout.POST stripe st body)).
  rewrite Hfst, (Hbad message (Hfails _ _ _)). reflexivity.
Qed.

Lemma checkout_keeps_order_when_stripe_fails_witness :
  let down := fun (_ : list Checkout.LineItem) (_ _ : string) =>
                inr "api connection error" : Checkout.Session + string in
  Checkout.cartItems Scenario.checkout_p1 = Some [Scenario.line_p1]
  /\ Checkout.valid_request Scenario.shop Scenario.checkout_p1 = true
  /\ exists order items,
       Checkout.POST down Scenario.shop Scenario.checkout_p1
       = (Db.mkStore (Db.users Scenario.shop) (Db.products Scenario.shop)
                     (Db.orders Scenario.shop ++ [order])
                     (Db.order_items Scenario.shop ++ items)
                     (Db.payments Scenario.shop)
                     (S (Db.next_uuid Scenario.shop) + List.length items)%nat,
          json_error "api connection error" 500)
       /\ Orders.status order = pending
       /\ List.length items = List.length [Scenario.line_p1].
Proof.
  cbv zeta. split; [reflexivity |]. split; [reflexivity |].
  apply (checkout_keeps_order_when_stripe_fails
           (fun _ _ _ => inr "api connection error")
           Scenario.shop Scenario.checkout_p1 [Scenario.line_p1]
           "api connection error" eq_refl eq_refl (fun _ _ _ => eq_refl)).
Defined.

(** What the provider is asked to charge for a cart priced in whole cents
    is what the store records: [Math.round(price * 100)] is then the stored
    unit price. *)
Lemma unit_amount_cents (item : Checkout.CartItem) :
  Checkout.whole_cents (Checkout.price_of item) = true ->
  Checkout.unit_amount item = Db.round_cents (Checkout.price_of item).
Proof.
  intro Hw. apply whole_cents_eq in Hw. unfold Checkout.unit_amount.
  assert (He : (Checkout.price_of item * (100 # 1)
                == Db.to_number (Db.round_cents (Checkout.price_of item))
                   * (100 # 1))%Q) by (rewrite <- Hw; reflexivity).
  rewrite (Math_round_comp _ _ He). apply Math_round_to_number.
Qed.

Lemma line_items_total_cart (cart : list Checkout.CartItem) :
  Checkout.priced_in_cents cart = true ->
  Integrity.line_items_total (Checkout.line_items cart)
  = Checkout.lines_total cart.
Proof.
  unfold Integrity.line_items_total, Checkout.lines_total, Checkout.line_items,
    Checkout.priced_in_cents.
  generalize 0.
  induction cart as [| item cart IH]; intros acc Hc; cbn [map fold_left];
    [reflexivity |].
  cbn [forallb] in Hc. apply andb_prop in Hc as [Hitem Hrest].
  rewrite IH by exact Hrest.
  cbn [Checkout.li_unit_amount Checkout.li_quantity].
  now rewrite (unit_amount_cents item Hitem).
Qed.

Lemma uuid_not_empty (n : nat) : (Db.uuid_generate_v4 n =? "")%string = false.
Proof. reflexivity. Qed.

Lemma num_or_pos (v d : Z) : 0 < v -> Js.num_or (Some v) d = v.
Proof.
  intro H. unfold Js.num_or.
  destruct (Z.eqb_spec v 0); [lia | reflexivity].
Qed.

(** X11. A valid checkout of a cart whose prices are whole numbers of cents,
    followed by the signed, paid checkout.session.completed event for the
    order it created, carrying as amount_total the sum of the line items
    the endpoint sent to the provider and a transaction id not yet on
    record: the order ends in [processing] and exactly one payment row is
    added, "completed", for that order, with an amount equal to the order's
    total_amount. *)
Theorem checkout_then_payment_confirmation
  (stripe : list Checkout.LineItem -> string -> string -> Checkout.Session + string)
  (constructEvent : string -> string -> string -> option StripeWebhook.Event)
  (endpointSecret : string) (st : Db.Store) (body : Checkout.Body)
  (cart : list Checkout.CartItem) (req : StripeWebhook.Request)
  (event : StripeWebhook.Event)
  (Hcart : Checkout.cartItems body = Some cart)
  (Hvalid : Checkout.valid_request st body = true)
  (Hcents : Checkout.priced_in_cents cart = true)
  (Hsig : constructEvent (StripeWebhook.rawBody req)
                         (Js.str_or (StripeWebhook.stripe_signature req) "")
                         endpointSecret = Some event)
  (Htype : StripeWebhook.type event = "checkout.session.completed")
  (Horder : StripeWebhook.metadata_order_id (StripeWebhook.data_object event)
            = Some (Db.uuid_generate_v4 (Db.next_uuid st)))
  (Hpaid : StripeWebhook.payment_status (StripeWebhook.data_object event) = "paid")
  (Hamount : StripeWebhook.amount_total (StripeWebhook.data_object event)
             = Some (Integrity.line_items_total (Checkout.line_items cart)))
  (Hfresh : Db.transaction_id_free st
              (Some (StripeWebhook.transaction_id_of
                       (StripeWebhook.data_object event))) = true)
  (Hlen : Db.varchar 255 (StripeWebhook.transaction_id_of
                            (StripeWebhook.data_object event)) = true) :
  let st1 := fst (Checkout.POST stripe st body) in
  let st2 := fst (StripeWebhook.POST constructEvent endpointSecret st1 req) in
  exists order p,
    In order (Db.orders st2)
    /\ Orders.id order = Db.uuid_generate_v4 (Db.next_uuid st)
    /\ Orders.status order = processing
    /\ Orders.total_amount order = Db.round_cents (Checkout.totalAmount cart)
    /\ Db.payments st2 = Db.payments st ++ [p]
    /\ Payments.order_id p = Orders.id order
    /\ Payments.amount p = Orders.total_amount order
    /\ Payments.amount p
       = Integrity.line_items_total (Checkout.line_items cart)
    /\ Payments.status p = "completed".
Proof.
  cbv zeta.
  destruct (POST_valid stripe st body cart Hcart Hvalid)
    as (uid & order & rows & _ & Ho & Hfst & _ & Hpos & Hrange & _).
  rewrite Hfst. set (st1 := Db.mkStore _ _ _ _ _ _).
  set (oid := Db.uuid_generate_v4 (Db.next_uuid st)) in *.
  set (session := StripeWebhook.data_object event) in *.
  set (total := Db.round_cents (Checkout.totalAmount cart)) in *.
  assert (Hid : Orders.id order = oid) by now rewrite Ho.
  assert (Hcharged : Integrity.line_items_total (Checkout.line_items cart)
                     = total).
  { rewrite (line_items_total_cart cart Hcents). symmetry.
    now apply lines_total_stored. }
  assert (Hpay : StripeWebhook.payment_of oid session
                 = Payments.mkInsert oid total "completed" "stripe"
                     (Some (StripeWebhook.transaction_id_of session))).
  { unfold StripeWebhook.payment_of.
    rewrite Hamount, Hcharged, Hpaid.
    now rewrite !(num_or_pos _ _ Hpos). }
  assert (Hacc : Db.payments_accepts st1 (StripeWebhook.payment_of oid session)
                 = true).
  { rewrite Hpay. unfold Db.payments_accepts.
    cbn [Payments.i_order_id Payments.i_amount Payments.i_payment_method
         Payments.i_status Payments.i_transaction_id].
    repeat (apply andb_true_intro; split); try reflexivity; try assumption.
    - apply mem_In. unfold st1. cbn [Db.orders]. rewrite map_app.
      apply in_or_app. right. left. exact Hid.
    - now apply Z.ltb_lt. }
  unfold StripeWebhook.POST. cbv zeta.
  assert (Hne : (oid =? "")%string = false) by apply uuid_not_empty.
  rewrite Hsig, Htype, String.eqb_refl. fold session. rewrite Horder, Hne.
  unfold Db.insert_payment. rewrite payments_accepts_update, Hacc.
  cbn [fst Db.orders Db.payments Db.update_order_status].
  exists (Orders.with_status processing order). eexists.
  split; [| split; [| split; [| split; [| split; [reflexivity |]]]]].
  - apply in_map_iff. exists order. split.
    + fold oid. rewrite Hid, String.eqb_refl. reflexivity.
    + unfold st1. cbn [Db.orders]. apply in_or_app. right. now left.
  - exact Hid.
  - reflexivity.
  - now rewrite Ho.
  - rewrite Hpay, Hcharged. cbn. rewrite Ho. cbn. repeat split; reflexivity.
Qed.

Lemma checkout_then_payment_confirmation_witness :
  let ce := Scenario.verify Examples3.confirmation in
  let session := StripeWebhook.data_object Examples3.confirmation in
  let st1 := fst (Checkout.POST Scenario.stripe_ok Scenario.shop
                                Scenario.checkout_p1) in
  let st2 := fst (StripeWebhook.POST ce "whsec_1" st1 Scenario.signed_delivery) in
  Checkout.valid_request Scenario.shop Scenario.checkout_p1 = true
  /\ Checkout.priced_in_cents [Scenario.line_p1] = true
  /\ StripeWebhook.amount_total session
     = Some (Integrity.line_items_total
               (Checkout.line_items [Scenario.line_p1]))
  /\ Db.transaction_id_free Scenario.shop
       (Some (StripeWebhook.transaction_id_of session)) = true
  /\ exists order p,
       In order (Db.orders st2)
       /\ Orders.id order = Db.uuid_generate_v4 (Db.next_uuid Scenario.shop)
       /\ Orders.status order = processing
       /\ Orders.total_amount order
          = Db.round_cents (Checkout.totalAmount [Scenario.line_p1])
       /\ Db.payments st2 = Db.payments Scenario.shop ++ [p]
       /\ Payments.order_id p = Orders.id order
       /\ Payments.amount p = Orders.total_amount order
       /\ Payments.amount p
          = Integrity.line_items_total (Checkout.line_items [Scenario.line_p1])
       /\ Payments.status p = "completed".
Proof.
  cbv zeta. repeat (split; [reflexivity |]).
  apply (checkout_then_payment_confirmation Scenario.stripe_ok
           (Scenario.verify Examples3.confirmation) "whsec_1" Scenario.shop
           Scenario.checkout_p1 [Scenario.line_p1] Scenario.signed_delivery
           Examples3.confirmation
           eq_refl eq_refl eq_refl eq_refl eq_refl eq_refl eq_refl eq_refl
           eq_refl eq_refl).
Defined.

(** Without whole cents the two amounts part: three units at 0.125 are
    recorded as an order of 0.38 with one item at 0.13, and the provider is
    asked to charge 3 x 13 cents, 0.39. *)
Example checkout_rounding_example :
  let st1 := fst (Checkout.POST Scenario.stripe_ok Scenario.shop
                                Scenario.checkout_eighth) in
  Checkout.valid_request Scenario.shop Scenario.checkout_eighth = true
  /\ Checkout.priced_in_cents [Scenario.line_eighth] = false
  /\ map Orders.total_amount (Db.orders st1) = [38]
  /\ map OrderItems.unit_price (Db.order_items st1) = [13]
  /\ map Checkout.li_unit_amount (Checkout.line_items [Scenario.line_eighth])
     = [13]
  /\ Integrity.line_items_total (Checkout.line_items [Scenario.line_eighth])
     = 39.
Proof. repeat split; reflexivity. Qed.

(** ** Paging of the admin tables *)

Lemma ceil_pages_covers (n : nat) :
  (n <= Paging.ceil_pages n * Paging.ITEMS_PER_PAGE)%nat
  /\ (Paging.ceil_pages n * Paging.ITEMS_PER_PAGE < n + Paging.ITEMS_PER_PAGE)%nat.
Proof.
  unfold Paging.ceil_pages, Paging.ITEMS_PER_PAGE.
  pose proof (Nat.div_mod_eq (n + (20 - 1)) 20) as Hd.
  pose proof (Nat.mod_upper_bound (n + (20 - 1)) 20 ltac:(lia)) as Hm.
  lia.
Qed.

Lemma flat_map_ext_seq {B : Type} (f g : nat -> list B) (start len : nat) :
  (forall p, (start <= p < start + len)%nat -> f p = g p) ->
  flat_map f (seq start len) = flat_map g (seq start len).
Proof.
  intro H. rewrite !flat_map_concat_map. f_equal.
  apply map_ext_in. intros p Hp. apply in_seq in Hp. now apply H.
Qed.

(** Cutting a list into [k] consecutive chunks of [n] elements loses
    nothing when [k * n] covers the list. *)
Lemma chunks_cover {A : Type} (n : nat) :
  forall (k : nat) (l : list A),
    (List.length l <= k * n)%nat ->
    flat_map (fun p => firstn n (skipn ((p - 1) * n) l)) (seq 1 k) = l.
Proof.
  induction k as [| k IH]; intros l Hlen.
  - simpl in Hlen. destruct l; [reflexivity | simpl in Hlen; lia].
  - cbn [seq flat_map]. rewrite <- seq_shift, flat_map_concat_map, map_map.
    rewrite <- flat_map_concat_map.
    replace ((1 - 1) * n)%nat with 0%nat by lia. cbn [skipn].
    transitivity (firstn n l ++ skipn n l); [| apply firstn_skipn].
    f_equal.
    transitivity (flat_map (fun p => firstn n (skipn ((p - 1) * n) (skipn n l)))
                           (seq 1 k)).
    + apply flat_map_ext_seq. intros p Hp.
      rewrite skipn_skipn. f_equal. f_equal. nia.
    + apply IH. rewrite length_skipn. simpl in Hlen. lia.
Qed.

(** X12. The pages of an admin table partition the filtered list: page 1
    up to the last page, one after the other, give back the list, every
    page holds at most twenty rows, every page from 1 to the last holds at
    least one, and pages beyond the last, like page 0, are empty. *)
Theorem pages_partition_list {A : Type} (filtered : list A) :
  flat_map (fun p => Paging.getCurrentPageItems p filtered)
           (seq 1 (Paging.totalPages filtered))
  = filtered
  /\ (forall p, (List.length (Paging.getCurrentPageItems p filtered)
                 <= Paging.ITEMS_PER_PAGE)%nat)
  /\ (forall p, (1 <= p <= Paging.totalPages filtered)%nat ->
                Paging.getCurrentPageItems p filtered <> [])
  /\ (forall p, (Paging.totalPages filtered < p)%nat ->
                Paging.getCurrentPageItems p filtered = [])
  /\ Paging.getCurrentPageItems 0 filtered = [].
Proof.
  pose proof (ceil_pages_covers (List.length filtered)) as [Hcov Htight].
  fold (Paging.totalPages filtered) in Hcov, Htight.
  assert (Hpage : forall p, (1 <= p)%nat ->
             Paging.getCurrentPageItems p filtered
             = firstn Paging.ITEMS_PER_PAGE
                 (skipn ((p - 1) * Paging.ITEMS_PER_PAGE) filtered)).
  { intros [| p] Hp; [lia |]. unfold Paging.getCurrentPageItems. cbv zeta.
    replace (S p - 1)%nat with p by lia. f_equal. lia. }
  split; [| split; [| split; [| split]]].
  - rewrite <- (chunks_cover Paging.ITEMS_PER_PAGE _ filtered Hcov) at 2.
    apply flat_map_ext_seq. intros p Hp. apply Hpage. lia.
  - intros [| p]; [simpl; lia |].
    rewrite Hpage by lia. apply firstn_le_length.
  - intros p [H1 Hlast]. rewrite Hpage by exact H1. intro Hnil.
    apply (f_equal (@List.length A)) in Hnil.
    rewrite length_firstn, length_skipn in Hnil. cbn [List.length] in Hnil.
    assert (Hsize : (0 < Paging.ITEMS_PER_PAGE)%nat)
      by (unfold Paging.ITEMS_PER_PAGE; lia).
    assert ((p - 1) * Paging.ITEMS_PER_PAGE + Paging.ITEMS_PER_PAGE
            <= Paging.totalPages filtered * Paging.ITEMS_PER_PAGE)%nat by nia.
    lia.
  - intros p Hp. rewrite Hpage by lia.
    rewrite skipn_all2; [now rewrite firstn_nil |].
    assert (Paging.totalPages filtered * Paging.ITEMS_PER_PAGE
            <= (p - 1) * Paging.ITEMS_PER_PAGE)%nat by nia.
    lia.
  - reflexivity.
Qed.

(** X13. The pager stays in range: from a page number between 1 and the
    last page (or 1 when the list is empty), "next" and "previous" lead to
    such a page again, and filtering brings any page number from 1 on,
    however large, back into range. *)
Theorem pager_stays_in_range {A : Type} (filtered : list A)
  (currentPage : nat) (Hpos : (1 <= currentPage)%nat) :
  Paging.in_range (Paging.page_after_filter currentPage filtered)
                  (Paging.totalPages filtered)
  /\ (Paging.in_range currentPage (Paging.totalPages filtered) ->
      Paging.in_range (Paging.goToNextPage currentPage
                                           (Paging.totalPages filtered))
                      (Paging.totalPages filtered)
      /\ Paging.in_range (Paging.goToPreviousPage currentPage)
                         (Paging.totalPages filtered)).
Proof.
  unfold Paging.in_range, Paging.page_after_filter, Paging.goToNextPage,
    Paging.goToPreviousPage.
  split.
  - destruct (Nat.ltb_spec (Paging.totalPages filtered) currentPage); lia.
  - intros [H1 H2].
    destruct (Nat.ltb_spec currentPage (Paging.totalPages filtered));
      destruct (Nat.ltb_spec 1 currentPage); lia.
Qed.

Lemma pager_stays_in_range_witness :
  (1 <= 7)%nat
  /\ Paging.in_range (Paging.page_after_filter 7 (repeat tt 45))
                     (Paging.totalPages (repeat tt 45)).
Proof.
  split; [lia |].
  apply (pager_stays_in_range (repeat tt 45) 7). lia.
Defined.

(** ** The live feed *)

Lemma onUpdate_ids (prev : list Chat.ChatMessage) (new : Chat.ChatMessage) :
  map Chat.id (Chat.onUpdate prev new) = map Chat.id prev.
Proof.
  unfold Chat.onUpdate. rewrite map_map. apply map_ext. intro m.
  destruct (Chat.id m =? Chat.id new)%string eqn:E; [| reflexivity].
  apply String.eqb_eq in E. now rewrite E.
Qed.

(** X14. The UPDATE handler replaces, in place, the messages that carry the
    id of the delivered message by that message: the ids on display and
    their order stay the same, every message with that id is now the
    delivered one, messages with other ids are untouched, a message that is
    not on display changes nothing, and a second delivery of the same
    update changes nothing more. *)
Theorem onUpdate_replaces_in_place (prev : list Chat.ChatMessage)
  (new : Chat.ChatMessage) :
  map Chat.id (Chat.onUpdate prev new) = map Chat.id prev
  /\ (forall m, In m (Chat.onUpdate prev new) -> Chat.id m = Chat.id new ->
                m = new)
  /\ (forall m, In m prev -> Chat.id m <> Chat.id new ->
                In m (Chat.onUpdate prev new))
  /\ (~ In (Chat.id new) (map Chat.id prev) -> Chat.onUpdate prev new = prev)
  /\ Chat.onUpdate (Chat.onUpdate prev new) new = Chat.onUpdate prev new.
Proof.
  split; [apply onUpdate_ids |]. unfold Chat.onUpdate.
  split; [| split; [| split]].
  - intros m Hin Hid. apply in_map_iff in Hin as [a [Ha Hin]].
    destruct (Chat.id a =? Chat.id new)%string eqn:E; [now subst m |].
    subst m. apply String.eqb_neq in E. contradiction.
  - intros m Hin Hid. apply in_map_iff. exists m. split; [| assumption].
    apply String.eqb_neq in Hid. now rewrite Hid.
  - intro Habs. induction prev as [| a l IH]; [reflexivity |].
    simpl in *. destruct (Chat.id a =? Chat.id new)%string eqn:E.
    + apply String.eqb_eq in E. exfalso. apply Habs. now left.
    + f_equal. apply IH. intro H. apply Habs. now right.
  - rewrite map_map. apply map_ext. intro a.
    destruct (Chat.id a =? Chat.id new)%string eqn:E.
    + now rewrite String.eqb_refl.
    + now rewrite E.
Qed.

Lemma handle_NoDup (prev : list Chat.ChatMessage) (d : ChatFeed.Delivery) :
  NoDup (map Chat.id prev) -> NoDup (map Chat.id (ChatFeed.handle prev d)).
Proof.
  intro Hnd. destruct d as [m | m]; simpl.
  - now apply onInsert_NoDup.
  - now rewrite onUpdate_ids.
Qed.

Lemma handle_ids_grow (prev : list Chat.ChatMessage) (d : ChatFeed.Delivery) :
  exists more, map Chat.id (ChatFeed.handle prev d) = map Chat.id prev ++ more.
Proof.
  destruct d as [m | m]; simpl.
  - unfold Chat.customer_onInsert. destruct (existsb _ prev); simpl.
    + exists []. now rewrite app_nil_r.
    + exists [Chat.id m]. now rewrite map_app.
  - exists []. now rewrite onUpdate_ids, app_nil_r.
Qed.

(** X15. Whatever the subscription delivers -- inserts and updates, in any
    order, repeated any number of times -- a thread whose message ids are
    pairwise distinct keeps them pairwise distinct, and the messages on
    display keep their place: ids are only ever appended. *)
Theorem feed_keeps_ids_distinct (prev : list Chat.ChatMessage)
  (ds : list ChatFeed.Delivery) (Hnd : NoDup (map Chat.id prev)) :
  NoDup (map Chat.id (ChatFeed.deliver_all prev ds))
  /\ exists more,
       map Chat.id (ChatFeed.deliver_all prev ds) = map Chat.id prev ++ more.
Proof.
  unfold ChatFeed.deliver_all. revert prev Hnd.
  induction ds as [| d ds IH]; intros prev Hnd; simpl.
  - split; [assumption |]. exists []. now rewrite app_nil_r.
  - destruct (IH (ChatFeed.handle prev d) (handle_NoDup prev d Hnd))
      as [Hnd' [more Hmore]].
    split; [assumption |].
    destruct (handle_ids_grow prev d) as [more0 Hmore0].
    exists (more0 ++ more). now rewrite Hmore, Hmore0, app_assoc.
Qed.

Lemma feed_keeps_ids_distinct_witness :
  let hi := Chat.mk "m1" "c1" "c1" "customer" "Hi" in
  let hello := Chat.mk "m2" "c1" "a1" "admin" "Hello" in
  NoDup (map Chat.id [hi])
  /\ NoDup (map Chat.id
              (ChatFeed.deliver_all [hi]
                 [ChatFeed.Inserted hello; ChatFeed.Inserted hi;
                  ChatFeed.Inserted hello; ChatFeed.Updated hi])).
Proof.
  cbv zeta.
  assert (Hnd : NoDup (map Chat.id [Chat.mk "m1" "c1" "c1" "customer" "Hi"])).
  { simpl. repeat constructor. intros []. }
  split; [exact Hnd |].
  apply (feed_keeps_ids_distinct [Chat.mk "m1" "c1" "c1" "customer" "Hi"]
           [ChatFeed.Inserted (Chat.mk "m2" "c1" "a1" "admin" "Hello");
            ChatFeed.Inserted (Chat.mk "m1" "c1" "c1" "customer" "Hi");
            ChatFeed.Inserted (Chat.mk "m2" "c1" "a1" "admin" "Hello");
            ChatFeed.Updated (Chat.mk "m1" "c1" "c1" "customer" "Hi")] Hnd).
Defined.

(** ** The chat composers *)

(** X16. What the composers store: [sendMessage] either leaves the table as
    it is or appends one message whose content is the trimmed text, not
    empty, sent by the user in the role "customer" to the user's own
    thread; [sendReply] likewise appends at most one message, in the role
    "admin", to the selected customer's thread, and nothing when no customer
    is selected. *)
Theorem composers_store_trimmed_text
  (chat_messages_accepts : list Chat.ChatMessage -> Chat.ChatMessage -> bool)
  (tbl : Table Chat.ChatMessage) (user : string)
  (selected : option string) (composer : string) :
  let sent := Chat.sendMessage chat_messages_accepts tbl user composer in
  let replied := Chat.sendReply chat_messages_accepts tbl user selected composer in
  (sent = tbl
   \/ exists m,
        rows sent = rows tbl ++ [m]
        /\ Chat.content m = Js.trim composer /\ Chat.content m <> ""
        /\ Chat.sender_role m = "customer"
        /\ Chat.customer_id m = user /\ Chat.sender_id m = user)
  /\ (replied = tbl
      \/ exists m cid,
           selected = Some cid
           /\ rows replied = rows tbl ++ [m]
           /\ Chat.content m = Js.trim composer /\ Chat.content m <> ""
           /\ Chat.sender_role m = "admin"
           /\ Chat.customer_id m = cid /\ Chat.sender_id m = user)
  /\ (selected = None -> replied = tbl).
Proof.
  cbv zeta. unfold Chat.sendMessage, Chat.sendReply, Chat.POST.
  cbn [Chat.b_customer_id Chat.b_sender_id Chat.b_sender_role Chat.b_content].
  split; [| split].
  - destruct (Js.truthy (Some (Js.trim composer))) eqn:Ht; cbn [negb];
      [| now left].
    destruct (Js.truthy (Some user)); cbn [negb orb]; [| now left].
    change (Js.truthy (Some "customer")) with true. cbn [negb orb].
    destruct (chat_messages_accepts _ _); cbn [fst]; [| now left].
    right. eexists. split; [reflexivity |]. cbn.
    repeat split; try reflexivity.
    unfold Js.truthy in Ht. apply negb_true_iff in Ht.
    now apply String.eqb_neq.
  - destruct selected as [cid |]; [| now left].
    destruct (Js.truthy (Some (Js.trim composer))) eqn:Ht; cbn [negb orb];
      [| now left].
    destruct (Js.truthy (Some cid)); cbn [negb orb]; [| now left].
    destruct (Js.truthy (Some user)); cbn [negb orb]; [| now left].
    change (Js.truthy (Some "admin")) with true. cbn [negb orb].
    destruct (chat_messages_accepts _ _); cbn [fst]; [| now left].
    right. eexists. exists cid. split; [reflexivity |].
    split; [reflexivity |]. cbn.
    repeat split; try reflexivity.
    unfold Js.truthy in Ht. apply negb_true_iff in Ht.
    now apply String.eqb_neq.
  - now intros ->.
Qed.

(** ** The thread list over several pages *)

Lemma firstn_add {A : Type} (a b : nat) (l : list A) :
  firstn (a + b) l = firstn a l ++ firstn b (skipn a l).
Proof.
  revert l. induction a as [| a IH]; intro l; [reflexivity |].
  destruct l as [| x l]; simpl.
  - now rewrite firstn_nil.
  - now rewrite IH.
Qed.

(** X17. On the view path "Load more" never shows a thread twice: after
    loading pages 0 to n the thread list is the first 20 * (n + 1) threads
    of the view, in the order of the view, without repetition. *)
Theorem view_pages_accumulate (log : list Chat.ChatMessage) (n : nat) :
  ChatFeed.load_pages true log n
  = firstn (Chat.THREAD_PAGE_SIZE * (n + 1)) (Chat.chat_threads log)
  /\ NoDup (ChatFeed.load_pages true log n).
Proof.
  assert (Heq : ChatFeed.load_pages true log n
                = firstn (Chat.THREAD_PAGE_SIZE * (n + 1))
                         (Chat.chat_threads log)).
  { induction n as [| n IH].
    - cbn [ChatFeed.load_pages]. unfold Chat.loadThreads, Chat.view_ids,
        Chat.range. cbn [Nat.mul skipn Nat.eqb].
      replace (S (0 + Chat.THREAD_PAGE_SIZE - 1) - 0)%nat
        with (Chat.THREAD_PAGE_SIZE * (0 + 1))%nat
        by (pose proof THREAD_PAGE_SIZE_pos; lia).
      now destruct (firstn _ _).
    - cbn [ChatFeed.load_pages]. rewrite IH.
      unfold Chat.loadThreads, Chat.view_ids, Chat.range. cbn [Nat.eqb].
      replace (S (S n * Chat.THREAD_PAGE_SIZE + Chat.THREAD_PAGE_SIZE - 1)
               - S n * Chat.THREAD_PAGE_SIZE)%nat
        with Chat.THREAD_PAGE_SIZE
        by (pose proof THREAD_PAGE_SIZE_pos; lia).
      replace (Chat.THREAD_PAGE_SIZE * (S n + 1))%nat
        with (Chat.THREAD_PAGE_SIZE * (n + 1) + Chat.THREAD_PAGE_SIZE)%nat
        by lia.
      rewrite firstn_add.
      replace (S n * Chat.THREAD_PAGE_SIZE)%nat
        with (Chat.THREAD_PAGE_SIZE * (n + 1))%nat by lia.
      destruct (firstn Chat.THREAD_PAGE_SIZE
                       (skipn (Chat.THREAD_PAGE_SIZE * (n + 1))
                              (Chat.chat_threads log))).
      + now rewrite app_nil_r.
      + reflexivity. }
  split; [exact Heq |].
  rewrite Heq. apply NoDup_firstn. apply distinct_spec.
Qed.

(** ** Start-up configuration *)

Lemma filter_nil_iff {A : Type} (f : A -> bool) (l : list A) :
  filter f l = [] <-> forall x, In x l -> f x = false.
Proof.
  induction l as [| a l IH]; simpl.
  - split; [intros _ x [] | reflexivity].
  - destruct (f a) eqn:E.
    + split; [discriminate |]. intro H. specialize (H a (or_introl eq_refl)).
      congruence.
    + rewrite IH. split.
      * intros H x [<- | Hx]; [assumption | now apply H].
      * intros H x Hx. apply H. now right.
Qed.

(** X18. [validateEnv] returns a configuration exactly when every one of the
    seven required variables is set to a non-empty value, and then every
    value of the configuration is present and non-empty; otherwise it throws
    an error whose message lists, in the order of the required list,
    exactly the variables that are absent or empty. *)
Theorem validateEnv_all_or_error (env : Env.Environment) :
  ((forall key, In key Env.required -> Js.truthy (env key) = true)
   <-> exists config, Env.validateEnv env = inl config)
  /\ (forall config,
        Env.validateEnv env = inl config ->
        Env.values config = map env Env.required
        /\ Forall (fun v => Js.truthy v = true) (Env.values config))
  /\ (forall message,
        Env.validateEnv env = inr message ->
        message = ("Missing required environment variables: "
                   ++ String.concat ", " (Env.missing env))%string
        /\ Env.missing env <> []
        /\ forall key, In key (Env.missing env)
                       <-> In key Env.required /\ Js.truthy (env key) = false).
Proof.
  assert (Hnone : Env.missing env = []
                  <-> forall key, In key Env.required ->
                                  Js.truthy (env key) = true).
  { unfold Env.missing. rewrite filter_nil_iff. split; intros H key Hk.
    - specialize (H key Hk). now apply negb_false_iff in H.
    - apply negb_false_iff. now apply H. }
  unfold Env.validateEnv.
  destruct (Env.missing env) as [| k ks] eqn:Hm.
  - split; [| split].
    + split; [intros _; eexists; reflexivity | intros _; now apply Hnone].
    + intros config H. injection H as <-. split; [reflexivity |].
      apply Forall_forall. intros v Hv. cbn [Env.values] in Hv.
      change (In v (map env Env.required)) in Hv.
      apply in_map_iff in Hv as [key [<- Hk]]. now apply Hnone.
    + intros message H. discriminate.
  - split; [| split].
    + split.
      * intro H. apply Hnone in H. discriminate.
      * intros [config H]. discriminate.
    + intros config H. discriminate.
    + intros message H. injection H as <-.
      split; [reflexivity |]. split; [discriminate |].
      intro key. rewrite <- Hm. unfold Env.missing. rewrite filter_In.
      now rewrite negb_true_iff.
Qed.

(** One variable left out: the error names it. *)
Example validateEnv_example :
  Env.validateEnv Examples4.no_webhook_secret
  = inr "Missing required environment variables: STRIPE_WEBHOOK_SECRET".
Proof. reflexivity. Qed.

(** ** Sign-in and registration *)

Lemma by_email_Some (users : list Auth.User) (e : string) (u : Auth.User) :
  Auth.by_email users e = Some u -> In u users /\ Auth.email u = e.
Proof.
  unfold Auth.by_email, Auth.single. intro H.
  destruct (filter _ users) as [| x [| y l]] eqn:Hf; try discriminate.
  injection H as ->.
  assert (Hin : In u (filter (fun u0 => (Auth.email u0 =? e)%string) users))
    by (rewrite Hf; now left).
  apply filter_In in Hin as [Hin He]. apply String.eqb_eq in He. now split.
Qed.

(** X19. Signing in succeeds only for an account on record with the given
    e-mail address whose status is approved and whose password verifies;
    the answer then carries that account without its password hash.  An
    account that is alone with its address and not approved is answered 403
    whatever non-empty password is sent. *)
Theorem login_requires_approved_account
  (verify_password : string -> string -> option bool)
  (jwt_sign : Auth.UserWithoutPassword -> string)
  (users : list Auth.User) (e password : option string) :
  (forall user token,
     Auth.login verify_password jwt_sign users e password
     = Auth.SignedIn user token ->
     exists row password',
       In row users
       /\ e = Some (Auth.email row) /\ password = Some password'
       /\ Auth.status row = Auth.approved
       /\ verify_password password' (Auth.password_hash row) = Some true
       /\ user = Auth.userWithoutPassword row
       /\ token = jwt_sign user)
  /\ (forall row password',
        Auth.by_email users (Auth.email row) = Some row ->
        Auth.status row <> Auth.approved ->
        Auth.email row <> "" -> password' <> "" ->
        Auth.login verify_password jwt_sign users (Some (Auth.email row))
                   (Some password')
        = Auth.Failure 403
            "Account is pending approval. Please contact an administrator.").
Proof.
  split.
  - intros user token. unfold Auth.login.
    destruct e as [e' |]; [| discriminate].
    destruct password as [password' |]; [| discriminate].
    destruct (negb _ || negb _); [discriminate |].
    destruct (Auth.by_email users e') as [row |] eqn:Hrow; [| discriminate].
    apply by_email_Some in Hrow as [Hin He].
    destruct (Auth.status row) eqn:Hs; try discriminate.
    destruct (verify_password password' (Auth.password_hash row))
      as [[|] |] eqn:Hv; try discriminate.
    intro H. injection H as <- <-.
    exists row, password'. subst e'. repeat split; assumption.
  - intros row password' Hrow Hs He Hp. unfold Auth.login.
    apply String.eqb_neq in He, Hp. simpl Js.truthy. rewrite He, Hp.
    simpl. rewrite Hrow.
    destruct (Auth.status row); [reflexivity | contradiction | reflexivity].
Qed.

Lemma by_email_taken (users : list Auth.User) (e : string) :
  NoDup (map Auth.email users) -> In e (map Auth.email users) ->
  exists u, Auth.by_email users e = Some u.
Proof.
  unfold Auth.by_email. induction users as [| a l IH]; intros Hnd Hin;
    [contradiction |].
  simpl in Hnd, Hin. inversion Hnd as [| ? ? Hnotin Hnd']; subst.
  simpl. destruct (Auth.email a =? e)%string eqn:E.
  - apply String.eqb_eq in E. subst e.
    assert (Hnone : filter (fun u => (Auth.email u =? Auth.email a)%string) l
                    = []).
    { apply filter_nil_iff. intros x Hx. apply String.eqb_neq. intro He.
      apply Hnotin. rewrite <- He. apply in_map_iff. now exists x. }
    rewrite Hnone. now exists a.
  - destruct Hin as [He | Hin].
    + apply String.eqb_neq in E. contradiction.
    + now apply IH.
Qed.

Lemma existsb_email_false (users : list Auth.User) (e : string) :
  existsb (fun u => (Auth.email u =? e)%string) users = false ->
  ~ In e (map Auth.email users)
  /\ filter (fun u => (Auth.email u =? e)%string) users = [].
Proof.
  intro H. split.
  - intro Hin. apply in_map_iff in Hin as [u [He Hin]].
    assert (Ht : existsb (fun u => (Auth.email u =? e)%string) users = true).
    { apply existsb_exists. exists u. split; [assumption |].
      rewrite He. apply String.eqb_refl. }
    congruence.
  - apply filter_nil_iff. intros x Hx.
    destruct (Auth.email x =? e)%string eqn:E; [| reflexivity].
    assert (Ht : existsb (fun u => (Auth.email u =? e)%string) users = true).
    { apply existsb_exists. now exists x. }
    congruence.
Qed.

(** X20. Registration keeps e-mail addresses unique, whatever the call of
    the hashing function answers.  On a table without repeated addresses it
    either changes nothing or appends exactly one account, with the given
    address and name, role customer and status pending, and the addresses
    are again without repetition; a complete request for an address already
    on record is answered 409 and changes nothing. *)
Theorem register_keeps_emails_unique
  (rpc_hash_password : list (string * string) -> option string)
  (tbl : Table Auth.User) (e password fullName : option string)
  (Hnd : NoDup (map Auth.email (rows tbl))) :
  let tbl' := fst (Auth.register rpc_hash_password tbl e password fullName) in
  let answer := snd (Auth.register rpc_hash_password tbl e password fullName) in
  NoDup (map Auth.email (rows tbl'))
  /\ (tbl' = tbl
      \/ exists u,
           rows tbl' = rows tbl ++ [u]
           /\ e = Some (Auth.email u) /\ fullName = Some (Auth.full_name u)
           /\ Auth.role u = Auth.customer /\ Auth.status u = Auth.pending
           /\ answer = Auth.Registered (Auth.userWithoutPassword u))
  /\ (forall e',
        e = Some e' -> In e' (map Auth.email (rows tbl)) ->
        Js.truthy e = true -> Js.truthy password = true ->
        Js.truthy fullName = true ->
        tbl' = tbl
        /\ answer = Auth.Failure 409 "User with this email already exists").
Proof.
  cbv zeta. unfold Auth.register.
  destruct e as [e' |];
    [| split; [assumption | split; [now left | discriminate]]].
  destruct password as [password' |];
    [| split; [assumption | split; [now left | discriminate]]].
  destruct fullName as [fullName' |];
    [| split; [assumption | split; [now left | discriminate]]].
  destruct (negb (Js.truthy (Some e')) || negb (Js.truthy (Some password'))
            || negb (Js.truthy (Some fullName'))) eqn:Hguard.
  { simpl fst. simpl snd. split; [assumption |]. split; [now left |].
    intros e0 _ _ H1 H2 H3. rewrite H1, H2, H3 in Hguard. discriminate. }
  destruct (Auth.by_email (rows tbl) e') as [existing |] eqn:Hex.
  { simpl fst. simpl snd. split; [assumption |]. split; [now left |].
    intros. split; reflexivity. }
  assert (Hfree : ~ In e' (map Auth.email (rows tbl))).
  { intro Hin. destruct (by_email_taken _ _ Hnd Hin) as [u Hu]. congruence. }
  destruct (rpc_hash_password _) as [hashed |].
  2:{ simpl fst. simpl snd. split; [assumption |]. split; [now left |].
      intros e0 He0 Hin. injection He0 as <-. contradiction. }
  destruct (Auth.users_accepts (rows tbl) e' hashed fullName').
  2:{ simpl fst. simpl snd. split; [assumption |]. split; [now left |].
      intros e0 He0 Hin. injection He0 as <-. contradiction. }
  simpl fst. simpl snd. cbn [rows]. split; [| split].
  - rewrite map_app. simpl.
    apply NoDup_app; [assumption | repeat constructor; intros [] |].
    intros x Hx [<- | []]. contradiction.
  - right. eexists. split; [reflexivity |]. repeat split.
  - intros e0 He0 Hin. injection He0 as <-. contradiction.
Qed.

(** A second registration for an address on record, against the table of
    the setup script with one more customer and its hashing function. *)
Lemma register_keeps_emails_unique_witness :
  let attempt :=
    Auth.register (Auth.hash_password Examples4.crypt) Examples4.two_users
                  (Some "ann@example.com") (Some "other") (Some "Ann B. Lee") in
  NoDup (map Auth.email (rows Examples4.two_users))
  /\ In "ann@example.com" (map Auth.email (rows Examples4.two_users))
  /\ NoDup (map Auth.email (rows (fst attempt)))
  /\ fst attempt = Examples4.two_users
  /\ snd attempt = Auth.Failure 409 "User with this email already exists".
Proof.
  cbv zeta.
  assert (Hnd : NoDup (map Auth.email (rows Examples4.two_users))).
  { cbn. repeat constructor; cbn; intuition discriminate. }
  assert (Hin : In "ann@example.com"
                   (map Auth.email (rows Examples4.two_users)))
    by (cbn; auto).
  split; [exact Hnd |]. split; [exact Hin |].
  destruct (register_keeps_emails_unique
              (Auth.hash_password Examples4.crypt) Examples4.two_users
              (Some "ann@example.com") (Some "other") (Some "Ann B. Lee") Hnd)
    as (H1 & _ & H3).
  split; [exact H1 |].
  exact (H3 "ann@example.com" eq_refl Hin eq_refl eq_refl eq_refl).
Defined.

(** X21. Against the functions of the setup script the registration
    endpoint never stores an account.  It calls [hash_password] with the
    argument named [password_input]; the function declares
    [input_password] (and answers a call that names it so), hence the call
    is an error.  Every request leaves the table as it was and none is
    answered with a new account: an incomplete request gets 400, a complete
    one 409 when exactly one account has the address and 500 "Error
    processing password" otherwise. *)
Theorem register_hash_call_refused
  (crypt : string -> string) (tbl : Table Auth.User)
  (e password fullName : option string) :
  let attempt :=
    Auth.register (Auth.hash_password crypt) tbl e password fullName in
  fst attempt = tbl
  /\ (forall user, snd attempt <> Auth.Registered user)
  /\ (Js.truthy e && Js.truthy password && Js.truthy fullName = false ->
      snd attempt
      = Auth.Failure 400 "Email, password, and full name are required")
  /\ (forall e',
        e = Some e' ->
        Js.truthy e && Js.truthy password && Js.truthy fullName = true ->
        snd attempt
        = match Auth.by_email (rows tbl) e' with
          | Some _ => Auth.Failure 409 "User with this email already exists"
          | None => Auth.Failure 500 "Error processing password"
          end)
  /\ (forall value,
        Auth.hash_password crypt [("input_password", value)]
        = Some (crypt value)).
Proof.
  cbv zeta. unfold Auth.register.
  assert (Hcall : forall value,
             Auth.hash_password crypt [("password_input", value)] = None)
    by reflexivity.
  split; [| split; [| split; [| split; [| reflexivity]]]].
  - destruct e as [e' |], password as [password' |],
             fullName as [fullName' |]; try reflexivity.
    destruct (negb _ || negb _ || negb _); [reflexivity |].
    destruct (Auth.by_email (rows tbl) e'); [reflexivity |].
    now rewrite Hcall.
  - intro user.
    destruct e as [e' |], password as [password' |],
             fullName as [fullName' |]; try discriminate.
    destruct (negb _ || negb _ || negb _); [discriminate |].
    destruct (Auth.by_email (rows tbl) e'); [discriminate |].
    rewrite Hcall. discriminate.
  - destruct e as [e' |], password as [password' |],
             fullName as [fullName' |]; try reflexivity.
    intro Hguard.
    replace (negb (Js.truthy (Some e')) || negb (Js.truthy (Some password'))
             || negb (Js.truthy (Some fullName')))
      with (negb (Js.truthy (Some e') && Js.truthy (Some password')
                  && Js.truthy (Some fullName')))
      by (now rewrite !negb_andb).
    now rewrite Hguard.
  - intros e' -> Hguard.
    destruct password as [password' |];
      [| rewrite andb_false_r in Hguard; discriminate].
    destruct fullName as [fullName' |];
      [| rewrite andb_false_r in Hguard; discriminate].
    replace (negb (Js.truthy (Some e')) || negb (Js.truthy (Some password'))
             || negb (Js.truthy (Some fullName')))
      with (negb (Js.truthy (Some e') && Js.truthy (Some password')
                  && Js.truthy (Some fullName')))
      by (now rewrite !negb_andb).
    rewrite Hguard. cbn [negb].
    destruct (Auth.by_email (rows tbl) e'); [reflexivity |].
    now rewrite Hcall.
Qed.

(** A new customer registering against the table of the setup script. *)
Example register_example :
  Auth.register (Auth.hash_password Examples4.crypt) Examples4.two_users
                (Some "bob@example.com") (Some "secret") (Some "Bob Ray")
  = (Examples4.two_users, Auth.Failure 500 "Error processing password").
Proof. reflexivity. Qed.

(** ** Deleting a product *)

(** X22. Deleting a product, once confirmed, removes it from the catalogue
    and from the screen together with every order item that references it,
    and nothing else: the other items stay, orders (with their totals) and
    payments are untouched, and a consistent store stays consistent.
    Without confirmation nothing happens. *)
Theorem deleteProduct_cascades (st : Db.Store) (local : list Products.row)
  (productId : string) (Hc : Integrity.consistent st) :
  let st' := fst (AdminProducts.deleteProduct true st local productId) in
  let local' := snd (AdminProducts.deleteProduct true st local productId) in
  Integrity.consistent st'
  /\ ~ In productId (map Products.id (Db.products st'))
  /\ ~ In productId (map Products.id local')
  /\ ~ In productId (map OrderItems.product_id (Db.order_items st'))
  /\ (forall i, In i (Db.order_items st') <->
                In i (Db.order_items st) /\ OrderItems.product_id i <> productId)
  /\ Db.orders st' = Db.orders st
  /\ Db.payments st' = Db.payments st
  /\ AdminProducts.deleteProduct false st local productId = (st, local).
Proof.
  cbv zeta. unfold AdminProducts.deleteProduct. simpl.
  destruct Hc as (Ho & Hi & Hp & Ht).
  assert (Hgone : forall l,
             ~ In productId
                  (map Products.id
                     (filter (fun p => negb (Products.id p =? productId)%string)
                             l))).
  { intros l Hin. apply in_map_iff in Hin as [p [Hid Hin]].
    apply filter_In in Hin as [_ Hne].
    rewrite Hid, String.eqb_refl in Hne. discriminate. }
  split; [| split; [| split; [| split; [| split; [| split; [| split]]]]]];
    try reflexivity; try apply Hgone.
  - unfold Integrity.consistent. simpl. repeat split; try assumption.
    apply Forall_forall. intros i Hin. apply filter_In in Hin as [Hin Hne].
    rewrite Forall_forall in Hi. destruct (Hi i Hin) as (H1 & H2 & H3 & H4).
    repeat split; try assumption.
    apply in_map_iff in H2 as [p [Hid Hp']].
    apply in_map_iff. exists p. split; [assumption |].
    apply filter_In. split; [assumption |]. now rewrite Hid.
  - intro Hin. apply in_map_iff in Hin as [i [Hid Hin]].
    apply filter_In in Hin as [_ Hne].
    rewrite Hid, String.eqb_refl in Hne. discriminate.
  - intro i. rewrite filter_In, negb_true_iff. now rewrite String.eqb_neq.
Qed.

Lemma deleteProduct_cascades_witness :
  let st := fst (Checkout.POST Scenario.stripe_ok Scenario.shop
                               Scenario.checkout_p1) in
  Integrity.consistent st
  /\ map OrderItems.product_id (Db.order_items st) = ["P1"]
  /\ Db.order_items (fst (AdminProducts.deleteProduct true st [] "P1")) = []
  /\ map Orders.total_amount
         (Db.orders (fst (AdminProducts.deleteProduct true st [] "P1")))
     = [3998].
Proof.
  cbv zeta.
  assert (Hc : Integrity.consistent
                 (fst (Checkout.POST Scenario.stripe_ok Scenario.shop
                                     Scenario.checkout_p1))).
  { apply consistent_checkout. unfold Integrity.consistent. simpl.
    repeat split; constructor. }
  split; [exact Hc |]. split; [reflexivity |].
  pose proof (deleteProduct_cascades
                (fst (Checkout.POST Scenario.stripe_ok Scenario.shop
                                    Scenario.checkout_p1)) [] "P1" Hc) as H.
  cbv zeta in H. destruct H as (_ & _ & _ & _ & _ & Ho & _).
  split; [reflexivity |]. rewrite Ho. reflexivity.
Defined.

(** ** The revenue of the dashboard *)

Lemma sum_from {A : Type} (f : A -> Z) (l : list A) (acc : Z) :
  fold_left (fun sum x => sum + f x) l acc
  = acc + fold_left (fun sum x => sum + f x) l 0.
Proof.
  revert acc. induction l as [| a l IH]; intro acc; cbn [fold_left]; [lia |].
  rewrite (IH (acc + f a)), (IH (0 + f a)). lia.
Qed.

Lemma sum_positive {A : Type} (f : A -> Z) (l : list A) :
  Forall (fun x => 0 < f x) l ->
  0 <= fold_left (fun sum x => sum + f x) l 0
  /\ (l <> [] -> 0 < fold_left (fun sum x => sum + f x) l 0).
Proof.
  induction l as [| a l IH]; intro H; cbn [fold_left].
  - split; [lia | congruence].
  - inversion H as [| ? ? Ha Hl]; subst.
    destruct (IH Hl) as [Hge _]. rewrite sum_from. split; [lia |].
    intros _. lia.
Qed.

(** X23. On a consistent store the revenue of the dashboard is never
    negative.  It is the sum of the completed payments whenever there is at
    least one, and only without any completed payment the sum of the totals
    of the orders in processing, shipped or delivered. *)
Theorem totalRevenue_sources (st : Db.Store) (Hc : Integrity.consistent st) :
  0 <= Dashboard.totalRevenue st
  /\ ((exists p, In p (Db.payments st) /\ Payments.status p = "completed") ->
      Dashboard.totalRevenue st = Dashboard.completed_payments_total st
      /\ 0 < Dashboard.totalRevenue st)
  /\ ((forall p, In p (Db.payments st) -> Payments.status p <> "completed") ->
      Dashboard.totalRevenue st = Dashboard.paid_orders_total st).
Proof.
  destruct Hc as (Ho & _ & Hp & _).
  assert (Hpay : Forall (fun p => 0 < Payments.amount p)
                   (filter (fun p => (Payments.status p =? "completed")%string)
                           (Db.payments st))).
  { apply Forall_forall. intros p Hin. apply filter_In in Hin as [Hin _].
    rewrite Forall_forall in Hp. now apply Hp. }
  assert (Hord : Forall (fun o => 0 < Orders.total_amount o)
                   (filter (fun o =>
                              order_status_eqb (Orders.status o) processing
                              || order_status_eqb (Orders.status o) shipped
                              || order_status_eqb (Orders.status o) delivered)
                           (Db.orders st))).
  { apply Forall_forall. intros o Hin. apply filter_In in Hin as [Hin _].
    rewrite Forall_forall in Ho. now apply Ho. }
  destruct (sum_positive Payments.amount _ Hpay) as [Hp0 Hp1].
  destruct (sum_positive Orders.total_amount _ Hord) as [Ho0 _].
  fold (Dashboard.completed_payments_total st) in Hp0, Hp1.
  fold (Dashboard.paid_orders_total st) in Ho0.
  assert (Hor : forall v, Js.num_or (Some v) 0 = v).
  { intro v. unfold Js.num_or. destruct (Z.eqb_spec v 0); lia. }
  unfold Dashboard.totalRevenue. cbv zeta. rewrite !Hor.
  split; [| split].
  - destruct (Z.eqb_spec (Dashboard.completed_payments_total st) 0); lia.
  - intros [p [Hin Hs]].
    assert (Hne : filter (fun p => (Payments.status p =? "completed")%string)
                         (Db.payments st) <> []).
    { intro Hnil.
      assert (Hf : In p (filter (fun p => (Payments.status p =? "completed")%string)
                                (Db.payments st))).
      { apply filter_In. split; [assumption |]. rewrite Hs.
        apply String.eqb_refl. }
      rewrite Hnil in Hf. contradiction. }
    specialize (Hp1 Hne).
    destruct (Z.eqb_spec (Dashboard.completed_payments_total st) 0); lia.
  - intro Hnone.
    assert (Hnil : filter (fun p => (Payments.status p =? "completed")%string)
                          (Db.payments st) = []).
    { apply filter_nil_iff. intros p Hin. apply String.eqb_neq.
      now apply Hnone. }
    unfold Dashboard.completed_payments_total at 1. rewrite Hnil.
    reflexivity.
Qed.

Lemma totalRevenue_sources_witness :
  let st := fst (StripeWebhook.POST (Scenario.verify (Scenario.completed "paid"))
                   "whsec_1" (Scenario.shop_with_order pending)
                   Scenario.signed_delivery) in
  Integrity.consistent st /\ 0 <= Dashboard.totalRevenue st.
Proof.
  cbv zeta.
  assert (Hc : Integrity.consistent
                 (fst (StripeWebhook.POST
                         (Scenario.verify (Scenario.completed "paid"))
                         "whsec_1" (Scenario.shop_with_order pending)
                         Scenario.signed_delivery))).
  { apply consistent_webhook. unfold Integrity.consistent. simpl.
    repeat split; repeat constructor; simpl; auto; lia. }
  split; [exact Hc |].
  apply (totalRevenue_sources _ Hc).
Defined.

(** ** The product list *)

Lemma insert_sorted_perm (compare : ProductList.Product -> ProductList.Product -> Z)
  (x : ProductList.Product) (l : list ProductList.Product) :
  Permutation (ProductList.insert_sorted compare x l) (x :: l).
Proof.
  induction l as [| y l IH]; cbn [ProductList.insert_sorted]; [reflexivity |].
  destruct (compare x y <=? 0); [reflexivity |].
  rewrite IH. apply perm_swap.
Qed.

(** Sorting reorders and nothing else. *)
Lemma sort_perm (compare : ProductList.Product -> ProductList.Product -> Z)
  (l : list ProductList.Product) :
  Permutation (ProductList.sort compare l) l.
Proof.
  unfold ProductList.sort.
  induction l as [| x l IH]; cbn [fold_right]; [reflexivity |].
  rewrite insert_sorted_perm. now constructor.
Qed.

Lemma fetchProducts_loaded (active : list ProductList.Product) :
  ProductList.well_loaded active
    (ProductList.fetchProducts active ProductList.initial) 0.
Proof.
  unfold ProductList.well_loaded, ProductList.fetchProducts, Chat.range.
  cbv zeta.
  cbn [ProductList.products ProductList.currentPage ProductList.hasMore
       ProductList.filteredProducts ProductList.initial skipn].
  replace (S (ProductList.ITEMS_PER_PAGE - 1) - 0)%nat
    with ProductList.ITEMS_PER_PAGE
    by (unfold ProductList.ITEMS_PER_PAGE; lia).
  rewrite Nat.mul_1_r.
  split; [reflexivity |]. split; [lia |]. split; [| split].
  - intro Hmore. apply Nat.eqb_neq in Hmore.
    rewrite length_firstn in Hmore. lia.
  - reflexivity.
  - intros x [].
Qed.

Lemma loadMoreProducts_loaded (active : list ProductList.Product)
  (s : ProductList.State) (loads : nat) :
  ProductList.well_loaded active s loads ->
  ProductList.well_loaded active (ProductList.loadMoreProducts active s)
                          (S loads).
Proof.
  assert (Hsize : (0 < ProductList.ITEMS_PER_PAGE)%nat)
    by (unfold ProductList.ITEMS_PER_PAGE; lia).
  intros (Hprod & Hpage & Hdone & Hgo & Hshown).
  unfold ProductList.well_loaded, ProductList.loadMoreProducts.
  destruct (ProductList.hasMore s) eqn:Hmore; cbn [negb].
  - specialize (Hgo eq_refl). cbv zeta. unfold Chat.range.
    replace (S ((ProductList.currentPage s + 1 - 1)
                * ProductList.ITEMS_PER_PAGE
                + ProductList.ITEMS_PER_PAGE - 1)
             - (ProductList.currentPage s + 1 - 1)
               * ProductList.ITEMS_PER_PAGE)%nat
      with ProductList.ITEMS_PER_PAGE by lia.
    replace ((ProductList.currentPage s + 1 - 1)
             * ProductList.ITEMS_PER_PAGE)%nat
      with (ProductList.ITEMS_PER_PAGE * ProductList.currentPage s)%nat
      by lia.
    destruct (firstn ProductList.ITEMS_PER_PAGE
                     (skipn (ProductList.ITEMS_PER_PAGE
                             * ProductList.currentPage s) active))
      as [| x data] eqn:Hdata;
      cbn [ProductList.products ProductList.currentPage
           ProductList.hasMore ProductList.filteredProducts].
    + split; [exact Hprod |]. split; [lia |].
      split; [| split; [discriminate | exact Hshown]].
      intros _. apply (f_equal (@List.length ProductList.Product)) in Hdata.
      rewrite length_firstn, length_skipn in Hdata.
      cbn [List.length] in Hdata. lia.
    + split.
      { rewrite Hprod, <- Hdata.
        replace (ProductList.ITEMS_PER_PAGE
                 * (ProductList.currentPage s + 1))%nat
          with (ProductList.ITEMS_PER_PAGE * ProductList.currentPage s
                + ProductList.ITEMS_PER_PAGE)%nat by lia.
        now rewrite firstn_add. }
      split; [lia |]. split; [| split; [intros _; lia |]].
      * intro Hless. apply Nat.eqb_neq in Hless.
        rewrite <- Hdata in Hless.
        rewrite length_firstn, length_skipn in Hless. lia.
      * intros y Hy. apply in_or_app. left. now apply Hshown.
  - split; [exact Hprod |]. split; [lia |].
    split; [intros _; now apply Hdone |].
    split; [congruence | exact Hshown].
Qed.

Lemma filterAndSortProducts_loaded (active : list ProductList.Product)
  (localeCompare : string -> string -> Z)
  (includes_lower : string -> string -> bool)
  (f : ProductList.Filters) (s : ProductList.State) (loads : nat) :
  ProductList.well_loaded active s loads ->
  ProductList.well_loaded active
    (ProductList.filterAndSortProducts localeCompare includes_lower f s) loads.
Proof.
  intros (Hprod & Hpage & Hdone & Hgo & Hshown).
  unfold ProductList.well_loaded, ProductList.filterAndSortProducts.
  cbv zeta.
  cbn [ProductList.products ProductList.currentPage ProductList.hasMore
       ProductList.filteredProducts].
  set (compare := ProductList.compare localeCompare (ProductList.sortBy f)).
  destruct (Js.truthy (Some (ProductList.searchTerm f))) eqn:Hsearch,
           (negb (ProductList.categoryFilter f =? "all")%string) eqn:Hcat;
    cbn [orb];
    (split; [| split; [exact Hpage | split; [exact Hdone | split; [exact Hgo |]]]]);
    try exact Hprod.
  - intros x Hx. apply (Permutation_in _ (sort_perm compare _)) in Hx.
    apply filter_In in Hx as [Hx _]. now apply filter_In in Hx as [Hx _].
  - intros x Hx. apply (Permutation_in _ (sort_perm compare _)) in Hx.
    now apply filter_In in Hx as [Hx _].
  - intros x Hx. apply (Permutation_in _ (sort_perm compare _)) in Hx.
    now apply filter_In in Hx as [Hx _].
  - now rewrite sort_perm.
  - intros x Hx. exact Hx.
Qed.

Lemma run_loaded (active : list ProductList.Product)
  (localeCompare : string -> string -> Z)
  (includes_lower : string -> string -> bool) :
  forall (events : list ProductList.Event) (s : ProductList.State)
         (loads : nat),
    ProductList.well_loaded active s loads ->
    ProductList.well_loaded active
      (fold_left (ProductList.step active localeCompare includes_lower)
                 events s)
      (loads + ProductList.scrolls events).
Proof.
  induction events as [| e events IH]; intros s loads Hs; cbn [fold_left].
  - unfold ProductList.scrolls. cbn. now rewrite Nat.add_0_r.
  - destruct e as [| f]; cbn [ProductList.step].
    + replace (loads + ProductList.scrolls (ProductList.Scrolled :: events))%nat
        with (S loads + ProductList.scrolls events)%nat
        by (unfold ProductList.scrolls; cbn; lia).
      apply IH. now apply loadMoreProducts_loaded.
    + replace (ProductList.scrolls (ProductList.Rendered f :: events))
        with (ProductList.scrolls events) by reflexivity.
      apply IH. now apply filterAndSortProducts_loaded.
Qed.

(** X24. Scrolling the product list neither skips nor repeats a product.
    After the first load and any sequence of scrolls and runs of the filter
    effect (which sorts the loaded list in place when no filter applies),
    the list holds the first 20 * currentPage active products of the store,
    in some order; the page counter never exceeds the number of scrolls
    plus one; once the screen stops asking for more everything is loaded,
    and enough scrolls always load everything; what is shown is part of
    what is loaded. *)
Theorem scroll_loads_first_pages (active : list ProductList.Product)
  (localeCompare : string -> string -> Z)
  (includes_lower : string -> string -> bool)
  (events : list ProductList.Event) :
  let s := ProductList.run active localeCompare includes_lower events in
  let n := ProductList.scrolls events in
  Permutation (ProductList.products s)
              (firstn (ProductList.ITEMS_PER_PAGE * ProductList.currentPage s)
                      active)
  /\ (1 <= ProductList.currentPage s <= n + 1)%nat
  /\ (ProductList.hasMore s = false ->
      Permutation (ProductList.products s) active)
  /\ ((List.length active <= ProductList.ITEMS_PER_PAGE * (n + 1))%nat ->
      Permutation (ProductList.products s) active)
  /\ incl (ProductList.filteredProducts s) (ProductList.products s)
  /\ (NoDup active -> NoDup (ProductList.products s)).
Proof.
  cbv zeta. unfold ProductList.run.
  pose proof (run_loaded active localeCompare includes_lower events _ 0%nat
                (fetchProducts_loaded active))
    as (Hprod & Hpage & Hdone & Hgo & Hshown).
  cbn [Nat.add] in Hpage, Hgo.
  set (s := fold_left _ events _) in *.
  split; [exact Hprod |]. split; [exact Hpage |].
  split; [| split; [| split; [exact Hshown |]]].
  - intro Hmore. rewrite Hprod. rewrite firstn_all2; [reflexivity |].
    now apply Hdone.
  - intro Hlen. rewrite Hprod. rewrite firstn_all2; [reflexivity |].
    destruct (ProductList.hasMore s) eqn:Hmore.
    + rewrite (Hgo eq_refl). exact Hlen.
    + now apply Hdone.
  - intro Hnd. apply (Permutation_NoDup (Permutation_sym Hprod)).
    now apply NoDup_firstn.
Qed.

(** The filter effect with the controls untouched but for the sort order:
    the loaded list itself is reordered, here by price.  With a category
    chosen a copy is sorted and the loaded list keeps the order of the
    store. *)
Example filterAndSortProducts_example :
  let run := ProductList.run Examples5.catalogue Examples5.first_unit
                             Examples5.no_match in
  ProductList.products (run []) = Examples5.catalogue
  /\ ProductList.products
       (run [ProductList.Rendered
               (ProductList.mkFilters "" "all" ProductList.price_low)])
     = [Examples5.zinc; Examples5.omega; Examples5.whey]
  /\ ProductList.products
       (run [ProductList.Rendered
               (ProductList.mkFilters "" "all" ProductList.by_name)])
     = [Examples5.omega; Examples5.whey; Examples5.zinc]
  /\ ProductList.products
       (run [ProductList.Rendered
               (ProductList.mkFilters "" "minerals" ProductList.price_low)])
     = Examples5.catalogue
  /\ ProductList.filteredProducts
       (run [ProductList.Rendered
               (ProductList.mkFilters "" "minerals" ProductList.price_low)])
     = [Examples5.zinc].
Proof. repeat split; reflexivity. Qed.
